(** * Video-understanding backend: job lifecycle and dual vector stores

    A shallow embedding of [backend/main.py]: the object availability
    waiter, the analysis job ledger, the status resolver, the dual-store
    embedding writer and the dual-store search orchestrator, together with
    the properties that the design document states about them.

    Python functions become functions in a state-and-exception monad over a
    [World] that holds the remote services (blob store, OpenSearch index,
    S3 Vectors index, inference engine, function dispatcher), the module's
    globals, and a trace of the remote calls issued so far. *)

From Stdlib Require Import ZArith QArith Qminmax String Ascii List Lia Lqa.
From Stdlib Require Import Decimal DecimalNat DecimalString.
From stdpp Require Import base option list gmap strings.

Local Open Scope string_scope.
Local Open Scope list_scope.

(** ** Python string primitives *)

Module Py.

(** [s.startswith(p)] *)
Fixpoint startswith (s p : string) : bool :=
  match p, s with
  | EmptyString, _ => true
  | String _ _, EmptyString => false
  | String a p', String b s' => if Ascii.eqb a b then startswith s' p' else false
  end.

(** [p in s] for strings. *)
Fixpoint contains (s p : string) : bool :=
  startswith s p ||
  match s with
  | EmptyString => false
  | String _ s' => contains s' p
  end.

(** [c in s] for a single character. *)
Fixpoint has_char (c : ascii) (s : string) : bool :=
  match s with
  | EmptyString => false
  | String a s' => Ascii.eqb a c || has_char c s'
  end.

(** [s.replace(old, new)] for a non-empty [old]: leftmost, non-overlapping.
    [skip] counts the characters of a match that remain to be dropped. *)
Fixpoint replace_go (old new s : string) (skip : nat) : string :=
  match s with
  | EmptyString => EmptyString
  | String a s' =>
      match skip with
      | S k => replace_go old new s' k
      | O =>
          if startswith s old
          then new +:+ replace_go old new s' (String.length old - 1)
          else String a (replace_go old new s' 0)
      end
  end.

Definition replace (s old new : string) : string := replace_go old new s 0.

(** [s.split(c)] for a one-character separator: empty fields are kept. *)
Fixpoint split_go (c : ascii) (s : string) (cur : string) : list string :=
  match s with
  | EmptyString => [cur]
  | String a s' =>
      if Ascii.eqb a c then cur :: split_go c s' ""
      else split_go c s' (cur +:+ String a "")
  end.

Definition split (s : string) (c : ascii) : list string := split_go c s "".

(** [s.split(c, 1)]: split at the first separator only. *)
Fixpoint split1_go (c : ascii) (s : string) (cur : string) : list string :=
  match s with
  | EmptyString => [cur]
  | String a s' =>
      if Ascii.eqb a c then [cur; s']
      else split1_go c s' (cur +:+ String a "")
  end.

Definition split1 (s : string) (c : ascii) : list string := split1_go c s "".

(** [s.rsplit(c, 1)[0]]: everything before the last separator, the whole
    string when there is none. *)
Fixpoint rsplit1_head (s : string) (c : ascii) : string :=
  match s with
  | EmptyString => EmptyString
  | String a s' =>
      if has_char c s' then String a (rsplit1_head s' c)
      else if Ascii.eqb a c then EmptyString
      else s
  end.

(** [l.index(x)]: position of the first element equal to [x]; [None]
    stands for the [ValueError] Python raises. *)
Fixpoint index (l : list string) (x : string) : option nat :=
  match l with
  | [] => None
  | y :: l' => if String.eqb y x then Some 0 else S <$> index l' x
  end.

(** [l[-1]] *)
Definition last (l : list string) : option string := List.last (Some <$> l) None.

(** [s[n:]] *)
Fixpoint drop (n : nat) (s : string) : string :=
  match n, s with
  | O, _ => s
  | S n', EmptyString => EmptyString
  | S n', String _ s' => drop n' s'
  end.

(** [sep.join(l)] *)
Fixpoint join (sep : string) (l : list string) : string :=
  match l with
  | [] => EmptyString
  | [x] => x
  | x :: l' => x +:+ sep +:+ join sep l'
  end.

(** [s.lower()] on the ASCII range. *)
Definition lower_char (a : ascii) : ascii :=
  let n := nat_of_ascii a in
  if (65 <=? n)%nat && (n <=? 90)%nat then ascii_of_nat (n + 32) else a.

Fixpoint lower (s : string) : string :=
  match s with
  | EmptyString => EmptyString
  | String a s' => String (lower_char a) (lower s')
  end.

(** [str(i)] for a non-negative integer. *)
Definition str_nat (i : nat) : string := NilZero.string_of_uint (Nat.to_uint i).

(** [str(z)] for an integer. *)
Definition str_Z (z : Z) : string := NilZero.string_of_int (Z.to_int z).

(** Truthiness of an optional string: [None] and [''] are falsy. *)
Definition truthy (o : option string) : bool :=
  match o with
  | Some (String _ _) => true
  | _ => false
  end.

End Py.

(** ** Numbers and vectors

    Segment times and embedding components are JSON numbers (Python floats
    or ints).  Their arithmetic and printing, and the two engines' ranking
    functions, are taken as an interface. *)

Class PyNum (num : Type) := {
  num_zero : num;                       (* the literal [0] used as a default *)
  num_sub : num -> num -> num;          (* [a - b] *)
  num_str : num -> string;              (* [str(a)] as used in an f-string *)
  num_leb : num -> num -> bool;         (* [a <= b] *)
  cosinesimil : list num -> list num -> num;     (* OpenSearch kNN [_score] *)
  cosine_distance : list num -> list num -> num  (* S3 Vectors [distance] *)
}.

(** Integers as numbers, for running the model on examples. *)
#[export] Instance PyNum_Z : PyNum Z := {|
  num_zero := 0%Z;
  num_sub := Z.sub;
  num_str := Py.str_Z;
  num_leb := Z.leb;
  cosinesimil := fun q v => fold_right Z.add 0%Z (zip_with Z.mul q v);
  cosine_distance := fun q v => (1 - fold_right Z.add 0%Z (zip_with Z.mul q v))%Z
|}.

(** ** Exceptions *)

Inductive exn :=
| ClientError (code message operation : string)  (* botocore ClientError *)
| PyException (message : string)        (* any other [Exception] *)
| JSONDecodeError (message : string).

(** [str(e)] *)
Definition exn_str (e : exn) : string :=
  match e with
  | ClientError code message operation =>
      "An error occurred (" +:+ code +:+ ") when calling the " +:+ operation
        +:+ " operation: " +:+ message
  | PyException message => message
  | JSONDecodeError message => message
  end.

(** Outcome of running a computation: a value, a raised exception, or a
    loop that exhausted the fuel it was given. *)
Inductive result (A : Type) :=
| Val (a : A)
| Exc (e : exn)
| OutOfFuel.
Arguments Val {A} a.
Arguments Exc {A} e.
Arguments OutOfFuel {A}.

(** ** Data model *)

Section Model.

Context {num : Type} `{PyNum num}.

(** One entry of [result_data['data']]: the dictionary [embedding_data].
    A field is [None] when the key is absent. *)
Record Segment := {
  seg_startSec : option num;
  seg_endSec : option num;
  seg_embedding : option (list num);
  seg_embeddingOption : option string
}.

(** The response of [get_async_invoke], passed around as [bedrock_response].
    The nested lookups of the source are flattened into one field each. *)
Record BedrockResponse := {
  br_status : option string;
  br_modelInput_uri : option string;  (* modelInput.mediaSource.s3Location.uri *)
  br_output_s3Uri : option string;    (* outputDataConfig.s3OutputDataConfig.s3Uri *)
  br_modelId : option string;
  br_invocationArn : option string;
  br_endTime : option string
}.

(** The [metadata] object of an OpenSearch document. *)
Record DocMeta := {
  dm_modelId : string;
  dm_invocationArn : string;
  dm_timestamp : string;
  dm_segmentIndex : nat;
  dm_totalSegments : nat
}.

(** A document of the OpenSearch index [video-embeddings]. *)
Record Document := {
  doc_videoId : string;
  doc_videoS3Uri : string;
  doc_segmentId : string;
  doc_startSec : num;
  doc_endSec : num;
  doc_duration : num;
  doc_embedding : list num;
  doc_embeddingOption : string;
  doc_metadata : DocMeta
}.

(** The [metadata] of an S3 Vectors entry. *)
Record VecMeta := {
  vm_videoId : string;
  vm_videoS3Uri : string;
  vm_segmentId : string;
  vm_startSec : num;
  vm_endSec : num;
  vm_duration : num;
  vm_embeddingOption : string
}.

(** An entry of the list given to [put_vectors]. *)
Record Vector := {
  vec_key : string;
  vec_data : list num;
  vec_metadata : VecMeta
}.

(** What a backend write returns to [store_embeddings_dual]: the summary
    dictionary, or [{'error': str(e)}].  The wall-clock field
    [storage_time_ms] is not modelled. *)
Inductive StoreOutcome :=
| Stored (stored_count : nat) (video_id : string)
| StoreError (error : string).

Record DualOutcome := {
  dual_opensearch : StoreOutcome;
  dual_s3vectors : StoreOutcome;
  dual_video_id : string
}.

(** One element of a backend's [results] list.  Both backends use the key
    [score]; [res_metadata] is the document's or the vector's metadata. *)
Record SearchResult := {
  res_videoId : string;
  res_videoS3Uri : string;
  res_segmentId : string;
  res_startSec : num;
  res_endSec : num;
  res_duration : num;
  res_embeddingOption : string;
  res_score : num;
  res_metadata : DocMeta + VecMeta
}.

(** One side of the comparison: [results], [total], and the optional keys
    [message] and [error].  The wall-clock field [search_time_ms] is not
    modelled. *)
Record SearchOutcome := {
  so_results : list SearchResult;
  so_total : nat;
  so_message : option string;
  so_error : option string
}.

(** The ledger record [analysis/<jobId>/job_info.json]. *)
Record JobInfo := {
  jobId : string;
  status : option string;
  videoId : option string;
  s3Uri : option string;
  prompt : option string;
  startTime : option Z;
  submitTime : option string;
  error : option string;
  endTime : option Z;
  failedTime : option string
}.

(** The result record [analysis/<jobId>/result.json]. *)
Record AnalysisResult := {
  ar_videoId : option string;
  ar_analysis : option string;
  ar_finishReason : option string;
  ar_prompt : option string;
  ar_processingTimeSeconds : option num;
  ar_completedTime : option string
}.

(** The content of an object of the blob store. *)
Inductive Blob :=
| JobInfoDoc (j : JobInfo)
| AnalysisResultDoc (r : AnalysisResult)
| EmbeddingOutput (data : option (list Segment))  (* output.json *)
| NotJson (text : string).

(** The payload of the asynchronous self-invocation. *)
Record AsyncPayload := {
  ap_action : string;
  ap_analysisJobId : string;
  ap_s3Uri : string;
  ap_prompt : string;
  ap_videoId : string;
  ap_bucketName : string
}.

(** ** The world: remote services, globals, environment, trace *)

Inductive OSOp := IndicesExists | IndicesGetMapping | IndicesDelete | IndicesCreate | IndexDocument | OSSearch.
Inductive S3VOp := GetVectorBucket | CreateVectorBucket | GetIndex | CreateIndex | PutVectors | QueryVectors.

(** A remote call or a sleep, in the order issued. *)
Inductive Event :=
| Sleep (seconds : Q)
| HeadObject (bucket key : string)
| GetObject (bucket key : string)
| PutObject (bucket key : string) (body : Blob) (stored : bool)
| LambdaInvoke (function_name : string) (payload : AsyncPayload) (accepted : bool)
| StartAsyncInvoke (inputType : string)
| GetAsyncInvoke (invocationArn : option string)
| GetCallerIdentity
| OpenSearchCall (op : OSOp)
| S3VectorsCall (op : S3VOp).

(** The OpenSearch index: the type of its [embedding] field and its
    documents, oldest first. *)
Record OSIndex := {
  ix_embedding_type : option string;
  ix_docs : list Document
}.

Record OpenSearchSvc := {
  os_init_ok : bool;             (* does initialising the client succeed *)
  opensearch_client : bool;      (* the global handle; [false] is [None] *)
  os_index : option OSIndex;     (* the index [video-embeddings] *)
  os_faults : list (option exn)  (* outcome of the next remote calls *)
}.

Record S3VectorsSvc := {
  S3_VECTOR_BUCKET : option string;   (* the global of that name *)
  vector_buckets : gmap string (gmap string (gmap string Vector));
                                      (* bucket -> index -> key -> vector *)
  s3v_faults : list (option exn)
}.

Record BlobSvc := {
  objects : gmap (string * string) Blob;  (* (bucket, key) -> content *)
  s3_faults : list (option exn);          (* outcome of the next get/put *)
  head_oracle : nat -> option exn;        (* outcome of the n-th head_object *)
  head_calls : nat
}.

Record BedrockSvc := {
  start_async : exn + option string;           (* start_async_invoke: the ARN *)
  async_oracle : nat -> exn + BedrockResponse; (* n-th get_async_invoke *)
  async_calls : nat
}.

Record Env := {
  AWS_ACCOUNT_ID : option string;
  REGION : option string;
  VIDEO_BUCKET : string;
  LAMBDA_FUNCTION_NAME : option string;
  sts_account : exn + string;     (* get_caller_identity()['Account'] *)
  lambda_fault : option exn;      (* does lambda_client.invoke raise *)
  time_now : Z;                   (* int(time.time()) *)
  time_str : string;              (* time.strftime(...) *)
  uuid8 : string                  (* str(uuid.uuid4())[:8] *)
}.

Record World := {
  opensearch : OpenSearchSvc;
  s3vectors : S3VectorsSvc;
  s3 : BlobSvc;
  bedrock : BedrockSvc;
  env : Env;
  trace : list Event
}.

Definition with_opensearch (f : OpenSearchSvc -> OpenSearchSvc) (w : World) : World :=
  {| opensearch := f (opensearch w); s3vectors := s3vectors w; s3 := s3 w;
     bedrock := bedrock w; env := env w; trace := trace w |}.

Definition with_s3vectors (f : S3VectorsSvc -> S3VectorsSvc) (w : World) : World :=
  {| opensearch := opensearch w; s3vectors := f (s3vectors w); s3 := s3 w;
     bedrock := bedrock w; env := env w; trace := trace w |}.

Definition with_s3 (f : BlobSvc -> BlobSvc) (w : World) : World :=
  {| opensearch := opensearch w; s3vectors := s3vectors w; s3 := f (s3 w);
     bedrock := bedrock w; env := env w; trace := trace w |}.

Definition with_bedrock (f : BedrockSvc -> BedrockSvc) (w : World) : World :=
  {| opensearch := opensearch w; s3vectors := s3vectors w; s3 := s3 w;
     bedrock := f (bedrock w); env := env w; trace := trace w |}.

Definition with_trace (f : list Event -> list Event) (w : World) : World :=
  {| opensearch := opensearch w; s3vectors := s3vectors w; s3 := s3 w;
     bedrock := bedrock w; env := env w; trace := f (trace w) |}.

(** ** The monad of Python computations *)

Definition M (A : Type) : Type := World -> result A * World.

Definition ret {A} (a : A) : M A := fun w => (Val a, w).

Definition bind {A B} (m : M A) (k : A -> M B) : M B :=
  fun w =>
    match m w with
    | (Val a, w') => k a w'
    | (Exc e, w') => (Exc e, w')
    | (OutOfFuel, w') => (OutOfFuel, w')
    end.

Definition raise {A} (e : exn) : M A := fun w => (Exc e, w).

(** [try: m except Exception as e: h e] *)
Definition try_except {A} (m : M A) (h : exn -> M A) : M A :=
  fun w =>
    match m w with
    | (Exc e, w') => h e w'
    | r => r
    end.

Definition get_world : M World := fun w => (Val w, w).
Definition modify (f : World -> World) : M unit := fun w => (Val tt, f w).
Definition emit (e : Event) : M unit := modify (with_trace (fun t => t ++ [e])).

Notation "'let*' x ':=' m 'in' k" := (bind m (fun x => k))
  (at level 10, x name, m at level 100, k at level 200).
Notation "'let*' ' p ':=' m 'in' k" := (bind m (fun x => match x with p => k end))
  (at level 10, p pattern, m at level 100, k at level 200).
Notation "'do' m 'then' k" := (bind m (fun _ => k))
  (at level 10, m at level 100, k at level 200).

(** ** Remote services *)


Definition S3_VECTOR_INDEX : string := "video-embeddings-index".
Definition VECTOR_DIMENSION : nat := 1024.
Definition index_name : string := "video-embeddings".

(** The outcome scheduled for the next remote call of a service; an
    exhausted schedule means the call goes through. *)
Definition next_fault (l : list (option exn)) : option exn * list (option exn) :=
  match l with
  | [] => (None, [])
  | f :: l' => (f, l')
  end.

Definition set_os_faults (l : list (option exn)) (o : OpenSearchSvc) : OpenSearchSvc :=
  {| os_init_ok := os_init_ok o; opensearch_client := opensearch_client o;
     os_index := os_index o; os_faults := l |}.

Definition set_os_index (ix : option OSIndex) (o : OpenSearchSvc) : OpenSearchSvc :=
  {| os_init_ok := os_init_ok o; opensearch_client := opensearch_client o;
     os_index := ix; os_faults := os_faults o |}.

Definition set_opensearch_client (c : bool) (o : OpenSearchSvc) : OpenSearchSvc :=
  {| os_init_ok := os_init_ok o; opensearch_client := c;
     os_index := os_index o; os_faults := os_faults o |}.

Definition set_s3v_faults (l : list (option exn)) (v : S3VectorsSvc) : S3VectorsSvc :=
  {| S3_VECTOR_BUCKET := S3_VECTOR_BUCKET v; vector_buckets := vector_buckets v;
     s3v_faults := l |}.

Definition set_vector_buckets (m : gmap string (gmap string (gmap string Vector)))
    (v : S3VectorsSvc) : S3VectorsSvc :=
  {| S3_VECTOR_BUCKET := S3_VECTOR_BUCKET v; vector_buckets := m;
     s3v_faults := s3v_faults v |}.

Definition set_S3_VECTOR_BUCKET (b : option string) (v : S3VectorsSvc) : S3VectorsSvc :=
  {| S3_VECTOR_BUCKET := b; vector_buckets := vector_buckets v;
     s3v_faults := s3v_faults v |}.

(** Stable insertion sort, smallest first for [le]. *)
Fixpoint insert_by {A} (le : A -> A -> bool) (x : A) (l : list A) : list A :=
  match l with
  | [] => [x]
  | y :: l' => if le x y then x :: l else y :: insert_by le x l'
  end.

Definition sort_by {A} (le : A -> A -> bool) (l : list A) : list A :=
  fold_right (insert_by le) [] l.

(** *** OpenSearch *)

Definition os_call (op : OSOp) : M unit :=
  do emit (OpenSearchCall op) then
  let* w := get_world in
  let '(f, rest) := next_fault (os_faults (opensearch w)) in
  do modify (with_opensearch (set_os_faults rest)) then
  match f with
  | Some e => raise e
  | None => ret tt
  end.

Definition index_not_found : exn :=
  PyException "NotFoundError(404, 'index_not_found_exception', 'no such index [video-embeddings]', video-embeddings, index_or_alias)".

Definition indices_exists : M bool :=
  do os_call IndicesExists then
  let* w := get_world in
  ret (bool_decide (is_Some (os_index (opensearch w)))).

Definition indices_get_mapping : M (option string) :=
  do os_call IndicesGetMapping then
  let* w := get_world in
  match os_index (opensearch w) with
  | Some ix => ret (ix_embedding_type ix)
  | None => raise index_not_found
  end.

Definition indices_delete : M unit :=
  do os_call IndicesDelete then
  let* w := get_world in
  match os_index (opensearch w) with
  | Some _ => modify (with_opensearch (set_os_index None))
  | None => raise index_not_found
  end.

(** [indices.create] with the [knn_vector] mapping of the source. *)
Definition indices_create : M unit :=
  do os_call IndicesCreate then
  let* w := get_world in
  match os_index (opensearch w) with
  | Some _ =>
      raise (PyException "RequestError(400, 'resource_already_exists_exception', 'index [video-embeddings] already exists')")
  | None =>
      modify (with_opensearch (set_os_index
        (Some {| ix_embedding_type := Some "knn_vector"; ix_docs := [] |})))
  end.

(** [opensearch.index(index=..., body=document)]: no id is given, so the
    service assigns a fresh one and the document is added to the index.
    An absent index is created on the fly with a dynamic mapping. *)
Definition index_document (document : Document) : M unit :=
  do os_call IndexDocument then
  let* w := get_world in
  let ix := default {| ix_embedding_type := Some "float"; ix_docs := [] |}
                    (os_index (opensearch w)) in
  modify (with_opensearch (set_os_index
    (Some {| ix_embedding_type := ix_embedding_type ix;
             ix_docs := ix_docs ix ++ [document] |}))).

(** [opensearch.search] with a kNN query: the [top_k] documents of highest
    similarity, each with its [_score], and [hits.total.value]. *)
Definition knn_hits (docs : list Document) (query_embedding : list num) (top_k : nat)
    : list (Document * num) :=
  take top_k
    (sort_by (fun a b => num_leb (snd b) (snd a))
       (map (fun d => (d, cosinesimil query_embedding (doc_embedding d))) docs)).

Definition os_search (query_embedding : list num) (top_k : nat)
    : M (list (Document * num) * nat) :=
  do os_call OSSearch then
  let* w := get_world in
  match os_index (opensearch w) with
  | Some ix =>
      let hits := knn_hits (ix_docs ix) query_embedding top_k in
      ret (hits, length hits)
  | None => raise index_not_found
  end.

(** *** S3 Vectors *)

Definition s3v_call (op : S3VOp) : M unit :=
  do emit (S3VectorsCall op) then
  let* w := get_world in
  let '(f, rest) := next_fault (s3v_faults (s3vectors w)) in
  do modify (with_s3vectors (set_s3v_faults rest)) then
  match f with
  | Some e => raise e
  | None => ret tt
  end.

Definition s3v_not_found (operation : string) : exn :=
  ClientError "NotFoundException" "The specified resource could not be found" operation.

Definition s3v_conflict (operation : string) : exn :=
  ClientError "ConflictException" "The resource already exists" operation.

Definition get_vector_bucket (vectorBucketName : string) : M unit :=
  do s3v_call GetVectorBucket then
  let* w := get_world in
  match vector_buckets (s3vectors w) !! vectorBucketName with
  | Some _ => ret tt
  | None => raise (s3v_not_found "GetVectorBucket")
  end.

Definition create_vector_bucket (vectorBucketName : string) : M unit :=
  do s3v_call CreateVectorBucket then
  let* w := get_world in
  match vector_buckets (s3vectors w) !! vectorBucketName with
  | Some _ => raise (s3v_conflict "CreateVectorBucket")
  | None =>
      modify (with_s3vectors (set_vector_buckets
        (<[vectorBucketName := ∅]> (vector_buckets (s3vectors w)))))
  end.

Definition lookup_index (w : World) (vectorBucketName indexName : string)
    : option (gmap string Vector) :=
  match vector_buckets (s3vectors w) !! vectorBucketName with
  | Some b => b !! indexName
  | None => None
  end.

Definition get_index (vectorBucketName indexName : string) : M unit :=
  do s3v_call GetIndex then
  let* w := get_world in
  match lookup_index w vectorBucketName indexName with
  | Some _ => ret tt
  | None => raise (s3v_not_found "GetIndex")
  end.

Definition create_index (vectorBucketName indexName : string) : M unit :=
  do s3v_call CreateIndex then
  let* w := get_world in
  match vector_buckets (s3vectors w) !! vectorBucketName with
  | None => raise (s3v_not_found "CreateIndex")
  | Some b =>
      match b !! indexName with
      | Some _ => raise (s3v_conflict "CreateIndex")
      | None =>
          modify (with_s3vectors (set_vector_buckets
            (<[vectorBucketName := <[indexName := ∅]> b]> (vector_buckets (s3vectors w)))))
      end
  end.

(** The effect of [put_vectors] on an index: every vector is written under
    its key, replacing what the key held. *)
Definition upsert_vectors (vectors : list Vector) (ix : gmap string Vector)
    : gmap string Vector :=
  fold_left (fun m v => <[vec_key v := v]> m) vectors ix.

(** Writing a batch of vectors: the entry under a key is the last vector
    of the batch with that key, or what the index held. *)
Fixpoint last_with_key (k : string) (vectors : list Vector) : option Vector :=
  match vectors with
  | [] => None
  | v :: rest =>
      match last_with_key k rest with
      | Some v' => Some v'
      | None => if String.eqb (vec_key v) k then Some v else None
      end
  end.

Definition put_vectors (vectorBucketName indexName : string) (vectors : list Vector)
    : M unit :=
  do s3v_call PutVectors then
  let* w := get_world in
  match vector_buckets (s3vectors w) !! vectorBucketName with
  | None => raise (s3v_not_found "PutVectors")
  | Some b =>
      match b !! indexName with
      | None => raise (s3v_not_found "PutVectors")
      | Some ix =>
          modify (with_s3vectors (set_vector_buckets
            (<[vectorBucketName := <[indexName := upsert_vectors vectors ix]> b]>
               (vector_buckets (s3vectors w)))))
      end
  end.

(** [query_vectors(..., returnDistance=True, returnMetadata=True)]: the
    [topK] vectors of smallest distance. *)
Definition nearest (ix : gmap string Vector) (query_embedding : list num) (topK : nat)
    : list (Vector * num) :=
  take topK
    (sort_by (fun a b => num_leb (snd a) (snd b))
       (map (fun kv => (snd kv, cosine_distance query_embedding (vec_data (snd kv))))
            (map_to_list ix))).

Definition query_vectors (vectorBucketName indexName : string)
    (query_embedding : list num) (topK : nat) : M (list (Vector * num)) :=
  do s3v_call QueryVectors then
  let* w := get_world in
  match lookup_index w vectorBucketName indexName with
  | Some ix => ret (nearest ix query_embedding topK)
  | None => raise (s3v_not_found "QueryVectors")
  end.

(** ** Lazily initialised handles *)

Definition get_account_id : M string :=
  let* w := get_world in
  if Py.truthy (AWS_ACCOUNT_ID (env w))
  then ret (default "" (AWS_ACCOUNT_ID (env w)))
  else
    do emit GetCallerIdentity then
    match sts_account (env w) with
    | inr account_id => ret account_id
    | inl _ =>
        raise (PyException "AWS_ACCOUNT_ID environment variable not set and unable to retrieve from STS")
    end.

Definition get_opensearch_client : M bool :=
  let* w := get_world in
  if opensearch_client (opensearch w) then ret true
  else if os_init_ok (opensearch w)
  then do modify (with_opensearch (set_opensearch_client true)) then ret true
  else ret false.

(** The test the source applies to [str(e)] to recognise a missing bucket
    or index. *)
Definition is_not_found (e : exn) : bool :=
  Py.contains (exn_str e) "NotFoundException"
  || Py.contains (exn_str e) "could not be found"
  || Py.contains (Py.lower (exn_str e)) "does not exist".

Definition vector_bucket_name (account_id region : string) : string :=
  "video-s3vectors-" +:+ account_id +:+ "-" +:+ region.

Definition get_or_create_s3_vector_bucket : M (option string) :=
  let* w := get_world in
  match S3_VECTOR_BUCKET (s3vectors w) with
  | Some b => ret (Some b)
  | None =>
      try_except
        (let* account_id := get_account_id in
         let region := default "us-east-1" (REGION (env w)) in
         let bucket := vector_bucket_name account_id region in
         do modify (with_s3vectors (set_S3_VECTOR_BUCKET (Some bucket))) then
         do try_except (get_vector_bucket bucket)
              (fun e =>
                 if is_not_found e
                 then do create_vector_bucket bucket then emit (Sleep 2)
                 else raise e) then
         do try_except (get_index bucket S3_VECTOR_INDEX)
              (fun e =>
                 if is_not_found e
                 then do create_index bucket S3_VECTOR_INDEX then emit (Sleep 2)
                 else raise e) then
         ret (Some bucket))
        (fun e =>
           do modify (with_s3vectors (set_S3_VECTOR_BUCKET None)) then
           raise e)
  end.

Definition ensure_vector_index : M unit :=
  let* present := indices_exists in
  let* finished :=
    (if present
     then try_except
            (let* embedding_type := indices_get_mapping in
             if bool_decide (embedding_type = Some "knn_vector")
             then ret true
             else do indices_delete then ret false)
            (fun _ => ret true)
     else ret false) in
  if finished then ret tt else indices_create.

(** ** The dual-store embedding writer *)

Definition extract_video_metadata (bedrock_response : BedrockResponse) : string * string :=
  let video_s3_uri := default "" (br_modelInput_uri bedrock_response) in
  let video_id := "unknown" in
  let '(video_id, video_s3_uri) :=
    if Py.truthy (Some video_s3_uri) then (video_id, video_s3_uri)
    else
      let output_s3_uri := default "" (br_output_s3Uri bedrock_response) in
      if Py.truthy (Some output_s3_uri) && Py.contains output_s3_uri "/embeddings/"
      then
        let path_parts := Py.split (Py.replace output_s3_uri "s3://" "") "/" in
        let bucket_name := default "" (path_parts !! 0%nat) in
        match Py.index path_parts "embeddings" with
        | Some embeddings_index =>
            match path_parts !! (embeddings_index + 1)%nat with
            | Some extracted_folder_name =>
                let video_filename := extracted_folder_name +:+ ".mp4" in
                (extracted_folder_name,
                 "s3://" +:+ bucket_name +:+ "/videos/" +:+ video_filename)
            | None => (video_id, video_s3_uri)
            end
        | None => (video_id, video_s3_uri)
        end
      else (video_id, video_s3_uri) in
  let video_id :=
    if String.eqb video_id "unknown" && Py.truthy (Some video_s3_uri)
       && Py.startswith video_s3_uri "s3://"
    then
      let extracted_id := default "" (Py.last (Py.split video_s3_uri "/")) in
      if Py.has_char "." extracted_id
      then Py.rsplit1_head extracted_id "."
      else extracted_id
    else video_id in
  (video_id, video_s3_uri).

(** [f"{video_id}_segment_{i}_{embedding_data.get('startSec', 0)}"] *)
Definition segment_id (video_id : string) (i : nat) (embedding_data : Segment) : string :=
  video_id +:+ "_segment_" +:+ Py.str_nat i +:+ "_"
    +:+ num_str (default num_zero (seg_startSec embedding_data)).

Definition make_vector (video_id video_s3_uri : string) (i : nat)
    (embedding_data : Segment) : Vector :=
  {| vec_key := segment_id video_id i embedding_data;
     vec_data := default [] (seg_embedding embedding_data);
     vec_metadata :=
       {| vm_videoId := video_id;
          vm_videoS3Uri := video_s3_uri;
          vm_segmentId := segment_id video_id i embedding_data;
          vm_startSec := default num_zero (seg_startSec embedding_data);
          vm_endSec := default num_zero (seg_endSec embedding_data);
          vm_duration := num_sub (default num_zero (seg_endSec embedding_data))
                                 (default num_zero (seg_startSec embedding_data));
          vm_embeddingOption :=
            default "visual-text" (seg_embeddingOption embedding_data) |} |}.

(** The list [vectors] built by the loop over [enumerate(embedding_data_list)],
    starting at index [i]. *)
Fixpoint make_vectors (video_id video_s3_uri : string) (i : nat)
    (embedding_data_list : list Segment) : list Vector :=
  match embedding_data_list with
  | [] => []
  | embedding_data :: rest =>
      make_vector video_id video_s3_uri i embedding_data
        :: make_vectors video_id video_s3_uri (S i) rest
  end.

Definition store_embeddings_to_s3_vectors (video_id video_s3_uri : string)
    (embedding_data_list : list Segment) : M StoreOutcome :=
  let* bucket_name := get_or_create_s3_vector_bucket in
  match bucket_name with
  | None => raise (PyException "S3 Vector bucket not available")
  | Some bucket_name =>
      if negb (Py.truthy (Some bucket_name))
      then raise (PyException "S3 Vector bucket not available")
      else
        let vectors := make_vectors video_id video_s3_uri 0 embedding_data_list in
        do put_vectors bucket_name S3_VECTOR_INDEX vectors then
        ret (Stored (length vectors) video_id)
  end.

Definition make_document (bedrock_response : BedrockResponse)
    (video_id video_s3_uri : string) (total : nat) (i : nat)
    (embedding_data : Segment) : Document :=
  {| doc_videoId := video_id;
     doc_videoS3Uri := video_s3_uri;
     doc_segmentId := segment_id video_id i embedding_data;
     doc_startSec := default num_zero (seg_startSec embedding_data);
     doc_endSec := default num_zero (seg_endSec embedding_data);
     doc_duration := num_sub (default num_zero (seg_endSec embedding_data))
                             (default num_zero (seg_startSec embedding_data));
     doc_embedding := default [] (seg_embedding embedding_data);
     doc_embeddingOption := default "visual-text" (seg_embeddingOption embedding_data);
     doc_metadata :=
       {| dm_modelId := default "" (br_modelId bedrock_response);
          dm_invocationArn := default "" (br_invocationArn bedrock_response);
          dm_timestamp := default "" (br_endTime bedrock_response);
          dm_segmentIndex := i;
          dm_totalSegments := total |} |}.

(** The loop of [store_embeddings_to_opensearch]: one [index] call per
    segment, counting the documents stored. *)
Fixpoint index_segments (bedrock_response : BedrockResponse)
    (video_id video_s3_uri : string) (total : nat) (i : nat)
    (embedding_data_list : list Segment) (stored_count : nat) : M nat :=
  match embedding_data_list with
  | [] => ret stored_count
  | embedding_data :: rest =>
      do index_document
           (make_document bedrock_response video_id video_s3_uri total i embedding_data) then
      index_segments bedrock_response video_id video_s3_uri total (S i) rest
        (S stored_count)
  end.

(** The documents sent to OpenSearch by the loop of
    [store_embeddings_to_opensearch], in order, starting at index [i]. *)
Fixpoint documents_sent (bedrock_response : BedrockResponse)
    (video_id video_s3_uri : string) (total i : nat)
    (embedding_data_list : list Segment) : list Document :=
  match embedding_data_list with
  | [] => []
  | embedding_data :: rest =>
      make_document bedrock_response video_id video_s3_uri total i embedding_data
        :: documents_sent bedrock_response video_id video_s3_uri total (S i) rest
  end.

Definition store_embeddings_to_opensearch (bedrock_response : BedrockResponse)
    (embedding_data_list : list Segment) : M StoreOutcome :=
  let* client := get_opensearch_client in
  if negb client then raise (PyException "OpenSearch client not available")
  else
    do ensure_vector_index then
    let '(video_id, video_s3_uri) := extract_video_metadata bedrock_response in
    let* stored_count :=
      index_segments bedrock_response video_id video_s3_uri
        (length embedding_data_list) 0 embedding_data_list 0 in
    ret (Stored stored_count video_id).

Definition store_embeddings_dual (bedrock_response : BedrockResponse)
    (embedding_data_list : list Segment) : M DualOutcome :=
  let* opensearch_result :=
    try_except (store_embeddings_to_opensearch bedrock_response embedding_data_list)
      (fun e => ret (StoreError (exn_str e))) in
  let '(video_id, video_s3_uri) := extract_video_metadata bedrock_response in
  let* s3vectors_result :=
    try_except (store_embeddings_to_s3_vectors video_id video_s3_uri embedding_data_list)
      (fun e => ret (StoreError (exn_str e))) in
  ret {| dual_opensearch := opensearch_result;
         dual_s3vectors := s3vectors_result;
         dual_video_id := video_id |}.

(** ** The dual-store search *)

Definition no_videos_outcome : SearchOutcome :=
  {| so_results := [];
     so_total := 0;
     so_message := Some "No videos indexed yet - upload and process videos with embeddings first";
     so_error := None |}.

Definition mentions_index_not_found (e : exn) : bool :=
  Py.contains (Py.lower (exn_str e)) "index_not_found_exception".

(** The entry built from an OpenSearch hit: [score] is the hit's [_score]. *)
Definition opensearch_result (hit : Document * num) : SearchResult :=
  let source := fst hit in
  {| res_videoId := doc_videoId source;
     res_videoS3Uri := doc_videoS3Uri source;
     res_segmentId := doc_segmentId source;
     res_startSec := doc_startSec source;
     res_endSec := doc_endSec source;
     res_duration := doc_duration source;
     res_embeddingOption := doc_embeddingOption source;
     res_score := snd hit;
     res_metadata := inl (doc_metadata source) |}.

(** The entry built from an S3 Vectors result: [score] is the [distance]. *)
Definition s3vectors_result (vector : Vector * num) : SearchResult :=
  let metadata := vec_metadata (fst vector) in
  {| res_videoId := vm_videoId metadata;
     res_videoS3Uri := vm_videoS3Uri metadata;
     res_segmentId := vm_segmentId metadata;
     res_startSec := vm_startSec metadata;
     res_endSec := vm_endSec metadata;
     res_duration := vm_duration metadata;
     res_embeddingOption := vm_embeddingOption metadata;
     res_score := snd vector;
     res_metadata := inr metadata |}.

Definition search_opensearch (query_embedding : list num) (top_k : nat) : M SearchOutcome :=
  try_except
    (let* client := get_opensearch_client in
     if negb client then raise (PyException "OpenSearch client not available")
     else
       let* early :=
         try_except (do ensure_vector_index then ret None)
           (fun e =>
              if mentions_index_not_found e then ret (Some no_videos_outcome)
              else raise e) in
       match early with
       | Some outcome => ret outcome
       | None =>
           let* '(hits, total) := os_search query_embedding top_k in
           ret {| so_results := map opensearch_result hits;
                  so_total := total;
                  so_message := None;
                  so_error := None |}
       end)
    (fun e =>
       if mentions_index_not_found e then ret no_videos_outcome
       else raise e).

Definition search_s3_vectors (query_embedding : list num) (top_k : nat) : M SearchOutcome :=
  let* bucket_name := get_or_create_s3_vector_bucket in
  match bucket_name with
  | None => raise (PyException "S3 Vector bucket not available")
  | Some bucket_name =>
      if negb (Py.truthy (Some bucket_name))
      then raise (PyException "S3 Vector bucket not available")
      else
        let* vectors := query_vectors bucket_name S3_VECTOR_INDEX query_embedding top_k in
        let results := map s3vectors_result vectors in
        ret {| so_results := results;
               so_total := length results;
               so_message := None;
               so_error := None |}
  end.

(** The [except] branch of each search in [handle_search]. *)
Definition failed_search (e : exn) : SearchOutcome :=
  {| so_results := []; so_total := 0; so_message := None; so_error := Some (exn_str e) |}.

(** ** The blob store *)

Definition set_objects (m : gmap (string * string) Blob) (b : BlobSvc) : BlobSvc :=
  {| objects := m; s3_faults := s3_faults b; head_oracle := head_oracle b;
     head_calls := head_calls b |}.

Definition set_s3_faults (l : list (option exn)) (b : BlobSvc) : BlobSvc :=
  {| objects := objects b; s3_faults := l; head_oracle := head_oracle b;
     head_calls := head_calls b |}.

Definition set_head_calls (n : nat) (b : BlobSvc) : BlobSvc :=
  {| objects := objects b; s3_faults := s3_faults b; head_oracle := head_oracle b;
     head_calls := n |}.

Definition set_async_calls (n : nat) (b : BedrockSvc) : BedrockSvc :=
  {| start_async := start_async b; async_oracle := async_oracle b; async_calls := n |}.

Definition head_object (Bucket Key : string) : M unit :=
  do emit (HeadObject Bucket Key) then
  let* w := get_world in
  do modify (with_s3 (set_head_calls (S (head_calls (s3 w))))) then
  match head_oracle (s3 w) (head_calls (s3 w)) with
  | Some e => raise e
  | None => ret tt
  end.

Definition get_object (Bucket Key : string) : M Blob :=
  do emit (GetObject Bucket Key) then
  let* w := get_world in
  let '(f, rest) := next_fault (s3_faults (s3 w)) in
  do modify (with_s3 (set_s3_faults rest)) then
  match f with
  | Some e => raise e
  | None =>
      match objects (s3 w) !! (Bucket, Key) with
      | Some blob => ret blob
      | None => raise (ClientError "NoSuchKey" "The specified key does not exist." "GetObject")
      end
  end.

(** [put_object] replaces the whole object under the key. *)
Definition put_object (Bucket Key : string) (Body : Blob) : M unit :=
  let* w := get_world in
  let '(f, rest) := next_fault (s3_faults (s3 w)) in
  do modify (with_s3 (set_s3_faults rest)) then
  match f with
  | Some e => do emit (PutObject Bucket Key Body false) then raise e
  | None =>
      do emit (PutObject Bucket Key Body true) then
      modify (with_s3 (set_objects (<[(Bucket, Key) := Body]> (objects (s3 w)))))
  end.

Definition lambda_invoke (FunctionName : string) (Payload : AsyncPayload) : M unit :=
  let* w := get_world in
  match lambda_fault (env w) with
  | Some e => do emit (LambdaInvoke FunctionName Payload false) then raise e
  | None => emit (LambdaInvoke FunctionName Payload true)
  end.

Definition start_async_invoke (inputType : string) : M (option string) :=
  do emit (StartAsyncInvoke inputType) then
  let* w := get_world in
  match start_async (bedrock w) with
  | inl e => raise e
  | inr invocationArn => ret invocationArn
  end.

Definition get_async_invoke (invocationArn : option string) : M BedrockResponse :=
  do emit (GetAsyncInvoke invocationArn) then
  let* w := get_world in
  do modify (with_bedrock (set_async_calls (S (async_calls (bedrock w))))) then
  match async_oracle (bedrock w) (async_calls (bedrock w)) with
  | inl e => raise e
  | inr response => ret response
  end.

(** ** The object availability waiter *)

Definition Qltb (a b : Q) : bool := negb (Qle_bool b a).

(** The [while total_waited < max_wait_seconds] loop; [fuel] bounds the
    number of iterations. *)
Fixpoint wait_loop (fuel : nat) (bucket_name object_key : string)
    (max_wait_seconds : Z) (wait_time total_waited : Q) : M bool :=
  if Qltb total_waited (inject_Z max_wait_seconds) then
    match fuel with
    | O => fun w => (OutOfFuel, w)
    | S fuel' =>
        let* found :=
          try_except (do head_object bucket_name object_key then ret (Some true))
            (fun e =>
               match e with
               | ClientError error_code _ _ =>
                   if String.eqb error_code "NoSuchKey" then ret None
                   else ret (Some false)
               | _ => ret (Some false)
               end) in
        match found with
        | Some answer => ret answer
        | None =>
            do emit (Sleep wait_time) then
            wait_loop fuel' bucket_name object_key max_wait_seconds
              (Qmin (wait_time * (3 # 2)) 5) (total_waited + wait_time)
        end
    end
  else ret false.

Definition wait_for_s3_object (s3_uri : string) (max_wait_seconds : Z) : M bool :=
  if negb (Py.startswith s3_uri "s3://") then ret false
  else
    let s3_path := Py.drop 5 s3_uri in
    match Py.split1 s3_path "/" with
    | [bucket_name; object_key] =>
        wait_loop (Z.to_nat max_wait_seconds) bucket_name object_key
          max_wait_seconds 1 0
    | _ => ret false
    end.

(** The events of the waiter. *)
Definition is_wait_event (e : Event) : Prop :=
  match e with
  | HeadObject _ _ | Sleep _ => True
  | _ => False
  end.

(** [error_code == 'NoSuchKey'] for a [ClientError]; any other exception
    is not a not-found answer. *)
Definition is_no_such_key (e : exn) : bool :=
  match e with
  | ClientError code _ _ => String.eqb code "NoSuchKey"
  | _ => false
  end.

(** The world after one existence check, and after a sleep. *)
Definition checked (bucket_name object_key : string) (w : World) : World :=
  with_s3 (set_head_calls (S (head_calls (s3 w))))
    (with_trace (fun t => t ++ [HeadObject bucket_name object_key]) w).

Definition slept (seconds : Q) (w : World) : World :=
  with_trace (fun t => t ++ [Sleep seconds]) w.

(** ** Requests and responses *)

(** The API event: the JSON body as an object of strings ([inl] carries
    the message of a body that does not parse), and the query parameters. *)
Record ApiEvent := {
  ev_body : string + gmap string string;
  queryStringParameters : option (gmap string string)
}.

Record LambdaContext := { function_name : string }.

(** The JSON bodies that the handlers return. *)
Inductive Body :=
| ErrorBody (error : string)
| AnalyzeAccepted (analysisJobId status message videoId : string)
| AnalysisCompleted (jobId videoId analysis finishReason prompt : string)
    (processingTime : num) (completedTime message : string)
| AnalysisResultMissing (message jobId : string)
| AnalysisFailed (jobId error message : string)
| AnalysisPending (status jobId message videoId submitTime : string)
| EmbeddingCompleted (status : option string)
    (segments_processed opensearch_stored s3vectors_stored : nat)
    (video_id message : string)
| StatusMessage (status : option string) (message : string)
| Comparison (opensearch s3vectors : SearchOutcome) (query message : string).

Record Response := {
  statusCode : Z;
  headers : list (string * string);
  body : Body
}.

Definition respond (code : Z) (cors_headers : list (string * string)) (b : Body) : Response :=
  {| statusCode := code; headers := cors_headers; body := b |}.

(** ** The analysis job ledger *)

Definition job_key (analysis_job_id : string) : string :=
  "analysis/" +:+ analysis_job_id +:+ "/job_info.json".

Definition result_key (analysis_job_id : string) : string :=
  "analysis/" +:+ analysis_job_id +:+ "/result.json".

Definition empty_job_info : JobInfo :=
  {| jobId := ""; status := None; videoId := None; s3Uri := None; prompt := None;
     startTime := None; submitTime := None; error := None; endTime := None;
     failedTime := None |}.

Definition empty_analysis_result : AnalysisResult :=
  {| ar_videoId := None; ar_analysis := None; ar_finishReason := None;
     ar_prompt := None; ar_processingTimeSeconds := None; ar_completedTime := None |}.

(** [json.loads(...)] of a ledger record, read through [.get]: a JSON
    document of another shape has none of the keys. *)
Definition loads_job_info (blob : Blob) : M JobInfo :=
  match blob with
  | JobInfoDoc j => ret j
  | NotJson text => raise (JSONDecodeError "Expecting value: line 1 column 1 (char 0)")
  | _ => ret empty_job_info
  end.

Definition loads_analysis_result (blob : Blob) : M AnalysisResult :=
  match blob with
  | AnalysisResultDoc r => ret r
  | NotJson text => raise (JSONDecodeError "Expecting value: line 1 column 1 (char 0)")
  | _ => ret empty_analysis_result
  end.

(** [json.loads(...)] of an [output.json]: the value under ['data']. *)
Definition loads_embedding_output (blob : Blob) : M (option (list Segment)) :=
  match blob with
  | EmbeddingOutput data => ret data
  | NotJson text => raise (JSONDecodeError "Expecting value: line 1 column 1 (char 0)")
  | _ => ret None
  end.

(** [except ClientError as e: if code == 'NoSuchKey': return r; raise] *)
Definition on_no_such_key {A} (r : A) (e : exn) : M A :=
  match e with
  | ClientError code _ _ => if String.eqb code "NoSuchKey" then ret r else raise e
  | _ => raise e
  end.

Definition handle_analysis_status (analysis_job_id : string)
    (cors_headers : list (string * string)) : M Response :=
  try_except
    (let* w := get_world in
     let bucket_name := VIDEO_BUCKET (env w) in
     let* found :=
       try_except
         (let* job_response := get_object bucket_name (job_key analysis_job_id) in
          let* job_info := loads_job_info job_response in
          ret (inr job_info))
         (on_no_such_key
            (inl (respond 404 cors_headers
                    (ErrorBody ("Analysis job " +:+ analysis_job_id +:+ " not found"))))) in
     match found with
     | inl response => ret response
     | inr job_info =>
         let job_status := default "Unknown" (status job_info) in
         if String.eqb job_status "Completed" then
           try_except
             (let* result_response := get_object bucket_name (result_key analysis_job_id) in
              let* result_data := loads_analysis_result result_response in
              ret (respond 200 cors_headers
                     (AnalysisCompleted analysis_job_id
                        (default "unknown" (ar_videoId result_data))
                        (default "" (ar_analysis result_data))
                        (default "" (ar_finishReason result_data))
                        (default "" (ar_prompt result_data))
                        (default num_zero (ar_processingTimeSeconds result_data))
                        (default "" (ar_completedTime result_data))
                        "Analysis completed successfully")))
             (on_no_such_key
                (respond 200 cors_headers
                   (AnalysisResultMissing "Analysis completed but result file not found"
                      analysis_job_id)))
         else if String.eqb job_status "Failed" then
           ret (respond 200 cors_headers
                  (AnalysisFailed analysis_job_id
                     (default "Analysis failed" (error job_info)) "Analysis failed"))
         else
           ret (respond 200 cors_headers
                  (AnalysisPending job_status analysis_job_id
                     ("Analysis is " +:+ Py.lower job_status)
                     (default "unknown" (videoId job_info))
                     (default "" (submitTime job_info))))
     end)
    (fun e =>
       ret (respond 500 cors_headers
              (ErrorBody ("Failed to check analysis status: " +:+ exn_str e)))).

(** ** The inference job submitter (analysis) *)

(** [job_info.update({'status': 'Failed', 'error': ..., 'endTime': ...,
    'failedTime': ...})] *)
Definition mark_failed (job_info : JobInfo) (detail : string) (now : Z) (now_str : string)
    : JobInfo :=
  {| jobId := jobId job_info;
     status := Some "Failed";
     videoId := videoId job_info;
     s3Uri := s3Uri job_info;
     prompt := prompt job_info;
     startTime := startTime job_info;
     submitTime := submitTime job_info;
     error := Some detail;
     endTime := Some now;
     failedTime := Some now_str |}.

(** The [except] clauses that close [handle_analyze]. *)
Definition analyze_failure (cors_headers : list (string * string)) (e : exn) : Response :=
  match e with
  | JSONDecodeError _ =>
      respond 400 cors_headers (ErrorBody ("Invalid JSON in request body: " +:+ exn_str e))
  | ClientError code message _ =>
      respond 500 cors_headers
        (ErrorBody ("AWS Error (" +:+ code +:+ "): " +:+ message))
  | PyException _ =>
      respond 500 cors_headers (ErrorBody ("Analysis failed: " +:+ exn_str e))
  end.

Definition handle_analyze (event : ApiEvent) (cors_headers : list (string * string))
    (context : LambdaContext) : M Response :=
  try_except
    (match ev_body event with
     | inl message => raise (JSONDecodeError message)
     | inr body =>
         let s3_uri := body !! "s3Uri" in
         let prompt :=
           default "Analyze this video and provide a detailed description"
                   (body !! "prompt") in
         let video_id := default "unknown" (body !! "videoId") in
         if negb (Py.truthy s3_uri)
         then ret (respond 400 cors_headers (ErrorBody "S3 URI is required"))
         else
           let s3_uri := default "" s3_uri in
           let* available := wait_for_s3_object s3_uri 30 in
           if negb available
           then ret (respond 404 cors_headers
                       (ErrorBody "Video file not found in S3. Please ensure the upload completed successfully."))
           else
             let* w := get_world in
             let analysis_job_id :=
               "analysis_" +:+ Py.str_Z (time_now (env w)) +:+ "_" +:+ uuid8 (env w) in
             let job_info :=
               {| jobId := analysis_job_id;
                  status := Some "InProgress";
                  videoId := Some video_id;
                  s3Uri := Some s3_uri;
                  prompt := Some prompt;
                  startTime := Some (time_now (env w));
                  submitTime := Some (time_str (env w));
                  error := None;
                  endTime := None;
                  failedTime := None |} in
             let bucket_name := VIDEO_BUCKET (env w) in
             let* failed_to_store :=
               try_except
                 (do put_object bucket_name (job_key analysis_job_id) (JobInfoDoc job_info)
                  then ret None)
                 (fun e =>
                    ret (Some (respond 500 cors_headers
                                 (ErrorBody ("Failed to initialize analysis job: "
                                               +:+ exn_str e))))) in
             match failed_to_store with
             | Some response => ret response
             | None =>
                 let* failed_to_dispatch :=
                   try_except
                     (let function_name :=
                        if Py.truthy (LAMBDA_FUNCTION_NAME (env w))
                        then default "" (LAMBDA_FUNCTION_NAME (env w))
                        else function_name context in
                      let async_payload :=
                        {| ap_action := "process_analysis";
                           ap_analysisJobId := analysis_job_id;
                           ap_s3Uri := s3_uri;
                           ap_prompt := prompt;
                           ap_videoId := video_id;
                           ap_bucketName := bucket_name |} in
                      do lambda_invoke function_name async_payload then ret None)
                     (fun e =>
                        let job_info :=
                          mark_failed job_info
                            ("Failed to start async processing: " +:+ exn_str e)
                            (time_now (env w)) (time_str (env w)) in
                        do put_object bucket_name (job_key analysis_job_id)
                             (JobInfoDoc job_info) then
                        ret (Some (respond 500 cors_headers
                                     (ErrorBody ("Failed to start analysis: "
                                                   +:+ exn_str e))))) in
                 match failed_to_dispatch with
                 | Some response => ret response
                 | None =>
                     ret (respond 202 cors_headers
                            (AnalyzeAccepted analysis_job_id "processing"
                               "Analysis started successfully. Use /status endpoint to check progress."
                               video_id))
                 end
             end
     end)
    (fun e => ret (analyze_failure cors_headers e)).

(** The event of writing the ledger record of a job. *)
Definition ledger_write (bucket : string) (j : JobInfo) (stored : bool) : Event :=
  PutObject bucket (job_key (jobId j)) (JobInfoDoc j) stored.

(** ** The status resolver *)

(** The [except] clauses that close [handle_status]. *)
Definition status_failure (cors_headers : list (string * string)) (e : exn) : Response :=
  match e with
  | ClientError code message _ =>
      respond 500 cors_headers
        (ErrorBody ("AWS Error (" +:+ code +:+ "): " +:+ message))
  | _ => respond 500 cors_headers (ErrorBody ("Status check failed: " +:+ exn_str e))
  end.

(** [bucket] and [key] of the [output.json] under an output URI. *)
Definition output_location (output_s3_uri : string) : string * string :=
  let uri_parts := Py.split (Py.replace output_s3_uri "s3://" "") "/" in
  (default "" (uri_parts !! 0%nat), Py.join "/" (tail uri_parts) +:+ "/output.json").

(** [storage_result.get(side, {}).get('stored_count', 0)] *)
Definition stored_count_of (o : StoreOutcome) : nat :=
  match o with
  | Stored stored_count _ => stored_count
  | StoreError _ => 0
  end.

(** Result materialization: the dual write for a completed embedding job,
    as [handle_status] performs it. [inl] is [{'error': str(e)}]. *)
Definition materialize (response : BedrockResponse) (data : option (list Segment))
    : M (option (string + DualOutcome)) :=
  match data with
  | Some ((_ :: _) as embedding_data_list) =>
      try_except
        (let* storage_result := store_embeddings_dual response embedding_data_list in
         ret (Some (inr storage_result)))
        (fun e => ret (Some (inl (exn_str e))))
  | _ => ret None
  end.

Definition handle_status (event : ApiEvent) (cors_headers : list (string * string))
    : M Response :=
  try_except
    (let query_params := default ∅ (queryStringParameters event) in
     let invocation_arn := query_params !! "invocationArn" in
     let analysis_job_id := query_params !! "analysisJobId" in
     if Py.truthy analysis_job_id
     then handle_analysis_status (default "" analysis_job_id) cors_headers
     else if negb (Py.truthy invocation_arn)
     then ret (respond 400 cors_headers
                 (ErrorBody "Either invocationArn or analysisJobId parameter is required"))
     else
       let* response := get_async_invoke invocation_arn in
       let status := br_status response in
       if bool_decide (status = Some "Completed") then
         let output_s3_uri := br_output_s3Uri response in
         if Py.truthy output_s3_uri then
           let '(bucket, key) := output_location (default "" output_s3_uri) in
           try_except
             (let* s3_response := get_object bucket key in
              let* data := loads_embedding_output s3_response in
              let* storage_result := materialize response data in
              let segments_count := length (default [] data) in
              ret (respond 200 cors_headers
                     (EmbeddingCompleted status segments_count
                        match storage_result with
                        | Some (inr d) => stored_count_of (dual_opensearch d)
                        | _ => 0
                        end
                        match storage_result with
                        | Some (inr d) => stored_count_of (dual_s3vectors d)
                        | _ => 0
                        end
                        match storage_result with
                        | Some (inr d) => dual_video_id d
                        | _ => "unknown"
                        end
                        ("Embedding completed with " +:+ Py.str_nat segments_count
                           +:+ " segments stored to both systems"))))
             (fun e =>
                ret (respond 200 cors_headers
                       (StatusMessage status
                          ("Completed but could not retrieve result: " +:+ exn_str e))))
         else
           ret (respond 200 cors_headers
                  (StatusMessage status "Completed but no output S3 URI found in response"))
       else
         match status with
         | Some text =>
             ret (respond 200 cors_headers
                    (StatusMessage status ("Invocation is " +:+ Py.lower text)))
         | None => raise (PyException "'NoneType' object has no attribute 'lower'")
         end)
    (fun e => ret (status_failure cors_headers e)).

(** ** The search handler *)

(** The polling loop of [handle_search].  It ends with the query embedding
    when the loop is left by [break], with [None] when the condition
    [waited < max_wait] fails; the final [waited] is returned with it. *)
Fixpoint poll_query_embedding (fuel : nat) (invocation_arn : option string)
    (max_wait poll_interval waited : Z) : M (option (list num) * Z) :=
  if (waited <? max_wait)%Z then
    match fuel with
    | O => fun w => (OutOfFuel, w)
    | S fuel' =>
        let* status_response := get_async_invoke invocation_arn in
        let status := br_status status_response in
        let* query_embedding :=
          if bool_decide (status = Some "Completed") then
            let output_s3_uri := br_output_s3Uri status_response in
            if Py.truthy output_s3_uri then
              let '(bucket, key) := output_location (default "" output_s3_uri) in
              let* s3_response := get_object bucket key in
              let* data := loads_embedding_output s3_response in
              match data with
              | Some (first :: _) => ret (seg_embedding first)
              | _ => ret None
              end
            else ret None
          else if bool_decide (status = Some "Failed") then
            raise (PyException "Embedding generation failed")
          else if bool_decide (status = Some "Cancelled") then
            raise (PyException "Embedding generation cancelled")
          else ret None in
        match query_embedding with
        | Some embedding => ret (Some embedding, waited)
        | None =>
            do emit (Sleep (inject_Z poll_interval)) then
            poll_query_embedding fuel' invocation_arn max_wait poll_interval
              (waited + poll_interval)%Z
        end
    end
  else ret (None, waited).

Definition handle_search (event : ApiEvent) (cors_headers : list (string * string))
    : M Response :=
  try_except
    (let query_params := default ∅ (queryStringParameters event) in
     let query_text := default "" (query_params !! "q") in
     if negb (Py.truthy (Some query_text))
     then ret (respond 400 cors_headers (ErrorBody "Query parameter q is required"))
     else
       let* generated :=
         try_except
           (let* invocation_arn := start_async_invoke "text" in
            let max_wait := 25%Z in
            let poll_interval := 1%Z in
            let* '(query_embedding, waited) :=
              poll_query_embedding (Z.to_nat max_wait) invocation_arn
                max_wait poll_interval 0 in
            if (max_wait <=? waited)%Z
            then ret (inl (respond 408 cors_headers
                             (ErrorBody "Query embedding generation timed out")))
            else
              match query_embedding with
              | Some ((_ :: _) as embedding) => ret (inr embedding)
              | _ => ret (inl (respond 500 cors_headers
                                 (ErrorBody "Failed to generate query embedding")))
              end)
           (fun e =>
              ret (inl (respond 500 cors_headers
                          (ErrorBody ("Failed to generate embedding: " +:+ exn_str e))))) in
       match generated with
       | inl response => ret response
       | inr query_embedding =>
           let* opensearch_result :=
             try_except (search_opensearch query_embedding 10)
               (fun e => ret (failed_search e)) in
           let* s3vectors_result :=
             try_except (search_s3_vectors query_embedding 10)
               (fun e => ret (failed_search e)) in
           ret (respond 200 cors_headers
                  (Comparison opensearch_result s3vectors_result query_text
                     "Dual search completed - compare OpenSearch vs S3 Vectors performance and results"))
       end)
    (fun e => ret (respond 500 cors_headers (ErrorBody (exn_str e)))).

(** The events of starting and polling the query-embedding job. *)
Definition is_poll_event (e : Event) : Prop :=
  match e with
  | StartAsyncInvoke _ | GetAsyncInvoke _ | Sleep _ => True
  | _ => False
  end.

(** What one status check of the polling loop may answer. *)
Definition not_completed (answer : exn + BedrockResponse) : Prop :=
  match answer with
  | inr response => br_status response <> Some "Completed"
  | inl _ => True
  end.

Definition still_pending (answer : exn + BedrockResponse) : Prop :=
  match answer with
  | inr response =>
      br_status response <> Some "Completed" /\ br_status response <> Some "Failed"
      /\ br_status response <> Some "Cancelled"
  | inl _ => False
  end.

(** The events of [n] rounds of the polling loop that find the job pending. *)
Fixpoint polls (n : nat) (invocation_arn : option string) : list Event :=
  match n with
  | O => []
  | S n' => GetAsyncInvoke invocation_arn :: Sleep 1 :: polls n' invocation_arn
  end.

(** ** Health of the backends and what they hold *)

(** The account id that [get_account_id] returns, when it returns. *)
Definition resolved_account_id (e : Env) : option string :=
  if Py.truthy (AWS_ACCOUNT_ID e) then AWS_ACCOUNT_ID e
  else match sts_account e with
       | inr account_id => Some account_id
       | inl _ => None
       end.

(** The vector bucket of this process: the cached name, or the name
    derived from account and region. *)
Definition vector_bucket (w : World) : option string :=
  match S3_VECTOR_BUCKET (s3vectors w) with
  | Some b => Some b
  | None =>
      (fun account_id =>
         vector_bucket_name account_id (default "us-east-1" (REGION (env w))))
        <$> resolved_account_id (env w)
  end.

(** OpenSearch answers every call and a client can be obtained. *)
Definition opensearch_up (w : World) : Prop :=
  os_faults (opensearch w) = []
  /\ opensearch_client (opensearch w) || os_init_ok (opensearch w) = true.

(** S3 Vectors answers every call, and the bucket name is either cached
    from an earlier initialisation (so that bucket and index exist) or
    can be derived. *)
Definition s3vectors_up (w : World) : Prop :=
  s3v_faults (s3vectors w) = []
  /\ match S3_VECTOR_BUCKET (s3vectors w) with
     | Some b => Py.truthy (Some b) = true /\ is_Some (lookup_index w b S3_VECTOR_INDEX)
     | None => is_Some (resolved_account_id (env w))
     end.

(** The documents held by the OpenSearch index. *)
Definition stored_documents (w : World) : list Document :=
  match os_index (opensearch w) with
  | Some ix => ix_docs ix
  | None => []
  end.

(** The documents that [ensure_vector_index] keeps: all of them when the
    mapping is right, none when the index is absent or is recreated. *)
Definition surviving_documents (w : World) : list Document :=
  match os_index (opensearch w) with
  | Some ix =>
      if bool_decide (ix_embedding_type ix = Some "knn_vector") then ix_docs ix else []
  | None => []
  end.

(** The vectors held by the S3 Vectors index of this process. *)
Definition stored_vectors (w : World) : gmap string Vector :=
  match vector_bucket w with
  | Some b => default ∅ (lookup_index w b S3_VECTOR_INDEX)
  | None => ∅
  end.

(** ** What the sides of a comparison report, for what the stores hold *)

(** Every entry of the OpenSearch side carries the similarity of the query
    to a document that the index holds, with that document's metadata; every
    entry of the S3 Vectors side carries the distance of the query from a
    vector that the index holds, with that vector's metadata. *)
Definition scores_stored_documents (q : list num) (w : World) (out : SearchOutcome)
    : Prop :=
  forall r, r ∈ so_results out ->
    exists document,
      document ∈ stored_documents w
      /\ res_score r = cosinesimil q (doc_embedding document)
      /\ res_metadata r = inl (doc_metadata document)
      /\ res_segmentId r = doc_segmentId document.

Definition scores_stored_vectors (q : list num) (w : World) (out : SearchOutcome)
    : Prop :=
  forall r, r ∈ so_results out ->
    exists key vector,
      stored_vectors w !! key = Some vector
      /\ res_score r = cosine_distance q (vec_data vector)
      /\ res_metadata r = inr (vec_metadata vector)
      /\ res_segmentId r = vm_segmentId (vec_metadata vector).

(** ** The embedding submission: where the engine writes *)

(** The folder name that [handle_embed] derives from the video id: the
    last path component, without its extension, with slashes and spaces
    replaced by underscores. *)
Definition safe_video_id (video_id : string) : string :=
  let clean_video_id :=
    if Py.has_char "/" video_id
    then default "" (Py.last (Py.split video_id "/"))
    else video_id in
  let safe_video_id :=
    if Py.has_char "." clean_video_id
    then Py.rsplit1_head clean_video_id "."
    else clean_video_id in
  Py.replace (Py.replace safe_video_id "/" "_") " " "_".

(** [f"s3://{os.environ.get('VIDEO_BUCKET')}/embeddings/{safe_video_id}/"] *)
Definition embedding_output_uri (video_bucket safe_video_id : string) : string :=
  "s3://" +:+ video_bucket +:+ "/embeddings/" +:+ safe_video_id +:+ "/".

(** ** Measures of a run of events *)

(** The seconds slept. *)
Fixpoint total_slept (evs : list Event) : Q :=
  match evs with
  | [] => 0
  | Sleep seconds :: rest => seconds + total_slept rest
  | _ :: rest => total_slept rest
  end.

(** A pause of between one and five seconds. *)
Definition paced (e : Event) : Prop :=
  match e with
  | Sleep seconds => (1 <= seconds /\ seconds <= 5)%Q
  | _ => True
  end.

(** The object never appears: every existence check answers [NoSuchKey]. *)
Definition always_absent (head : nat -> option exn) : Prop :=
  forall n, exists e, head n = Some e /\ is_no_such_key e = true.

(** ** The remaining routes *)

(** What these routes take from outside the world above: one more
    variable of the environment, boto3's presigning (a computation on the
    credentials that sends no request), the answer of the Pegasus engine to
    an [invoke_model] request, and the time the engine took.  The calls to
    the engine and the two OpenSearch calls of the flush are not recorded in
    the trace. *)

(** [json.loads(response['body'].read())] of an [invoke_model] answer. *)
Record PegasusAnswer := {
  pg_message : option string;
  pg_finishReason : option string
}.

Class Platform := {
  CORS_ORIGIN : option string;
  (* generate_presigned_url('get_object', Params={Bucket, Key}, ExpiresIn=3600) *)
  generate_presigned_url : string -> string -> exn + string;
  (* generate_presigned_post(Bucket, Key, Fields, Conditions, ExpiresIn=3600)
     for a content type: its ['url'] and ['fields'] *)
  generate_presigned_post :
    string -> string -> string -> exn + (string * list (string * string));
  (* invoke_model for a prompt, a video URI and its bucket owner *)
  invoke_model : string -> string -> string -> exn + PegasusAnswer;
  (* time.time() - start_time, as stored with the result *)
  processing_time : num
}.

Context {platform : Platform}.

(** The bodies of these routes: a body of the handlers above, the empty
    string of a preflight answer, or one of the objects below.  Wall-clock
    fields ([took_ms], [processingTime]) are not modelled. *)
Inductive RouteBody :=
| Json (b : Body)
| NoContent
| EmbedAccepted (invocationArn : option string) (status message : string)
| UploadTarget (uploadUrl : string) (fields : list (string * string)) (key bucket : string)
| PlaybackUrl (presignedUrl videoS3Uri bucket key : string)
| NothingToFlush (message : string) (documents_deleted : nat)
| Flushed (message : string) (documents_before : nat + string) (documents_deleted : nat)
| WorkerCompleted (jobId status : string)
| WorkerFailed (error jobId : string).

(** A response; the answers of the asynchronous worker carry no headers. *)
Record RouteResponse := {
  rr_statusCode : Z;
  rr_headers : option (list (string * string));
  rr_body : RouteBody
}.

Definition route_respond (code : Z) (cors_headers : list (string * string)) (b : RouteBody)
    : RouteResponse :=
  {| rr_statusCode := code; rr_headers := Some cors_headers; rr_body := b |}.

Definition route_error (code : Z) (cors_headers : list (string * string)) (error : string)
    : RouteResponse :=
  route_respond code cors_headers (Json (ErrorBody error)).

(** The response of one of the handlers above, as the router returns it. *)
Definition of_response (r : Response) : RouteResponse :=
  {| rr_statusCode := statusCode r; rr_headers := Some (headers r); rr_body := Json (body r) |}.

(** A response that carries the given headers and one of the given
    status codes. *)
Definition answers_with (cors_headers : list (string * string)) (codes : list Z)
    (r : RouteResponse) : Prop :=
  rr_headers r = Some cors_headers /\ rr_statusCode r ∈ codes.

(** *** Upload *)

Definition handle_upload (event : ApiEvent) (cors_headers : list (string * string))
    : M RouteResponse :=
  try_except
    (match ev_body event with
     | inl message => raise (JSONDecodeError message)
     | inr body =>
         let filename := body !! "filename" in
         let content_type := default "video/mp4" (body !! "contentType") in
         if negb (Py.truthy filename)
         then ret (route_error 400 cors_headers "Filename is required")
         else
           let* w := get_world in
           let bucket_name := VIDEO_BUCKET (env w) in
           let key := "videos/" +:+ default "" filename in
           match generate_presigned_post bucket_name key content_type with
           | inl e => raise e
           | inr (url, fields) =>
               ret (route_respond 200 cors_headers
                      (UploadTarget url fields key bucket_name))
           end
     end)
    (fun e => ret (route_error 500 cors_headers (exn_str e))).

(** *** Playback URL *)

Definition handle_video_url (event : ApiEvent) (cors_headers : list (string * string))
    : M RouteResponse :=
  try_except
    (let query_params := default ∅ (queryStringParameters event) in
     let video_s3_uri := query_params !! "videoS3Uri" in
     if negb (Py.truthy video_s3_uri)
     then ret (route_error 400 cors_headers "videoS3Uri parameter is required")
     else
       let video_s3_uri := default "" video_s3_uri in
       if negb (Py.startswith video_s3_uri "s3://")
       then ret (route_error 400 cors_headers "Invalid S3 URI format")
       else
         let s3_path := Py.drop 5 video_s3_uri in
         match Py.split1 s3_path "/" with
         | [bucket_name; object_key] =>
             let* missing :=
               try_except (do head_object bucket_name object_key then ret false)
                 (fun head_error => ret true) in
             if missing
             then ret (route_error 404 cors_headers
                         ("Video file not found in S3: " +:+ object_key))
             else
               match generate_presigned_url bucket_name object_key with
               | inl e => raise e
               | inr presigned_url =>
                   ret (route_respond 200 cors_headers
                          (PlaybackUrl presigned_url video_s3_uri bucket_name object_key))
               end
         | _ => ret (route_error 400 cors_headers "Invalid S3 URI format")
         end)
    (fun e => ret (route_error 500 cors_headers (exn_str e))).

(** *** The embedding submission *)

(** The [except] clauses that close [handle_embed]. *)
Definition embed_failure (cors_headers : list (string * string)) (e : exn) : RouteResponse :=
  match e with
  | JSONDecodeError _ =>
      route_error 400 cors_headers ("Invalid JSON in request body: " +:+ exn_str e)
  | ClientError code message _ =>
      route_error 500 cors_headers ("AWS Error (" +:+ code +:+ "): " +:+ message)
  | PyException _ =>
      route_error 500 cors_headers ("Embedding generation failed: " +:+ exn_str e)
  end.

(** [start_async_invoke] for a video, with its output location; the model
    of the engine does not look at the location. *)
Definition start_video_embedding (s3Uri : string) : M (option string) :=
  start_async_invoke "video".

Definition handle_embed (event : ApiEvent) (cors_headers : list (string * string))
    : M RouteResponse :=
  try_except
    (match ev_body event with
     | inl message => raise (JSONDecodeError message)
     | inr body =>
         let s3_uri := body !! "s3Uri" in
         let video_id := body !! "videoId" in
         if negb (Py.truthy s3_uri) || negb (Py.truthy video_id)
         then ret (route_error 400 cors_headers "S3 URI and video ID are required")
         else
           let s3_uri := default "" s3_uri in
           let video_id := default "" video_id in
           let* available := wait_for_s3_object s3_uri 45 in
           if negb available
           then ret (route_error 404 cors_headers
                       "Video file not found in S3. Please ensure the upload completed successfully.")
           else
             let* bucketOwner := get_account_id in
             let* w := get_world in
             let* invocation_arn :=
               start_video_embedding
                 (embedding_output_uri (VIDEO_BUCKET (env w)) (safe_video_id video_id)) in
             ret (route_respond 202 cors_headers
                    (EmbedAccepted invocation_arn "processing" "Embedding generation started"))
     end)
    (fun e => ret (embed_failure cors_headers e)).

(** *** Flushing the OpenSearch index *)

(** A request to OpenSearch whose outcome comes from the schedule. *)
Definition os_request : M unit :=
  let* w := get_world in
  let '(f, rest) := next_fault (os_faults (opensearch w)) in
  do modify (with_opensearch (set_os_faults rest)) then
  match f with
  | Some e => raise e
  | None => ret tt
  end.

(** [opensearch.count(index=...)['count']] *)
Definition count : M nat :=
  do os_request then
  let* w := get_world in
  match os_index (opensearch w) with
  | Some ix => ret (length (ix_docs ix))
  | None => raise index_not_found
  end.

(** [delete_by_query] with [match_all] and [refresh=True]: every document
    goes, the index and its mapping stay; the answer's ['deleted']. *)
Definition delete_by_query : M nat :=
  do os_request then
  let* w := get_world in
  match os_index (opensearch w) with
  | Some ix =>
      do modify (with_opensearch (set_os_index
           (Some {| ix_embedding_type := ix_embedding_type ix; ix_docs := [] |}))) then
      ret (length (ix_docs ix))
  | None => raise index_not_found
  end.

Definition handle_flush_opensearch (event : ApiEvent) (cors_headers : list (string * string))
    : M RouteResponse :=
  try_except
    (let* client := get_opensearch_client in
     if negb client
     then ret (route_error 500 cors_headers "OpenSearch client not available")
     else
       let* present := indices_exists in
       if negb present
       then ret (route_respond 200 cors_headers
                   (NothingToFlush
                      ("Index " +:+ index_name +:+ " does not exist - nothing to flush") 0))
       else
         let* total_docs :=
           try_except (let* n := count in ret (inl n))
             (fun _ => ret (inr "unknown")) in
         let* deleted_count := delete_by_query in
         ret (route_respond 200 cors_headers
                (Flushed ("Successfully flushed OpenSearch index " +:+ index_name)
                   total_docs deleted_count)))
    (fun e => ret (route_error 500 cors_headers ("Failed to flush OpenSearch: " +:+ exn_str e))).

(** *** The asynchronous worker *)

(** The ledger record that the worker writes when it fails. *)
Definition failed_job_info (analysis_job_id : string) (e : exn) (now : Z) (now_str : string)
    : JobInfo :=
  {| jobId := analysis_job_id; status := Some "Failed"; videoId := None; s3Uri := None;
     prompt := None; startTime := None; submitTime := None;
     error := Some (exn_str e); endTime := Some now; failedTime := Some now_str |}.

Definition worker_answer (code : Z) (b : RouteBody) : RouteResponse :=
  {| rr_statusCode := code; rr_headers := None; rr_body := b |}.

(** The worker, on a payload as [handle_analyze] builds it.  Of the
    objects it writes, [AnalysisResult] and [JobInfo] keep the keys that are
    read back.

    The check of the parameters raises before [import time] has run.  In
    the handler [time] is then an unbound local of the function, so building
    the failure record raises inside the inner [try], whose [except] only
    prints: nothing is written on that path. *)
Definition process_analysis_async (event : AsyncPayload) : M RouteResponse :=
  let analysis_job_id := ap_analysisJobId event in
  let s3_uri := ap_s3Uri event in
  let prompt := ap_prompt event in
  let video_id := ap_videoId event in
  let bucket_name := ap_bucketName event in
  if negb (Py.truthy (Some analysis_job_id) && Py.truthy (Some s3_uri)
           && Py.truthy (Some prompt) && Py.truthy (Some bucket_name))
  then
    ret (worker_answer 500
           (WorkerFailed "Missing required parameters for async analysis processing"
              analysis_job_id))
  else
    try_except
      (let* bucketOwner := get_account_id in
       match invoke_model prompt s3_uri bucketOwner with
       | inl e => raise e
       | inr response_body =>
           let* w := get_world in
           let analysis_result :=
             {| ar_videoId := Some video_id;
                ar_analysis := Some (default "" (pg_message response_body));
                ar_finishReason := Some (default "" (pg_finishReason response_body));
                ar_prompt := Some prompt;
                ar_processingTimeSeconds := Some processing_time;
                ar_completedTime := Some (time_str (env w)) |} in
           do put_object bucket_name (result_key analysis_job_id)
                (AnalysisResultDoc analysis_result) then
           let job_info :=
             {| jobId := analysis_job_id; status := Some "Completed";
                videoId := Some video_id; s3Uri := Some s3_uri; prompt := Some prompt;
                startTime := None; submitTime := None; error := None;
                endTime := Some (time_now (env w)); failedTime := None |} in
           do put_object bucket_name (job_key analysis_job_id) (JobInfoDoc job_info) then
           ret (worker_answer 200 (WorkerCompleted analysis_job_id "Completed"))
       end)
      (fun e =>
         let* w := get_world in
         do try_except
              (put_object bucket_name (job_key analysis_job_id)
                 (JobInfoDoc (failed_job_info analysis_job_id e
                                (time_now (env w)) (time_str (env w)))))
              (fun update_error => ret tt) then
         ret (worker_answer 500 (WorkerFailed (exn_str e) analysis_job_id))).

(** The error with which the engine's part of the worker ends: the
    account cannot be resolved, or the engine refuses the request. *)
Definition engine_error (event : AsyncPayload) (w : World) (e : exn) : Prop :=
  match resolved_account_id (env w) with
  | None =>
      e = PyException
            "AWS_ACCOUNT_ID environment variable not set and unable to retrieve from STS"
  | Some bucketOwner => invoke_model (ap_prompt event) (ap_s3Uri event) bucketOwner = inl e
  end.

(** *** The router *)

(** What the function is invoked with: a request of the API gateway, or
    the payload of an asynchronous invocation, which carries an [action].
    Of the value under ['body'] the handler itself only takes a preview,
    [event_body[:200]], when the value is truthy and not the placeholder
    ['No body']: [body_preview] is the error of that slice for a value that
    cannot be sliced (a JSON object, a number), and [None] for a string, an
    absent or a falsy value. *)
Inductive LambdaEvent :=
| ApiCall (httpMethod path : option string) (body_preview : option exn) (request : ApiEvent)
| AsyncCall (payload : AsyncPayload).

Definition cors_headers : list (string * string) :=
  [("Access-Control-Allow-Origin", default "http://localhost:3000" CORS_ORIGIN);
   ("Access-Control-Allow-Methods", "GET, POST, PUT, DELETE, OPTIONS");
   ("Access-Control-Allow-Headers",
    "Content-Type, X-Amz-Date, Authorization, X-Api-Key, X-Amz-Security-Token");
   ("Content-Type", "application/json")].

(** The [try] of [handler], for a path and a method. *)
Definition route (path method : string) (event : ApiEvent) (context : LambdaContext)
    : M RouteResponse :=
  try_except
    (if String.eqb method "OPTIONS"
     then ret (route_respond 200 cors_headers NoContent)
     else if String.eqb path "/upload" && String.eqb method "POST"
     then handle_upload event cors_headers
     else if String.eqb path "/analyze" && String.eqb method "POST"
     then let* r := handle_analyze event cors_headers context in ret (of_response r)
     else if String.eqb path "/embed" && String.eqb method "POST"
     then handle_embed event cors_headers
     else if String.eqb path "/status" && String.eqb method "GET"
     then let* r := handle_status event cors_headers in ret (of_response r)
     else if String.eqb path "/search" && String.eqb method "GET"
     then let* r := handle_search event cors_headers in ret (of_response r)
     else if String.eqb path "/video-url" && String.eqb method "GET"
     then handle_video_url event cors_headers
     else if String.eqb path "/flush-opensearch" && String.eqb method "POST"
     then handle_flush_opensearch event cors_headers
     else ret (route_error 404 cors_headers "Not found"))
    (fun e => ret (route_error 500 cors_headers ("Internal server error: " +:+ exn_str e))).

(** The status codes of the routes. *)
Definition gateway_codes : list Z := [200; 202; 400; 404; 408; 500]%Z.

(** An event without [httpMethod], [path], [body] or query parameters. *)
Definition no_request : ApiEvent :=
  {| ev_body := inr ∅; queryStringParameters := None |}.

(** The lines of [handler] between the test of the action and the [try]:
    they print the method and the path, a preview of the body, and the
    [function_name] and [aws_request_id] of the context.  A context
    without one of these attributes is the error that reading it raises. *)
Definition log_request (body_preview : option exn) (context : exn + LambdaContext)
    : M LambdaContext :=
  match body_preview with
  | Some slice_error => raise slice_error
  | None =>
      match context with
      | inl attribute_error => raise attribute_error
      | inr context => ret context
      end
  end.

Definition handler (event : LambdaEvent) (context : exn + LambdaContext)
    : M RouteResponse :=
  match event with
  | AsyncCall payload =>
      if String.eqb (ap_action payload) "process_analysis"
      then process_analysis_async payload
      else
        let* context := log_request None context in
        route "" "" no_request context
  | ApiCall httpMethod path body_preview request =>
      let* context := log_request body_preview context in
      route (default "" path) (default "" httpMethod) request context
  end.

End Model.


(** ** Concrete worlds and inputs, over integer-valued numbers *)

Module Examples.

Definition fresh_opensearch : @OpenSearchSvc Z :=
  {| os_init_ok := true; opensearch_client := false; os_index := None; os_faults := [] |}.

Definition fresh_s3vectors : @S3VectorsSvc Z :=
  {| S3_VECTOR_BUCKET := None; vector_buckets := ∅; s3v_faults := [] |}.

Definition demo_env : Env :=
  {| AWS_ACCOUNT_ID := Some "123456789012";
     REGION := None;
     VIDEO_BUCKET := "video-bucket";
     LAMBDA_FUNCTION_NAME := None;
     sts_account := inr "123456789012";
     lambda_fault := None;
     time_now := 1700000000;
     time_str := "2023-11-14 22:13:20 UTC";
     uuid8 := "0a1b2c3d" |}.

(** An engine whose embedding job never leaves [InProgress]. *)
Definition pending : @BedrockResponse :=
  {| br_status := Some "InProgress"; br_modelInput_uri := None;
     br_output_s3Uri := None; br_modelId := None;
     br_invocationArn := Some "arn:job"; br_endTime := None |}.

Definition pending_bedrock : BedrockSvc :=
  {| start_async := inr (Some "arn:job");
     async_oracle := fun _ => inr pending;
     async_calls := 0 |}.

(** A blob store in which every existence check succeeds. *)
Definition present_s3 : @BlobSvc Z :=
  {| objects := ∅; s3_faults := []; head_oracle := fun _ => None; head_calls := 0 |}.

(** A process that has just started, all services up and empty. *)
Definition fresh : @World Z :=
  {| opensearch := fresh_opensearch; s3vectors := fresh_s3vectors; s3 := present_s3;
     bedrock := pending_bedrock; env := demo_env; trace := [] |}.

(** The response of a completed embedding job for [clip1]. *)
Definition clip1_response : @BedrockResponse :=
  {| br_status := Some "Completed"; br_modelInput_uri := None;
     br_output_s3Uri := Some "s3://video-bucket/embeddings/clip1/";
     br_modelId := Some "twelvelabs.marengo-embed-2-7-v1:0";
     br_invocationArn := Some "arn:job"; br_endTime := None |}.

Definition segment (startSec endSec : Z) (embedding : list Z) : @Segment Z :=
  {| seg_startSec := Some startSec; seg_endSec := Some endSec;
     seg_embedding := Some embedding; seg_embeddingOption := Some "visual-text" |}.

Definition one_segment : list (@Segment Z) := [segment 0 10 [1; 0]%Z].

Definition three_segments : list (@Segment Z) :=
  [segment 0 10 [1; 0]%Z; segment 10 20 [0; 1]%Z; segment 20 30 [1; 1]%Z].

(** The existence check is refused for lack of permission. *)
Definition access_denied : exn :=
  ClientError "403" "Forbidden" "HeadObject".

Definition denied : @World Z :=
  {| opensearch := fresh_opensearch; s3vectors := fresh_s3vectors;
     s3 := {| objects := ∅; s3_faults := [];
              head_oracle := fun _ => Some access_denied; head_calls := 0 |};
     bedrock := pending_bedrock; env := demo_env; trace := [] |}.

(** The object never appears. *)
Definition no_such_key : exn :=
  ClientError "NoSuchKey" "Not Found" "HeadObject".

Definition absent : @World Z :=
  {| opensearch := fresh_opensearch; s3vectors := fresh_s3vectors;
     s3 := {| objects := ∅; s3_faults := [];
              head_oracle := fun _ => Some no_such_key; head_calls := 0 |};
     bedrock := pending_bedrock; env := demo_env; trace := [] |}.

(** The function dispatcher refuses the asynchronous invocation. *)
Definition throttled : exn :=
  ClientError "TooManyRequestsException" "Rate exceeded" "Invoke".

Definition no_dispatch : @World Z :=
  {| opensearch := fresh_opensearch; s3vectors := fresh_s3vectors; s3 := present_s3;
     bedrock := pending_bedrock;
     env := {| AWS_ACCOUNT_ID := Some "123456789012"; REGION := None;
               VIDEO_BUCKET := "video-bucket"; LAMBDA_FUNCTION_NAME := None;
               sts_account := inr "123456789012";
               lambda_fault := Some throttled;
               time_now := 1700000000; time_str := "2023-11-14 22:13:20 UTC";
               uuid8 := "0a1b2c3d" |};
     trace := [] |}.

(** The dispatcher refuses the invocation, and the blob store takes the
    first write and refuses the second. *)
Definition flaky_store : @World Z :=
  {| opensearch := fresh_opensearch; s3vectors := fresh_s3vectors;
     s3 := {| objects := ∅;
              s3_faults :=
                [None;
                 Some (ClientError "SlowDown" "Please reduce your request rate." "PutObject")];
              head_oracle := fun _ => None; head_calls := 0 |};
     bedrock := pending_bedrock; env := env no_dispatch; trace := [] |}.

(** The blob store refuses the next write. *)
Definition read_only : @World Z :=
  {| opensearch := fresh_opensearch; s3vectors := fresh_s3vectors;
     s3 := {| objects := ∅;
              s3_faults := [Some (ClientError "AccessDenied" "Access Denied" "PutObject")];
              head_oracle := fun _ => None; head_calls := 0 |};
     bedrock := pending_bedrock; env := demo_env; trace := [] |}.

(** OpenSearch is down, S3 Vectors is up. *)
Definition opensearch_down : @World Z :=
  {| opensearch := {| os_init_ok := true; opensearch_client := false; os_index := None;
                      os_faults := [Some (PyException "ConnectionTimeout")] |};
     s3vectors := fresh_s3vectors; s3 := present_s3;
     bedrock := pending_bedrock; env := demo_env; trace := [] |}.

Definition analyze_request : ApiEvent :=
  {| ev_body := inr (<["s3Uri" := "s3://video-bucket/videos/clip1.mp4"]>
                     (<["videoId" := "clip1"]> ∅));
     queryStringParameters := None |}.

Definition demo_context : LambdaContext := {| function_name := "video-api" |}.

Definition search_request : ApiEvent :=
  {| ev_body := inr ∅; queryStringParameters := Some (<["q" := "a red car"]> ∅) |}.

(** [GET /status?analysisJobId=&invocationArn=arn:job] *)
Definition empty_job_id_request : ApiEvent :=
  {| ev_body := inr ∅;
     queryStringParameters :=
       Some (<["analysisJobId" := ""]> (<["invocationArn" := "arn:job"]> ∅)) |}.

Definition job_status_request : ApiEvent :=
  {| ev_body := inr ∅;
     queryStringParameters :=
       Some (<["analysisJobId" := "analysis_1700000000_0a1b2c3d"]>
               (<["invocationArn" := "arn:job"]> ∅)) |}.

Definition no_parameter_request : ApiEvent :=
  {| ev_body := inr ∅; queryStringParameters := None |}.

(** Both stores after the embeddings of [clip1] were written. *)
Definition indexed : @World Z :=
  Eval vm_compute in
    snd (store_embeddings_dual clip1_response three_segments fresh).

(** The response of a completed query-embedding job. *)
Definition query_response : @BedrockResponse :=
  {| br_status := Some "Completed"; br_modelInput_uri := None;
     br_output_s3Uri := Some "s3://video-bucket/search-embeddings/q1";
     br_modelId := None; br_invocationArn := Some "arn:job"; br_endTime := None |}.

(** A world in which [clip1] is indexed and the query embedding is ready. *)
Definition searchable : @World Z :=
  {| opensearch := opensearch indexed;
     s3vectors := s3vectors indexed;
     s3 := {| objects :=
                <[("video-bucket", "search-embeddings/q1/output.json") :=
                    EmbeddingOutput (Some [segment 0 0 [1; 0]%Z])]> ∅;
              s3_faults := []; head_oracle := fun _ => None; head_calls := 0 |};
     bedrock := {| start_async := inr (Some "arn:job");
                   async_oracle := fun _ => inr query_response;
                   async_calls := 0 |};
     env := demo_env; trace := [] |}.

(** The embedding job of [clip1] has completed and its output is stored. *)
Definition completed_job : @World Z :=
  {| opensearch := fresh_opensearch; s3vectors := fresh_s3vectors;
     s3 := {| objects :=
                <[("video-bucket", "embeddings/clip1//output.json") :=
                    EmbeddingOutput (Some three_segments)]> ∅;
              s3_faults := []; head_oracle := fun _ => None; head_calls := 0 |};
     bedrock := {| start_async := inr (Some "arn:job");
                   async_oracle := fun _ => inr clip1_response;
                   async_calls := 0 |};
     env := demo_env; trace := [] |}.

(** [GET /status?invocationArn=arn:job] *)
Definition embedding_status_request : ApiEvent :=
  {| ev_body := inr ∅;
     queryStringParameters := Some (<["invocationArn" := "arn:job"]> ∅) |}.

End Examples.

(** ** Further worlds and inputs *)

Module Scenarios.

(** A completed job whose response still carries the request. *)
Definition clip1_from_input : @BedrockResponse :=
  {| br_status := Some "Completed";
     br_modelInput_uri := Some "s3://video-bucket/videos/clip1.mp4";
     br_output_s3Uri := Some "s3://video-bucket/embeddings/other/";
     br_modelId := None; br_invocationArn := Some "arn:job"; br_endTime := None |}.

(** An index with a dynamic mapping, on a cluster that answers the
    existence check and then times out. *)
Definition wrong_mapping : @World Z :=
  {| opensearch := {| os_init_ok := true; opensearch_client := true;
                      os_index := Some {| ix_embedding_type := Some "float";
                                          ix_docs := [] |};
                      os_faults := [None; Some (PyException "ConnectionTimeout")] |};
     s3vectors := Examples.fresh_s3vectors; s3 := Examples.present_s3;
     bedrock := Examples.pending_bedrock; env := Examples.demo_env; trace := [] |}.

(** An accepted submission and the world it leaves. *)
Definition accepted : Response * @World Z :=
  Eval vm_compute in
    match handle_analyze Examples.analyze_request [] Examples.demo_context Examples.fresh with
    | (Val resp, w) => (resp, w)
    | (_, w) => (respond 0 [] (ErrorBody ""), w)
    end.

Definition status_of_accepted : ApiEvent :=
  {| ev_body := inr ∅;
     queryStringParameters :=
       Some (<["analysisJobId" := "analysis_1700000000_0a1b2c3d"]> ∅) |}.

(** The rest of the platform: presigning succeeds and the engine answers. *)
Definition demo_platform : @Platform Z :=
  {| CORS_ORIGIN := None;
     generate_presigned_url := fun Bucket Key =>
       inr ("https://" +:+ Bucket +:+ ".s3.amazonaws.com/" +:+ Key +:+ "?X-Amz-Expires=3600");
     generate_presigned_post := fun Bucket Key content_type =>
       inr ("https://" +:+ Bucket +:+ ".s3.amazonaws.com/",
            [("Content-Type", content_type); ("key", Key)]);
     invoke_model := fun prompt uri bucketOwner =>
       inr {| pg_message := Some "A dog runs along a beach.";
              pg_finishReason := Some "stop" |};
     processing_time := 12%Z |}.

(** The same platform with an engine that refuses the request. *)
Definition refused : exn :=
  ClientError "ValidationException" "The provided model input is invalid." "InvokeModel".

Definition refusing_platform : @Platform Z :=
  {| CORS_ORIGIN := None;
     generate_presigned_url := @generate_presigned_url Z demo_platform;
     generate_presigned_post := @generate_presigned_post Z demo_platform;
     invoke_model := fun prompt uri bucketOwner => inl refused;
     processing_time := 12%Z |}.

(** [POST /embed] for [clip1]. *)
Definition embed_request : ApiEvent :=
  {| ev_body := inr (<["s3Uri" := "s3://video-bucket/videos/clip1.mp4"]>
                     (<["videoId" := "videos/clip1.mp4"]> ∅));
     queryStringParameters := None |}.

(** [GET /video-url?videoS3Uri=s3://video-bucket/videos/clip1.mp4] *)
Definition playback_request : ApiEvent :=
  {| ev_body := inr ∅;
     queryStringParameters :=
       Some (<["videoS3Uri" := "s3://video-bucket/videos/clip1.mp4"]> ∅) |}.

(** [POST /analyze] for [clip1] with an empty prompt, and what it leaves. *)
Definition empty_prompt_request : ApiEvent :=
  {| ev_body := inr (<["s3Uri" := "s3://video-bucket/videos/clip1.mp4"]>
                     (<["prompt" := ""]> (<["videoId" := "clip1"]> ∅)));
     queryStringParameters := None |}.

Definition accepted_without_prompt : Response * @World Z :=
  Eval vm_compute in
    match handle_analyze empty_prompt_request [] Examples.demo_context Examples.fresh with
    | (Val resp, w) => (resp, w)
    | (_, w) => (respond 0 [] (ErrorBody ""), w)
    end.

(** The payload dispatched by the accepted submission of [clip1]. *)
Definition clip1_payload : AsyncPayload :=
  {| ap_action := "process_analysis";
     ap_analysisJobId := "analysis_1700000000_0a1b2c3d";
     ap_s3Uri := "s3://video-bucket/videos/clip1.mp4";
     ap_prompt := "Analyze this video and provide a detailed description";
     ap_videoId := "clip1";
     ap_bucketName := "video-bucket" |}.

(** The response of a completed embedding job for the video id
    [videos/my video.mp4]. *)
Definition my_video_response : @BedrockResponse :=
  {| br_status := Some "Completed"; br_modelInput_uri := None;
     br_output_s3Uri := Some "s3://video-bucket/embeddings/my_video/";
     br_modelId := None; br_invocationArn := Some "arn:job"; br_endTime := None |}.

(** A process that has cached the name of its vector bucket, after which
    the bucket and its index were removed. *)
Definition index_removed : @World Z :=
  {| opensearch := Examples.fresh_opensearch;
     s3vectors := {| S3_VECTOR_BUCKET := Some "video-s3vectors-123456789012-us-east-1";
                     vector_buckets := ∅; s3v_faults := [] |};
     s3 := Examples.present_s3; bedrock := Examples.pending_bedrock;
     env := Examples.demo_env; trace := [] |}.

(** The error of [event_body[:200]] for a body that is a number. *)
Definition not_subscriptable : exn :=
  PyException "'int' object is not subscriptable".

End Scenarios.

(** ** The model at work *)

Example replace_scheme : Py.replace "s3://bucket/embeddings/clip1/" "s3://" "" = "bucket/embeddings/clip1/".
Proof. reflexivity. Qed.

Example split_path : Py.split "bucket/embeddings/clip1/" "/" = ["bucket"; "embeddings"; "clip1"; ""].
Proof. reflexivity. Qed.

Example split1_path : Py.split1 "bucket/videos/clip1.mp4" "/" = ["bucket"; "videos/clip1.mp4"].
Proof. reflexivity. Qed.

Example rsplit_ext : Py.rsplit1_head "clip.v2.mp4" "." = "clip.v2".
Proof. reflexivity. Qed.

Example str_nat_12 : Py.str_nat 12 = "12".
Proof. reflexivity. Qed.

Example dual_write_clip1 :
  fst (store_embeddings_dual Examples.clip1_response Examples.three_segments Examples.fresh)
  = Val {| dual_opensearch := Stored 3 "clip1";
           dual_s3vectors := Stored 3 "clip1";
           dual_video_id := "clip1" |}.
Proof. vm_compute. reflexivity. Qed.

Example waiter_denied :
  fst (wait_for_s3_object "s3://video-bucket/videos/clip1.mp4" 30 Examples.denied) = Val false.
Proof. vm_compute. reflexivity. Qed.

Example waiter_absent_sleeps :
  trace (snd (wait_for_s3_object "s3://b/k" 4 Examples.absent))
  = [HeadObject "b" "k"; Sleep 1; HeadObject "b" "k"; Sleep (3 # 2);
     HeadObject "b" "k"; Sleep (9 # 4)].
Proof. vm_compute. reflexivity. Qed.

Example search_times_out :
  fst (handle_search Examples.search_request [] Examples.fresh)
  = Val (respond 408 [] (ErrorBody "Query embedding generation timed out")).
Proof. vm_compute. reflexivity. Qed.

Example status_materializes_clip1 :
  fst (handle_status Examples.embedding_status_request [] Examples.completed_job)
  = Val (respond 200 []
           (EmbeddingCompleted (Some "Completed") 3 3 3 "clip1"
              "Embedding completed with 3 segments stored to both systems")).
Proof. vm_compute. reflexivity. Qed.

Example search_ranks_clip1 :
  match fst (handle_search Examples.search_request [] Examples.searchable) with
  | Val r =>
      match body r with
      | Comparison a b _ _ =>
          (map (fun x => (res_segmentId x, res_score x)) (so_results a),
           map (fun x => (res_segmentId x, res_score x)) (so_results b))
      | _ => ([], [])
      end
  | _ => ([], [])
  end
  = ([("clip1_segment_0_0", 1%Z); ("clip1_segment_2_20", 1%Z); ("clip1_segment_1_10", 0%Z)],
     [("clip1_segment_2_20", 0%Z); ("clip1_segment_0_0", 0%Z); ("clip1_segment_1_10", 1%Z)]).
Proof. vm_compute. reflexivity. Qed.

(** * Properties *)

(** ** Strings: segment keys *)

Lemma append_inv_head (p a b : string) : p +:+ a = p +:+ b -> a = b.
Proof. induction p as [|x p IH]; simpl; intros E; [exact E | injection E; auto]. Qed.

(** Two strings that agree after a separator-free field and a separator
    agree on the field. *)
Lemma field_before_separator (c : ascii) (a b x y : string) :
  Py.has_char c a = false -> Py.has_char c b = false ->
  a +:+ String c x = b +:+ String c y -> a = b.
Proof.
  revert b. induction a as [|p a IH]; intros [|q b]; simpl; intros Ha Hb E.
  - reflexivity.
  - injection E as E1 _. subst q. rewrite Ascii.eqb_refl in Hb. discriminate.
  - injection E as E1 _. subst p. rewrite Ascii.eqb_refl in Ha. discriminate.
  - injection E as E1 E2. subst q. f_equal.
    apply orb_false_elim in Ha as [_ Ha]. apply orb_false_elim in Hb as [_ Hb].
    now apply IH.
Qed.

Lemma digits_have_no_underscore (d : uint) :
  Py.has_char "_" (NilEmpty.string_of_uint d) = false.
Proof. induction d; simpl; auto. Qed.

Lemma str_nat_no_underscore (i : nat) : Py.has_char "_" (Py.str_nat i) = false.
Proof.
  unfold Py.str_nat, NilZero.string_of_uint.
  destruct (Nat.to_uint i); try reflexivity; apply digits_have_no_underscore.
Qed.

Lemma to_uint_nonnil (n : nat) : Nat.to_uint n <> Nil.
Proof.
  intros Hn. assert (E := DecimalNat.Unsigned.to_of (Nat.to_uint n)).
  rewrite DecimalNat.Unsigned.of_to, Hn in E. discriminate E.
Qed.

Lemma str_nat_inj (i j : nat) : Py.str_nat i = Py.str_nat j -> i = j.
Proof.
  unfold Py.str_nat. intros E.
  apply DecimalNat.Unsigned.to_uint_inj.
  assert (Hi := to_uint_nonnil i).
  assert (Hj := to_uint_nonnil j).
  apply NilZero.usu in Hi. apply NilZero.usu in Hj.
  rewrite E in Hi. rewrite Hi in Hj. now injection Hj.
Qed.

Section Keys.

Context {num : Type} `{PyNum num}.

Lemma segment_id_index (video_id : string) (i j : nat) (s t : @Segment num) :
  segment_id video_id i s = segment_id video_id j t -> i = j.
Proof.
  unfold segment_id. intros E.
  apply append_inv_head in E. apply (append_inv_head "_segment_") in E.
  apply str_nat_inj.
  apply (field_before_separator "_" _ _ _ _
           (str_nat_no_underscore i) (str_nat_no_underscore j) E).
Qed.

Lemma make_vectors_lookup video_id video_s3_uri (l : list (@Segment num)) :
  forall k i s, l !! i = Some s ->
    make_vectors video_id video_s3_uri k l !! i
    = Some (make_vector video_id video_s3_uri (k + i) s).
Proof.
  induction l as [|x l IH]; intros k [|i] s Hl; simpl in *; try discriminate.
  - injection Hl as ->. now rewrite Nat.add_0_r.
  - rewrite (IH (S k) i s Hl). now replace (k + S i)%nat with (S k + i)%nat by lia.
Qed.

Lemma documents_sent_lookup br video_id video_s3_uri total (l : list (@Segment num)) :
  forall k i s, l !! i = Some s ->
    documents_sent br video_id video_s3_uri total k l !! i
    = Some (make_document br video_id video_s3_uri total (k + i) s).
Proof.
  induction l as [|x l IH]; intros k [|i] s Hl; simpl in *; try discriminate.
  - injection Hl as ->. now rewrite Nat.add_0_r.
  - rewrite (IH (S k) i s Hl). now replace (k + S i)%nat with (S k + i)%nat by lia.
Qed.

Lemma make_vectors_length video_id video_s3_uri (l : list (@Segment num)) :
  forall k, length (make_vectors video_id video_s3_uri k l) = length l.
Proof. induction l as [|x l IH]; intros k; simpl; [reflexivity | now rewrite IH]. Qed.

Lemma documents_sent_length br video_id video_s3_uri total (l : list (@Segment num)) :
  forall k, length (documents_sent br video_id video_s3_uri total k l) = length l.
Proof. induction l as [|x l IH]; intros k; simpl; [reflexivity | now rewrite IH]. Qed.

End Keys.

(** ** Reasoning about computations *)

Section Footprints.

Context {num : Type} `{PyNum num}.

Lemma bind_inv {A B} (m : @M num A) (k : A -> @M num B) w r w' :
  bind m k w = (r, w') ->
  (exists a w1, m w = (Val a, w1) /\ k a w1 = (r, w'))
  \/ (exists e, m w = (Exc e, w') /\ r = Exc e)
  \/ (m w = (OutOfFuel, w') /\ r = OutOfFuel).
Proof.
  unfold bind. destruct (m w) as [[a|e|] w1]; intros E.
  - left. eauto.
  - right. left. injection E as <- <-. eauto.
  - right. right. injection E as <- <-. eauto.
Qed.

Lemma try_except_inv {A} (m : @M num A) (h : exn -> @M num A) w r w' :
  try_except m h w = (r, w') ->
  (exists e w1, m w = (Exc e, w1) /\ h e w1 = (r, w'))
  \/ (m w = (r, w') /\ forall e, r <> Exc e).
Proof.
  unfold try_except. destruct (m w) as [[a|e|] w1]; intros E.
  - right. injection E as <- <-. split; [reflexivity | discriminate].
  - left. eauto.
  - right. injection E as <- <-. split; [reflexivity | discriminate].
Qed.

(** [changes os sv bl bd P w w']: going from [w] to [w'], a service is
    untouched unless its flag is set, the environment is untouched, and the
    trace is extended by events that satisfy [P]. *)
Definition changes (os sv bl bd : bool) (P : @Event num -> Prop) (w w' : @World num) : Prop :=
  (os = false -> opensearch w' = opensearch w)
  /\ (sv = false -> s3vectors w' = s3vectors w)
  /\ (bl = false -> s3 w' = s3 w)
  /\ (bd = false -> bedrock w' = bedrock w)
  /\ env w' = env w
  /\ exists evs, trace w' = trace w ++ evs /\ Forall P evs.

Lemma changes_refl os sv bl bd P w : changes os sv bl bd P w w.
Proof.
  repeat split; auto. exists []. split; [now rewrite app_nil_r | constructor].
Qed.

Lemma changes_trans os sv bl bd P w1 w2 w3 :
  changes os sv bl bd P w1 w2 -> changes os sv bl bd P w2 w3 ->
  changes os sv bl bd P w1 w3.
Proof.
  intros (A1 & A2 & A3 & A4 & A5 & e1 & A6 & A7) (B1 & B2 & B3 & B4 & B5 & e2 & B6 & B7).
  repeat split.
  - intros E. now rewrite (B1 E), (A1 E).
  - intros E. now rewrite (B2 E), (A2 E).
  - intros E. now rewrite (B3 E), (A3 E).
  - intros E. now rewrite (B4 E), (A4 E).
  - now rewrite B5, A5.
  - exists (e1 ++ e2). split.
    + now rewrite B6, A6, app_assoc.
    + now apply Forall_app.
Qed.

(** A computation stays within a footprint, and does not run out of fuel. *)
Definition within (os sv bl bd : bool) (P : @Event num -> Prop) {A} (m : @M num A) : Prop :=
  forall w r w', m w = (r, w') -> changes os sv bl bd P w w' /\ r <> OutOfFuel.

Section Rules.

Variables os sv bl bd : bool.
Variable P : @Event num -> Prop.

Lemma within_ret {A} (a : A) : within os sv bl bd P (ret a).
Proof. intros w r w' [= <- <-]. split; [apply changes_refl | discriminate]. Qed.

Lemma within_raise {A} (e : exn) : within os sv bl bd P (@raise num A e).
Proof. intros w r w' [= <- <-]. split; [apply changes_refl | discriminate]. Qed.

Lemma within_get_world : within os sv bl bd P get_world.
Proof. intros w r w' [= <- <-]. split; [apply changes_refl | discriminate]. Qed.

Lemma within_bind {A B} (m : @M num A) (k : A -> @M num B) :
  within os sv bl bd P m -> (forall a, within os sv bl bd P (k a)) ->
  within os sv bl bd P (bind m k).
Proof.
  intros Hm Hk w r w' E.
  apply bind_inv in E as [(a & w1 & E1 & E2) | [(e & E1 & ->) | (E1 & ->)]].
  - destruct (Hm _ _ _ E1) as [C1 _]. destruct (Hk a _ _ _ E2) as [C2 N].
    split; [eapply changes_trans; eauto | exact N].
  - destruct (Hm _ _ _ E1) as [C1 _]. split; [exact C1 | discriminate].
  - destruct (Hm _ _ _ E1) as [_ N]. now contradiction N.
Qed.

Lemma within_try_except {A} (m : @M num A) (h : exn -> @M num A) :
  within os sv bl bd P m -> (forall e, within os sv bl bd P (h e)) ->
  within os sv bl bd P (try_except m h).
Proof.
  intros Hm Hh w r w' E.
  apply try_except_inv in E as [(e & w1 & E1 & E2) | (E1 & _)].
  - destruct (Hm _ _ _ E1) as [C1 _]. destruct (Hh e _ _ _ E2) as [C2 N].
    split; [eapply changes_trans; eauto | exact N].
  - exact (Hm _ _ _ E1).
Qed.

Lemma within_emit (e : Event) : P e -> within os sv bl bd P (emit e).
Proof.
  intros He w r w' [= <- <-]. split; [| discriminate].
  repeat split; auto. exists [e]. split; [reflexivity | now repeat constructor].
Qed.

Lemma within_modify (f : @World num -> @World num) :
  (forall w, changes os sv bl bd P w (f w)) -> within os sv bl bd P (modify f).
Proof. intros Hf w r w' [= <- <-]. split; [apply Hf | discriminate]. Qed.

End Rules.

Lemma changes_with_opensearch sv bl bd P f w :
  changes true sv bl bd P w (with_opensearch f w).
Proof.
  repeat split; auto; try discriminate. exists []. split; [now rewrite app_nil_r | constructor].
Qed.

Lemma changes_with_s3vectors os bl bd P f w :
  changes os true bl bd P w (with_s3vectors f w).
Proof.
  repeat split; auto; try discriminate. exists []. split; [now rewrite app_nil_r | constructor].
Qed.

Lemma changes_with_s3 os sv bd P f w :
  changes os sv true bd P w (with_s3 f w).
Proof.
  repeat split; auto; try discriminate. exists []. split; [now rewrite app_nil_r | constructor].
Qed.

Lemma changes_with_bedrock os sv bl P f w :
  changes os sv bl true P w (with_bedrock f w).
Proof.
  repeat split; auto; try discriminate. exists []. split; [now rewrite app_nil_r | constructor].
Qed.

(** A larger footprint contains a smaller one. *)
Lemma within_weaken os sv bl bd (P : @Event num -> Prop) os' sv' bl' bd' (Q : @Event num -> Prop)
    {A} (m : @M num A) :
  (os = true -> os' = true) -> (sv = true -> sv' = true) ->
  (bl = true -> bl' = true) -> (bd = true -> bd' = true) ->
  (forall e, P e -> Q e) ->
  within os sv bl bd P m -> within os' sv' bl' bd' Q m.
Proof.
  intros Hos Hsv Hbl Hbd HPQ Hm w r w' E.
  destruct (Hm _ _ _ E) as [(C1 & C2 & C3 & C4 & C5 & evs & C6 & C7) N].
  split; [| exact N]. repeat split.
  - intros E'. apply C1. destruct os; [now rewrite Hos in E' | reflexivity].
  - intros E'. apply C2. destruct sv; [now rewrite Hsv in E' | reflexivity].
  - intros E'. apply C3. destruct bl; [now rewrite Hbl in E' | reflexivity].
  - intros E'. apply C4. destruct bd; [now rewrite Hbd in E' | reflexivity].
  - exact C5.
  - exists evs. split; [exact C6 |]. eapply Forall_impl; eauto.
Qed.

End Footprints.

(** Footprints of the program's functions. *)

Ltac footprint_step :=
  first
    [ apply within_ret
    | apply within_raise
    | apply within_get_world
    | apply within_bind; [| intros ?]
    | apply within_try_except; [| intros ?]
    | apply within_emit; solve [auto]
    | apply within_modify; intros ?;
      first [ apply changes_with_opensearch | apply changes_with_s3vectors
            | apply changes_with_s3 | apply changes_with_bedrock ]
    | match goal with
      | |- within _ _ _ _ _ (match ?x with _ => _ end) => destruct x
      | |- within _ _ _ _ _ (let (_, _) := ?x in _) => destruct x
      end ].

Ltac footprint := repeat footprint_step.

Section FunctionFootprints.

Context {num : Type} `{PyNum num}.

Section OpenSearchSide.

Variables sv bl bd : bool.
Variable P : @Event num -> Prop.
Hypothesis P_opensearch : forall op, P (OpenSearchCall op).

Lemma ensure_vector_index_within : within true sv bl bd P ensure_vector_index.
Proof. unfold ensure_vector_index. footprint. Qed.

Lemma index_segments_within br vid uri total l :
  forall i n, within true sv bl bd P (index_segments br vid uri total i l n).
Proof. induction l as [|s l IH]; intros i n; simpl; footprint. apply IH. Qed.

Lemma store_embeddings_to_opensearch_within br l :
  within true sv bl bd P (store_embeddings_to_opensearch br l).
Proof.
  unfold store_embeddings_to_opensearch. footprint. apply index_segments_within.
Qed.

Lemma search_opensearch_within q k : within true sv bl bd P (search_opensearch q k).
Proof. unfold search_opensearch. footprint. Qed.

End OpenSearchSide.

Section S3VectorsSide.

Variables os bl bd : bool.
Variable P : @Event num -> Prop.
Hypothesis P_s3vectors : forall op, P (S3VectorsCall op).
Hypothesis P_sleep : forall seconds, P (Sleep seconds).
Hypothesis P_sts : P GetCallerIdentity.

Lemma get_or_create_s3_vector_bucket_within :
  within os true bl bd P get_or_create_s3_vector_bucket.
Proof. unfold get_or_create_s3_vector_bucket. footprint. Qed.

Lemma store_embeddings_to_s3_vectors_within vid uri l :
  within os true bl bd P (store_embeddings_to_s3_vectors vid uri l).
Proof.
  unfold store_embeddings_to_s3_vectors. footprint.
Qed.

Lemma search_s3_vectors_within q k : within os true bl bd P (search_s3_vectors q k).
Proof.
  unfold search_s3_vectors. footprint.
Qed.

End S3VectorsSide.

Section BothStores.

Variables bl bd : bool.
Variable P : @Event num -> Prop.
Hypothesis P_opensearch : forall op, P (OpenSearchCall op).
Hypothesis P_s3vectors : forall op, P (S3VectorsCall op).
Hypothesis P_sleep : forall seconds, P (Sleep seconds).
Hypothesis P_sts : P GetCallerIdentity.

Lemma store_embeddings_dual_within br l :
  within true true bl bd P (store_embeddings_dual br l).
Proof.
  unfold store_embeddings_dual. footprint.
  now apply index_segments_within.
Qed.

Lemma materialize_within br data : within true true bl bd P (materialize br data).
Proof. unfold materialize. footprint. now apply index_segments_within. Qed.

End BothStores.

Section BlobSide.

Variables os sv bd : bool.
Variable P : @Event num -> Prop.
Hypothesis P_get : forall b k, P (GetObject b k).

Lemma get_object_within b k : within os sv true bd P (get_object b k).
Proof. unfold get_object. footprint. Qed.

Lemma handle_analysis_status_within id cors :
  within os sv true bd P (handle_analysis_status id cors).
Proof.
  unfold handle_analysis_status, on_no_such_key, loads_job_info, loads_analysis_result.
  footprint.
Qed.

End BlobSide.

End FunctionFootprints.

(** ** The dual-store embedding writer *)

Section Writer.

Context {num : Type} `{PyNum num}.

Lemma bind_val_inv {A B} (m : @M num A) (k : A -> @M num B) w b w' :
  bind m k w = (Val b, w') ->
  exists a w1, m w = (Val a, w1) /\ k a w1 = (Val b, w').
Proof.
  intros E. apply bind_inv in E as [E | [(e & _ & E) | (_ & E)]];
    [exact E | discriminate | discriminate].
Qed.

Lemma index_segments_count br vid uri total (l : list (@Segment num)) :
  forall i n w c w',
    index_segments br vid uri total i l n w = (Val c, w') -> c = (n + length l)%nat.
Proof.
  induction l as [|s l IH]; intros i n w c w' E; simpl in E.
  - injection E as <- _. simpl. lia.
  - apply bind_val_inv in E as (_ & w1 & _ & E).
    apply IH in E. simpl. lia.
Qed.

Lemma store_embeddings_to_opensearch_count br (l : list (@Segment num)) w o w' :
  store_embeddings_to_opensearch br l w = (Val o, w') ->
  o = Stored (length l) (fst (extract_video_metadata br)).
Proof.
  unfold store_embeddings_to_opensearch. intros E.
  apply bind_val_inv in E as (client & w1 & _ & E).
  destruct client; simpl in E; [| discriminate].
  apply bind_val_inv in E as (_ & w2 & _ & E).
  destruct (extract_video_metadata br) as [vid uri].
  apply bind_val_inv in E as (c & w3 & E1 & E).
  apply index_segments_count in E1. injection E as <- _. now subst c.
Qed.

Lemma store_embeddings_to_s3_vectors_count vid uri (l : list (@Segment num)) w o w' :
  store_embeddings_to_s3_vectors vid uri l w = (Val o, w') ->
  o = Stored (length l) vid.
Proof.
  unfold store_embeddings_to_s3_vectors. intros E.
  apply bind_val_inv in E as (b & w1 & _ & E).
  destruct b as [b|]; [| discriminate].
  destruct (negb (Py.truthy (Some b))); [discriminate |].
  apply bind_val_inv in E as (_ & w2 & _ & E).
  injection E as <- _. now rewrite make_vectors_length.
Qed.

(** C2. The dual write runs the OpenSearch write and then, whatever its
    outcome, the S3 Vectors write on the resulting world; it always returns
    a combined outcome and never raises.  A write that raises is reported
    as an error marker carrying its message, a write that returns reports
    the size of the batch (positive for a non-empty batch); the first write
    leaves the S3 Vectors service untouched and the second leaves
    OpenSearch untouched, so neither prevents nor undoes the other. *)
Theorem store_embeddings_dual_isolates_backends
    (bedrock_response : BedrockResponse) (embedding_data_list : list (@Segment num))
    (w : @World num) :
  exists r1 w1 r2 w2 o1 o2,
    store_embeddings_to_opensearch bedrock_response embedding_data_list w = (r1, w1)
    /\ store_embeddings_to_s3_vectors
         (fst (extract_video_metadata bedrock_response))
         (snd (extract_video_metadata bedrock_response)) embedding_data_list w1 = (r2, w2)
    /\ store_embeddings_dual bedrock_response embedding_data_list w
       = (Val {| dual_opensearch := o1; dual_s3vectors := o2;
                 dual_video_id := fst (extract_video_metadata bedrock_response) |}, w2)
    /\ s3vectors w1 = s3vectors w
    /\ opensearch w2 = opensearch w1
    /\ match r1 with
       | Val o =>
           o1 = o /\ o = Stored (length embedding_data_list)
                               (fst (extract_video_metadata bedrock_response))
           /\ (embedding_data_list = [] \/ 0 < stored_count_of o1)%nat
       | Exc e => o1 = StoreError (exn_str e)
       | OutOfFuel => False
       end
    /\ match r2 with
       | Val o =>
           o2 = o /\ o = Stored (length embedding_data_list)
                               (fst (extract_video_metadata bedrock_response))
           /\ (embedding_data_list = [] \/ 0 < stored_count_of o2)%nat
       | Exc e => o2 = StoreError (exn_str e)
       | OutOfFuel => False
       end.
Proof.
  set (P := fun _ : @Event num => True).
  destruct (store_embeddings_to_opensearch bedrock_response embedding_data_list w)
    as [r1 w1] eqn:E1.
  destruct (store_embeddings_to_s3_vectors
              (fst (extract_video_metadata bedrock_response))
              (snd (extract_video_metadata bedrock_response)) embedding_data_list w1)
    as [r2 w2] eqn:E2.
  destruct (store_embeddings_to_opensearch_within false false false P
              (fun _ => I) _ _ _ _ _ E1) as [(_ & F1 & _) N1].
  destruct (store_embeddings_to_s3_vectors_within false false false P
              (fun _ => I) (fun _ => I) I _ _ _ _ _ _ E2) as [(F2 & _) N2].
  assert (Hpos : embedding_data_list = [] \/ (0 < length embedding_data_list)%nat).
  { destruct embedding_data_list; [now left | right; simpl; lia]. }
  exists r1, w1, r2, w2.
  exists (match r1 with Val o => o | Exc e => StoreError (exn_str e)
                   | OutOfFuel => StoreError "" end).
  exists (match r2 with Val o => o | Exc e => StoreError (exn_str e)
                   | OutOfFuel => StoreError "" end).
  split; [first [reflexivity | exact E1] |]. split; [first [reflexivity | exact E2] |].
  split.
  { unfold store_embeddings_dual, bind, try_except. rewrite E1.
    destruct (extract_video_metadata bedrock_response) as [vid uri]; simpl in *.
    destruct r1 as [o|e|]; [| | now contradiction N1]; unfold ret; simpl; rewrite E2;
      (destruct r2 as [o'|e'|]; [| | now contradiction N2]); reflexivity. }
  split; [now apply F1 |]. split; [now apply F2 |].
  split.
  - destruct r1 as [o|e|]; [| reflexivity | now apply N1].
    apply store_embeddings_to_opensearch_count in E1. subst o.
    repeat split; auto.
  - destruct r2 as [o|e|]; [| reflexivity | now apply N2].
    apply store_embeddings_to_s3_vectors_count in E2. subst o.
    repeat split; auto.
Qed.

End Writer.

(** ** Fault-free runs of the writer *)

(** Symbolic execution of a computation on a world given field by field. *)
Ltac run :=
  repeat (progress (
  cbv [bind try_except emit modify get_world ret raise
       with_opensearch with_s3vectors with_s3 with_bedrock with_trace
       set_os_faults set_os_index set_opensearch_client
       set_s3v_faults set_vector_buckets set_S3_VECTOR_BUCKET
       set_objects set_s3_faults set_head_calls set_async_calls next_fault];
  cbn [opensearch s3vectors s3 bedrock env trace
       os_init_ok opensearch_client os_index os_faults
       S3_VECTOR_BUCKET vector_buckets s3v_faults
       objects s3_faults head_oracle head_calls
       start_async async_oracle async_calls negb fst snd Py.truthy])).

(** Case analysis on whatever the goal branches on next. *)
Ltac branch :=
  match goal with
  | |- context [match ?x with _ => _ end] =>
      lazymatch x with
      | context [match _ with _ => _ end] => fail
      | _ => destruct x eqn:?
      end
  end.

Section FaultFree.

Context {num : Type} `{PyNum num}.

Lemma is_not_found_s3v op :
  op = "GetVectorBucket" \/ op = "GetIndex" -> is_not_found (s3v_not_found op) = true.
Proof. intros [-> | ->]; vm_compute; reflexivity. Qed.

Lemma get_account_id_run (o : @OpenSearchSvc num) (sv : @S3VectorsSvc num) (s : @BlobSvc num) bd en tr a :
  resolved_account_id en = Some a ->
  exists tr',
    get_account_id {| opensearch := o; s3vectors := sv; s3 := s; bedrock := bd; env := en; trace := tr |}
    = (Val a, {| opensearch := o; s3vectors := sv; s3 := s; bedrock := bd; env := en; trace := tr' |}).
Proof.
  unfold resolved_account_id, get_account_id. run.
  destruct (Py.truthy (AWS_ACCOUNT_ID en)).
  - intros ->. eexists. reflexivity.
  - destruct (sts_account en); [discriminate |]. intros [= ->]. eexists. reflexivity.
Qed.

Lemma store_s3_run vid uri (l : list (@Segment num)) (w : @World num) b :
  s3vectors_up w -> vector_bucket w = Some b ->
  exists w',
    store_embeddings_to_s3_vectors vid uri l w = (Val (Stored (length l) vid), w')
    /\ opensearch w' = opensearch w /\ s3 w' = s3 w /\ bedrock w' = bedrock w
    /\ env w' = env w
    /\ s3v_faults (s3vectors w') = []
    /\ S3_VECTOR_BUCKET (s3vectors w') = Some b
    /\ Py.truthy (Some b) = true
    /\ lookup_index w' b S3_VECTOR_INDEX
       = Some (upsert_vectors (make_vectors vid uri 0 l)
                 (default ∅ (lookup_index w b S3_VECTOR_INDEX))).
Proof.
  destruct w as [o [cached vb fl] s bd en tr].
  unfold s3vectors_up, vector_bucket, stored_vectors, vector_bucket, lookup_index.
  cbn [s3vectors S3_VECTOR_BUCKET s3v_faults vector_buckets env].
  intros [-> Hb] Hv.
  unfold store_embeddings_to_s3_vectors, get_or_create_s3_vector_bucket.
  destruct cached as [c|].
  - injection Hv as ->. destruct Hb as [Ht [ix Hix]].
    destruct b as [|c0 b]; [discriminate |]. run.
    unfold put_vectors, s3v_call. run.
    destruct (vb !! String c0 b) as [bm|] eqn:Eb; [| discriminate Hix].
    rewrite Hix. run. 
    eexists. split; [rewrite make_vectors_length; reflexivity |].
    cbn [opensearch s3vectors s3 bedrock env S3_VECTOR_BUCKET vector_buckets s3v_faults].
    repeat split; auto. rewrite !lookup_insert_eq. reflexivity.
  - destruct (resolved_account_id en) as [a|] eqn:Ea; [| discriminate Hv].
    injection Hv as Hv.
    assert (Ht : Py.truthy (Some b) = true) by now subst b.
    clear Hb. run.
    edestruct get_account_id_run as [tr1 E1]; [exact Ea |]. rewrite E1. clear E1. run.
    rewrite Hv. clear Hv.
    destruct b as [|c0 b]; [discriminate |]. run.
    unfold get_vector_bucket, create_vector_bucket, get_index, create_index, put_vectors,
      s3v_call, lookup_index. run.
    assert (N1 := is_not_found_s3v "GetIndex" (or_intror eq_refl)).
    assert (N2 := is_not_found_s3v "GetVectorBucket" (or_introl eq_refl)).
    destruct (vb !! String c0 b) as [bm|] eqn:Eb;
      [destruct (bm !! S3_VECTOR_INDEX) as [ix|] eqn:Ei |];
      repeat (progress (run; rewrite ?Eb, ?Ei, ?N1, ?N2, ?lookup_insert_eq, ?lookup_empty));
      (eexists; split; [rewrite make_vectors_length; reflexivity |]);
      cbn [opensearch s3vectors s3 bedrock env S3_VECTOR_BUCKET vector_buckets s3v_faults];
      repeat split; auto; rewrite !lookup_insert_eq; reflexivity.
Qed.
Lemma index_segments_run br vid uri total (l : list (@Segment num)) :
  forall i n ini cl ty docs sv bl bd en tr,
  exists tr',
    index_segments br vid uri total i l n
      {| opensearch := {| os_init_ok := ini; opensearch_client := cl;
                          os_index := Some {| ix_embedding_type := ty; ix_docs := docs |};
                          os_faults := [] |};
         s3vectors := sv; s3 := bl; bedrock := bd; env := en; trace := tr |}
    = (Val (n + length l)%nat,
       {| opensearch := {| os_init_ok := ini; opensearch_client := cl;
                           os_index := Some {| ix_embedding_type := ty;
                                               ix_docs := docs ++ documents_sent br vid uri total i l |};
                           os_faults := [] |};
          s3vectors := sv; s3 := bl; bedrock := bd; env := en; trace := tr' |}).
Proof.
  induction l as [|s l IH]; intros; simpl.
  - eexists. run. rewrite Nat.add_0_r, app_nil_r. reflexivity.
  - unfold index_document, os_call. run. simpl.
    edestruct IH as [tr' E]. rewrite E. exists tr'.
    rewrite <- (app_assoc docs). simpl.
    replace (n + S (length l))%nat with (S (n + length l))%nat by lia. reflexivity.
Qed.

Lemma ensure_run ini cl (ix : option (@OSIndex num)) (sv : @S3VectorsSvc num) (bl : @BlobSvc num) bd en tr :
  exists tr',
    ensure_vector_index
      {| opensearch := {| os_init_ok := ini; opensearch_client := cl;
                          os_index := ix; os_faults := [] |};
         s3vectors := sv; s3 := bl; bedrock := bd; env := en; trace := tr |}
    = (Val tt,
       {| opensearch := {| os_init_ok := ini; opensearch_client := cl;
                           os_index := Some {| ix_embedding_type := Some "knn_vector";
                                               ix_docs := match ix with Some i => if bool_decide (ix_embedding_type i = Some "knn_vector") then ix_docs i else [] | None => [] end |};
                           os_faults := [] |};
          s3vectors := sv; s3 := bl; bedrock := bd; env := en; trace := tr' |}).
Proof.
  unfold ensure_vector_index, indices_exists, indices_get_mapping, indices_delete, indices_create, os_call. run.
  destruct ix as [[ty docs]|]; simpl; run.
  - case_bool_decide; simpl; run.
    + subst ty. eexists. reflexivity.
    + eexists. reflexivity.
  - eexists. reflexivity.
Qed.

Lemma get_opensearch_client_run ini cl (ix : option (@OSIndex num))
    (sv : @S3VectorsSvc num) (s : @BlobSvc num) bd en tr :
  cl || ini = true ->
  get_opensearch_client
    {| opensearch := {| os_init_ok := ini; opensearch_client := cl; os_index := ix;
                        os_faults := [] |};
       s3vectors := sv; s3 := s; bedrock := bd; env := en; trace := tr |}
  = (Val true,
     {| opensearch := {| os_init_ok := ini; opensearch_client := true; os_index := ix;
                         os_faults := [] |};
        s3vectors := sv; s3 := s; bedrock := bd; env := en; trace := tr |}).
Proof.
  unfold get_opensearch_client. run.
  destruct cl; [reflexivity |]. destruct ini; [reflexivity | discriminate].
Qed.

Lemma store_os_run br (l : list (@Segment num)) (w : @World num) :
  opensearch_up w ->
  exists w',
    store_embeddings_to_opensearch br l w
    = (Val (Stored (length l) (fst (extract_video_metadata br))), w')
    /\ s3vectors w' = s3vectors w /\ s3 w' = s3 w /\ bedrock w' = bedrock w
    /\ env w' = env w
    /\ opensearch_up w'
    /\ os_index (opensearch w')
       = Some {| ix_embedding_type := Some "knn_vector";
                 ix_docs := surviving_documents w
                            ++ documents_sent br (fst (extract_video_metadata br))
                                 (snd (extract_video_metadata br)) (length l) 0 l |}.
Proof.
  destruct w as [[ini cl ix fl] sv s bd en tr].
  unfold opensearch_up, surviving_documents.
  cbn [opensearch os_faults opensearch_client os_init_ok os_index].
  intros [-> Hc].
  unfold store_embeddings_to_opensearch. run.
  destruct (extract_video_metadata br) as [vid uri]. cbn [fst snd].
  rewrite (get_opensearch_client_run ini cl ix sv s bd en tr Hc). run.
  edestruct (ensure_run ini true ix sv s bd en tr) as [tr2 E2]. rewrite E2. clear E2. run.
  edestruct (index_segments_run br vid uri (length l) l 0 0 ini true) as [tr3 E3].
  rewrite E3. clear E3. run.
  eexists. split; [reflexivity |].
  cbn [opensearch s3vectors s3 bedrock env os_faults opensearch_client os_init_ok os_index].
  repeat split; auto.
Qed.


Lemma s3vectors_up_bucket (w : @World num) :
  s3vectors_up w -> exists b, vector_bucket w = Some b.
Proof.
  unfold s3vectors_up, vector_bucket. intros [_ Hb].
  destruct (S3_VECTOR_BUCKET (s3vectors w)); [eauto |].
  destruct Hb as [a ->]. simpl. eauto.
Qed.

Lemma store_embeddings_dual_run br (l : list (@Segment num)) (w : @World num) b :
  opensearch_up w -> s3vectors_up w -> vector_bucket w = Some b ->
  exists w',
    store_embeddings_dual br l w
    = (Val {| dual_opensearch := Stored (length l) (fst (extract_video_metadata br));
              dual_s3vectors := Stored (length l) (fst (extract_video_metadata br));
              dual_video_id := fst (extract_video_metadata br) |}, w')
    /\ opensearch_up w' /\ s3vectors_up w' /\ vector_bucket w' = Some b
    /\ os_index (opensearch w')
       = Some {| ix_embedding_type := Some "knn_vector";
                 ix_docs := surviving_documents w
                            ++ documents_sent br (fst (extract_video_metadata br))
                                 (snd (extract_video_metadata br)) (length l) 0 l |}
    /\ lookup_index w' b S3_VECTOR_INDEX
       = Some (upsert_vectors
                 (make_vectors (fst (extract_video_metadata br))
                    (snd (extract_video_metadata br)) 0 l)
                 (default ∅ (lookup_index w b S3_VECTOR_INDEX))).
Proof.
  intros Hos Hsv Hb.
  destruct (store_os_run br l w Hos) as (w1 & E1 & F1 & F2 & F3 & F4 & Hos1 & Hix).
  assert (Hsv1 : s3vectors_up w1).
  { revert Hsv. unfold s3vectors_up, lookup_index. now rewrite F1, F4. }
  assert (Hb1 : vector_bucket w1 = Some b).
  { revert Hb. unfold vector_bucket. now rewrite F1, F4. }
  destruct (store_s3_run (fst (extract_video_metadata br)) (snd (extract_video_metadata br))
              l w1 b Hsv1 Hb1) as (w2 & E2 & G1 & G2 & G3 & G4 & G5 & G6 & G7 & G8).
  exists w2. split.
  { unfold store_embeddings_dual, bind, try_except. rewrite E1.
    destruct (extract_video_metadata br) as [vid uri]. cbn [fst snd] in *.
    now rewrite E2. }
  split. { revert Hos1. unfold opensearch_up. now rewrite G1. }
  split. { unfold s3vectors_up. rewrite G5, G6. repeat split; auto; rewrite G8; eauto. }
  split. { unfold vector_bucket. now rewrite G6. }
  split. { now rewrite G1. }
  rewrite G8. unfold lookup_index. now rewrite F1.
Qed.

Lemma lookup_upsert_vectors (vectors : list (@Vector num)) :
  forall (ix : gmap string Vector) k,
    upsert_vectors vectors ix !! k
    = match last_with_key k vectors with
      | Some v => Some v
      | None => ix !! k
      end.
Proof.
  unfold upsert_vectors.
  induction vectors as [|v rest IH]; intros ix k; simpl; [reflexivity |].
  rewrite IH. destruct (last_with_key k rest); [reflexivity |].
  destruct (String.eqb_spec (vec_key v) k) as [-> | Hne].
  - apply lookup_insert_eq.
  - now apply lookup_insert_ne.
Qed.

Lemma upsert_vectors_idempotent (vectors : list (@Vector num)) (ix : gmap string Vector) :
  upsert_vectors vectors (upsert_vectors vectors ix) = upsert_vectors vectors ix.
Proof.
  apply map_eq. intros k. rewrite !lookup_upsert_vectors.
  now destruct (last_with_key k vectors).
Qed.

Lemma stored_vectors_of_bucket (w : @World num) b :
  vector_bucket w = Some b ->
  stored_vectors w = default ∅ (lookup_index w b S3_VECTOR_INDEX).
Proof. unfold stored_vectors. now intros ->. Qed.

Lemma stored_documents_of_index (w : @World num) ty docs :
  os_index (opensearch w) = Some {| ix_embedding_type := ty; ix_docs := docs |} ->
  stored_documents w = docs.
Proof. unfold stored_documents. now intros ->. Qed.

(** C1, as amended.  With both backends up, materializing the same
    completed job a second time leaves the S3 Vectors index exactly as the
    first materialization left it (an upsert by segment key), while the
    OpenSearch index, whose documents are indexed without an explicit id,
    receives the batch once more: the second run appends one document per
    segment to what the first run stored. *)
Theorem rematerialization_upserts_vectors_and_appends_documents
    (bedrock_response : BedrockResponse) (embedding_data_list : list (@Segment num))
    (w : @World num) :
  opensearch_up w -> s3vectors_up w ->
  let w1 := snd (store_embeddings_dual bedrock_response embedding_data_list w) in
  let w2 := snd (store_embeddings_dual bedrock_response embedding_data_list w1) in
  let video_id := fst (extract_video_metadata bedrock_response) in
  let video_s3_uri := snd (extract_video_metadata bedrock_response) in
  fst (store_embeddings_dual bedrock_response embedding_data_list w1)
  = fst (store_embeddings_dual bedrock_response embedding_data_list w)
  /\ stored_vectors w2 = stored_vectors w1
  /\ stored_documents w2
     = stored_documents w1
       ++ documents_sent bedrock_response video_id video_s3_uri
            (length embedding_data_list) 0 embedding_data_list
  /\ length (stored_documents w2)
     = (length (stored_documents w1) + length embedding_data_list)%nat.
Proof.
  intros Hos Hsv.
  destruct (s3vectors_up_bucket w Hsv) as [b Hb].
  destruct (store_embeddings_dual_run bedrock_response embedding_data_list w b Hos Hsv Hb)
    as (w1 & E1 & Hos1 & Hsv1 & Hb1 & Hix1 & Hv1).
  destruct (store_embeddings_dual_run bedrock_response embedding_data_list w1 b Hos1 Hsv1 Hb1)
    as (w2 & E2 & Hos2 & Hsv2 & Hb2 & Hix2 & Hv2).
  rewrite E1. cbn [fst snd]. rewrite E2. cbn [fst snd].
  assert (Hsurv : surviving_documents w1 = stored_documents w1).
  { unfold surviving_documents, stored_documents. now rewrite Hix1. }
  split; [reflexivity |]. split; [| split].
  - rewrite (stored_vectors_of_bucket w2 b Hb2), (stored_vectors_of_bucket w1 b Hb1).
    rewrite Hv2, Hv1. cbn [default from_option id]. now rewrite upsert_vectors_idempotent.
  - rewrite (stored_documents_of_index w2 _ _ Hix2). now rewrite Hsurv.
  - rewrite (stored_documents_of_index w2 _ _ Hix2), Hsurv, length_app.
    now rewrite documents_sent_length.
Qed.

(** C9.  With both backends up, the dual write hands OpenSearch the list
    [documents_sent] and S3 Vectors the list [make_vectors]; at every index
    [i] of the batch the document's [segmentId] and the vector's key are the
    same string [videoId + "_segment_" + str(i) + "_" + str(startSec)], and
    both carry a duration [endSec - startSec] (an absent time reads as [0]);
    segments at distinct indices of a batch get distinct keys. *)
Theorem segment_keys_agree_across_backends
    (bedrock_response : BedrockResponse) (embedding_data_list : list (@Segment num))
    (w : @World num) :
  opensearch_up w -> s3vectors_up w ->
  let video_id := fst (extract_video_metadata bedrock_response) in
  let video_s3_uri := snd (extract_video_metadata bedrock_response) in
  let documents :=
    documents_sent bedrock_response video_id video_s3_uri
      (length embedding_data_list) 0 embedding_data_list in
  let vectors := make_vectors video_id video_s3_uri 0 embedding_data_list in
  let w' := snd (store_embeddings_dual bedrock_response embedding_data_list w) in
  (stored_documents w' = surviving_documents w ++ documents
   /\ stored_vectors w' = upsert_vectors vectors (stored_vectors w))
  /\ (forall i s, embedding_data_list !! i = Some s ->
        exists d v,
          documents !! i = Some d /\ vectors !! i = Some v
          /\ doc_segmentId d
             = video_id +:+ "_segment_" +:+ Py.str_nat i +:+ "_"
                 +:+ num_str (default num_zero (seg_startSec s))
          /\ vec_key v = doc_segmentId d
          /\ vm_segmentId (vec_metadata v) = doc_segmentId d
          /\ doc_duration d
             = num_sub (default num_zero (seg_endSec s)) (default num_zero (seg_startSec s))
          /\ vm_duration (vec_metadata v) = doc_duration d)
  /\ (forall i j si sj,
        embedding_data_list !! i = Some si -> embedding_data_list !! j = Some sj ->
        i <> j -> segment_id video_id i si <> segment_id video_id j sj).
Proof.
  intros Hos Hsv video_id video_s3_uri documents vectors w'.
  destruct (s3vectors_up_bucket w Hsv) as [b Hb].
  destruct (store_embeddings_dual_run bedrock_response embedding_data_list w b Hos Hsv Hb)
    as (w1 & E1 & Hos1 & Hsv1 & Hb1 & Hix1 & Hv1).
  subst w'. rewrite E1. cbn [snd].
  split; [split |]; [| | split].
  - now rewrite (stored_documents_of_index w1 _ _ Hix1).
  - rewrite (stored_vectors_of_bucket w1 b Hb1), (stored_vectors_of_bucket w b Hb).
    now rewrite Hv1.
  - intros i s Hi.
    exists (make_document bedrock_response video_id video_s3_uri
              (length embedding_data_list) i s),
           (make_vector video_id video_s3_uri i s).
    split; [exact (documents_sent_lookup _ _ _ _ _ 0 i s Hi) |].
    split; [exact (make_vectors_lookup _ _ _ 0 i s Hi) |].
    repeat split.
  - intros i j si sj _ _ Hne E. apply Hne. exact (segment_id_index _ _ _ _ _ E).
Qed.

End FaultFree.

(** ** The object availability waiter *)

Lemma Qltb_true a b : Qltb a b = true <-> (a < b)%Q.
Proof.
  unfold Qltb. rewrite negb_true_iff. split.
  - intros E. apply Qnot_le_lt. intros L. apply Qle_bool_iff in L. congruence.
  - intros L. destruct (Qle_bool b a) eqn:E; [| reflexivity].
    apply Qle_bool_iff in E. exfalso. apply (Qlt_not_le _ _ L E).
Qed.

Lemma backoff_at_least_one (wt : Q) : (1 <= wt)%Q -> (1 <= Qmin (wt * (3 # 2)) 5)%Q.
Proof. intros L. apply Q.min_glb; lra. Qed.

Lemma fuel_step (f : nat) : (inject_Z (Z.of_nat (S f)) == inject_Z (Z.of_nat f) + 1)%Q.
Proof. rewrite Nat2Z.inj_succ. unfold Z.succ. rewrite inject_Z_plus. reflexivity. Qed.

Section Waiter.

Context {num : Type} `{PyNum num}.

Lemma wait_loop_returns (fuel : nat) :
  forall b k max (wt tw : Q) (o : @OpenSearchSvc num) (sv : @S3VectorsSvc num)
         ob fl ho hc bd en tr,
    (1 <= wt)%Q -> (inject_Z max - tw <= inject_Z (Z.of_nat fuel))%Q ->
    exists answer hc' evs,
      wait_loop fuel b k max wt tw
        {| opensearch := o; s3vectors := sv;
           s3 := {| objects := ob; s3_faults := fl; head_oracle := ho; head_calls := hc |};
           bedrock := bd; env := en; trace := tr |}
      = (Val answer,
         {| opensearch := o; s3vectors := sv;
            s3 := {| objects := ob; s3_faults := fl; head_oracle := ho; head_calls := hc' |};
            bedrock := bd; env := en; trace := tr ++ evs |})
      /\ Forall is_wait_event evs
      /\ (answer = true -> exists n, ho n = None).
Proof.
  induction fuel as [|fuel IH]; intros b k max wt tw o sv ob fl ho hc bd en tr Hwt Hfuel.
  - simpl. destruct (Qltb tw (inject_Z max)) eqn:Hlt.
    + apply Qltb_true in Hlt. change (inject_Z (Z.of_nat 0)) with 0%Q in Hfuel.
      exfalso. lra.
    + exists false, hc, []. rewrite app_nil_r.
      split; [reflexivity | split; [constructor | discriminate]].
  - simpl. destruct (Qltb tw (inject_Z max)) eqn:Hlt.
    + apply Qltb_true in Hlt. unfold head_object. run.
      destruct (ho hc) as [e|] eqn:Eho; run.
      * assert (Hfalse : exists answer hc' evs,
                  (Val false,
                   {| opensearch := o; s3vectors := sv;
                      s3 := {| objects := ob; s3_faults := fl; head_oracle := ho;
                               head_calls := S hc |};
                      bedrock := bd; env := en; trace := tr ++ [HeadObject b k] |})
                  = (Val answer,
                     {| opensearch := o; s3vectors := sv;
                        s3 := {| objects := ob; s3_faults := fl; head_oracle := ho;
                                 head_calls := hc' |};
                        bedrock := bd; env := en; trace := tr ++ evs |})
                  /\ Forall is_wait_event evs
                  /\ (answer = true -> exists n, ho n = None)).
        { exists false, (S hc), [HeadObject b k].
          split; [reflexivity | split; [repeat constructor | discriminate]]. }
        destruct e as [code msg op| |]; run; try exact Hfalse.
        destruct (String.eqb code "NoSuchKey"); run; try exact Hfalse.
        edestruct (IH b k max (Qmin (wt * (3 # 2)) 5)%Q (tw + wt)%Q o sv ob fl ho (S hc) bd en
                     ((tr ++ [HeadObject b k]) ++ [Sleep wt]))
          as (answer & hc' & evs & E & Hevs & Htrue).
        { now apply backoff_at_least_one. }
        { rewrite fuel_step in Hfuel. lra. }
        rewrite E. exists answer, hc', ([HeadObject b k; Sleep wt] ++ evs).
        split; [now rewrite <- !app_assoc |].
        split; [repeat constructor; auto | exact Htrue].
      * exists true, (S hc), [HeadObject b k].
        split; [reflexivity | split; [repeat constructor | eauto]].
    + exists false, hc, []. rewrite app_nil_r.
      split; [reflexivity | split; [constructor | discriminate]].
Qed.

Lemma wait_for_s3_object_returns s3_uri max (o : @OpenSearchSvc num) (sv : @S3VectorsSvc num)
    ob fl ho hc bd en tr :
  exists answer hc' evs,
    wait_for_s3_object s3_uri max
      {| opensearch := o; s3vectors := sv;
         s3 := {| objects := ob; s3_faults := fl; head_oracle := ho; head_calls := hc |};
         bedrock := bd; env := en; trace := tr |}
    = (Val answer,
       {| opensearch := o; s3vectors := sv;
          s3 := {| objects := ob; s3_faults := fl; head_oracle := ho; head_calls := hc' |};
          bedrock := bd; env := en; trace := tr ++ evs |})
    /\ Forall is_wait_event evs
    /\ (answer = true -> exists n, ho n = None).
Proof.
  assert (Hfalse : forall w : @World num, w = {| opensearch := o; s3vectors := sv;
         s3 := {| objects := ob; s3_faults := fl; head_oracle := ho; head_calls := hc |};
         bedrock := bd; env := en; trace := tr |} ->
       exists answer hc' evs,
         (@Val bool false, w)
         = (Val answer,
            {| opensearch := o; s3vectors := sv;
               s3 := {| objects := ob; s3_faults := fl; head_oracle := ho;
                        head_calls := hc' |};
               bedrock := bd; env := en; trace := tr ++ evs |})
         /\ Forall is_wait_event evs
         /\ (answer = true -> exists n, ho n = None)).
  { intros w ->. exists false, hc, []. rewrite app_nil_r.
    split; [reflexivity | split; [constructor | discriminate]]. }
  unfold wait_for_s3_object.
  destruct (negb (Py.startswith s3_uri "s3://")); [now apply Hfalse |].
  destruct (Py.split1 (Py.drop 5 s3_uri) "/") as [|b [|k [|x rest]]];
    try (now apply Hfalse).
  apply wait_loop_returns; [lra |].
  assert (inject_Z max <= inject_Z (Z.of_nat (Z.to_nat max)))%Q
    by (rewrite <- Zle_Qle; lia).
  lra.
Qed.

Lemma Qltb_false a b : Qltb a b = false <-> (b <= a)%Q.
Proof.
  unfold Qltb. rewrite negb_false_iff. apply Qle_bool_iff.
Qed.

(** C4, as amended.  The waiter always returns a boolean and never raises;
    it answers [True] only when an existence check succeeded.  A malformed
    reference is answered [False] without any call.  In the polling loop a
    successful check is answered [True] at once; a check that fails with
    anything but [NoSuchKey] (a permission or network error, say) is
    answered [False] at once, without a retry and without propagating the
    error; [NoSuchKey] makes the loop sleep and go on with the next
    backoff interval; and once the waited time reaches the maximum the
    answer is [False]. *)
Theorem wait_for_s3_object_answers_without_raising
    (s3_uri : string) (max_wait_seconds : Z) (w : @World num) :
  (exists answer w',
      wait_for_s3_object s3_uri max_wait_seconds w = (Val answer, w')
      /\ (answer = true -> exists n, head_oracle (s3 w) n = None))
  /\ (Py.startswith s3_uri "s3://" = false
      \/ length (Py.split1 (Py.drop 5 s3_uri) "/") <> 2%nat ->
      wait_for_s3_object s3_uri max_wait_seconds w = (Val false, w))
  /\ (forall bucket_name object_key,
        Py.startswith s3_uri "s3://" = true ->
        Py.split1 (Py.drop 5 s3_uri) "/" = [bucket_name; object_key] ->
        wait_for_s3_object s3_uri max_wait_seconds w
        = wait_loop (Z.to_nat max_wait_seconds) bucket_name object_key
            max_wait_seconds 1 0 w)
  /\ (forall fuel bucket_name object_key (wait_time total_waited : Q) (w0 : @World num),
        ((inject_Z max_wait_seconds <= total_waited)%Q ->
         wait_loop fuel bucket_name object_key max_wait_seconds wait_time total_waited w0
         = (Val false, w0))
        /\ ((total_waited < inject_Z max_wait_seconds)%Q ->
            match head_oracle (s3 w0) (head_calls (s3 w0)) with
            | None =>
                wait_loop (S fuel) bucket_name object_key max_wait_seconds
                  wait_time total_waited w0
                = (Val true, checked bucket_name object_key w0)
            | Some e =>
                if is_no_such_key e
                then
                  wait_loop (S fuel) bucket_name object_key max_wait_seconds
                    wait_time total_waited w0
                  = wait_loop fuel bucket_name object_key max_wait_seconds
                      (Qmin (wait_time * (3 # 2)) 5) (total_waited + wait_time)
                      (slept wait_time (checked bucket_name object_key w0))
                else
                  wait_loop (S fuel) bucket_name object_key max_wait_seconds
                    wait_time total_waited w0
                  = (Val false, checked bucket_name object_key w0)
            end)).
Proof.
  split; [| split; [| split]].
  - destruct w as [o sv [ob fl ho hc] bd en tr].
    destruct (wait_for_s3_object_returns s3_uri max_wait_seconds o sv ob fl ho hc bd en tr)
      as (answer & hc' & evs & E & _ & Htrue).
    eauto.
  - unfold wait_for_s3_object. intros [-> | Hlen]; [reflexivity |].
    destruct (negb (Py.startswith s3_uri "s3://")); [reflexivity |].
    destruct (Py.split1 (Py.drop 5 s3_uri) "/") as [|b [|k [|x rest]]];
      try reflexivity.
    now contradiction Hlen.
  - intros b k Hs Hp. unfold wait_for_s3_object. now rewrite Hs, Hp.
  - intros fuel b k wt tw w0. split.
    + intros Hge. apply Qltb_false in Hge. destruct fuel; simpl; now rewrite Hge.
    + intros Hlt. apply Qltb_true in Hlt.
      destruct w0 as [o sv [ob fl ho hc] bd en tr]. unfold checked, slept.
      cbn [s3 head_oracle head_calls].
      destruct (ho hc) as [e|] eqn:Eho.
      * destruct e as [code msg op| |]; cbn [is_no_such_key].
        -- destruct (String.eqb code "NoSuchKey") eqn:Ec;
             simpl; rewrite Hlt; unfold head_object; run; rewrite Eho; run;
             rewrite Ec; reflexivity.
        -- simpl. rewrite Hlt. unfold head_object. run. rewrite Eho. reflexivity.
        -- simpl. rewrite Hlt. unfold head_object. run. rewrite Eho. reflexivity.
      * simpl. rewrite Hlt. unfold head_object. run. rewrite Eho. reflexivity.
Qed.

End Waiter.

(** ** The analysis submission *)

Section Submitter.

Context {num : Type} `{PyNum num}.

(** Every run of [handle_analyze] returns a response, after the events of
    the waiter ([pre]) and one of four endings ([post]). *)
Lemma handle_analyze_cases event cors ctx
    (o : @OpenSearchSvc num) (sv : @S3VectorsSvc num) ob fl ho hc bd en tr :
  exists resp hc' pre post ob' fl',
    handle_analyze event cors ctx
      {| opensearch := o; s3vectors := sv;
         s3 := {| objects := ob; s3_faults := fl; head_oracle := ho; head_calls := hc |};
         bedrock := bd; env := en; trace := tr |}
    = (Val resp,
       {| opensearch := o; s3vectors := sv;
          s3 := {| objects := ob'; s3_faults := fl'; head_oracle := ho; head_calls := hc' |};
          bedrock := bd; env := en; trace := tr ++ pre ++ post |})
    /\ Forall is_wait_event pre
    /\ ((post = [] /\ ob' = ob /\ fl' = fl
         /\ (statusCode resp = 400%Z \/ statusCode resp = 404%Z))
        \/ (exists j e,
              status j = Some "InProgress" /\ fl = Some e :: fl'
              /\ post = [ledger_write (VIDEO_BUCKET en) j false] /\ ob' = ob
              /\ resp = respond 500 cors
                          (ErrorBody ("Failed to initialize analysis job: " +:+ exn_str e)))
        \/ (exists j fn p,
              status j = Some "InProgress" /\ next_fault fl = (None, fl')
              /\ lambda_fault en = None /\ ap_analysisJobId p = jobId j
              /\ post = [ledger_write (VIDEO_BUCKET en) j true; LambdaInvoke fn p true]
              /\ ob' = <[(VIDEO_BUCKET en, job_key (jobId j)) := JobInfoDoc j]> ob
              /\ statusCode resp = 202%Z)
        \/ (exists j fn p e j' stored,
              status j = Some "InProgress" /\ lambda_fault en = Some e
              /\ fst (next_fault fl) = None
              /\ ap_analysisJobId p = jobId j
              /\ post = [ledger_write (VIDEO_BUCKET en) j true; LambdaInvoke fn p false;
                         ledger_write (VIDEO_BUCKET en) j' stored]
              /\ jobId j' = jobId j /\ status j' = Some "Failed"
              /\ error j' = Some ("Failed to start async processing: " +:+ exn_str e)
              /\ (statusCode resp = 500%Z \/ statusCode resp = 400%Z)
              /\ (stored = true ->
                  resp = respond 500 cors
                           (ErrorBody ("Failed to start analysis: " +:+ exn_str e)))
              /\ ob' !! (VIDEO_BUCKET en, job_key (jobId j))
                 = Some (JobInfoDoc (if stored then j' else j)))).
Proof.
  unfold handle_analyze. run.
  destruct (ev_body event) as [msg | body]; run.
  { exists (analyze_failure cors (JSONDecodeError msg)), hc, [], [], ob, fl.
    rewrite !app_nil_r. split; [reflexivity |]. split; [constructor |].
    left. repeat split; auto. }
  destruct (Py.truthy (body !! "s3Uri")) eqn:Huri; run.
  2:{ exists (respond 400 cors (ErrorBody "S3 URI is required")), hc, [], [], ob, fl.
      rewrite !app_nil_r. split; [reflexivity |]. split; [constructor |].
      left. repeat split; auto. }
  destruct (wait_for_s3_object_returns (default "" (body !! "s3Uri")) 30 o sv ob fl ho hc bd en tr)
    as (answer & hc' & pre & E & Hpre & _).
  rewrite E. clear E. destruct answer; run.
  2:{ eexists _, hc', pre, [], ob, fl.
      rewrite !app_nil_r. split; [reflexivity |]. split; [exact Hpre |].
      left. repeat split; auto. }
  unfold put_object, lambda_invoke. run.
  destruct fl as [|[e|] fl]; run;
    [destruct (lambda_fault en) as [e|] eqn:Hl; run
    | | destruct (lambda_fault en) as [e|] eqn:Hl; run;
        [destruct fl as [|[e2|] fl]; run |]];
    lazymatch goal with
    | |- context [JobInfoDoc (mark_failed ?J ?d ?n ?s)] =>
        pose (j := J); pose (j' := mark_failed J d n s)
    | |- context [JobInfoDoc ?J] => pose (j := J)
    end.
  - eexists _, hc', pre, _, _, _. split; [rewrite <- !app_assoc; reflexivity |].
    split; [exact Hpre |]. right. right. right.
    eexists j, _, _, e, j', true. unfold ledger_write.
    repeat match goal with |- _ /\ _ => split end;
      try reflexivity; try reflexivity; try (now left); apply lookup_insert_eq.
  - eexists _, hc', pre, _, _, _. split; [rewrite <- !app_assoc; reflexivity |].
    split; [exact Hpre |]. right. right. left.
    eexists j, _, _. unfold ledger_write.
    repeat match goal with |- _ /\ _ => split end;
      try reflexivity; reflexivity.
  - eexists _, hc', pre, _, _, _. split; [rewrite <- !app_assoc; reflexivity |].
    split; [exact Hpre |]. right. left.
    eexists j, e. unfold ledger_write.
    repeat match goal with |- _ /\ _ => split end;
      try reflexivity; reflexivity.
  - eexists _, hc', pre, _, _, _. split; [rewrite <- !app_assoc; reflexivity |].
    split; [exact Hpre |]. right. right. right.
    eexists j, _, _, e, j', true. unfold ledger_write.
    repeat match goal with |- _ /\ _ => split end;
      try reflexivity; try reflexivity; try (now left); apply lookup_insert_eq.
  - eexists (analyze_failure cors e2), hc', pre, _, _, _.
    split; [rewrite <- !app_assoc; reflexivity |].
    split; [exact Hpre |]. right. right. right.
    eexists j, _, _, e, j', false. unfold ledger_write.
    repeat match goal with |- _ /\ _ => split end;
      try reflexivity; try reflexivity.
    + destruct e2; simpl; auto.
    + discriminate.
    + apply lookup_insert_eq.
  - eexists _, hc', pre, _, _, _. split; [rewrite <- !app_assoc; reflexivity |].
    split; [exact Hpre |]. right. right. right.
    eexists j, _, _, e, j', true. unfold ledger_write.
    repeat match goal with |- _ /\ _ => split end;
      try reflexivity; try reflexivity; try (now left); apply lookup_insert_eq.
  - eexists _, hc', pre, _, _, _. split; [rewrite <- !app_assoc; reflexivity |].
    split; [exact Hpre |]. right. right. left.
    eexists j, _, _. unfold ledger_write.
    repeat match goal with |- _ /\ _ => split end;
      try reflexivity; reflexivity.
Qed.

Lemma wait_event_not_dispatch (pre : list (@Event num)) fn p ok :
  Forall is_wait_event pre -> LambdaInvoke fn p ok ∉ pre.
Proof.
  intros Hpre Hin. rewrite Forall_forall in Hpre. exact (Hpre _ Hin).
Qed.

(** C3.  Every submission returns a response.  When it is accepted (202),
    the events it issued end with the stored ledger write of a descriptor
    whose status is [InProgress], immediately followed by the dispatch of
    the continuation for that job, and the ledger holds that descriptor.
    Whenever a dispatch is attempted at all, the stored ledger write comes
    right before it.  When the blob store refuses the write, the caller
    gets an error and no dispatch is attempted. *)
Theorem ledger_entry_precedes_dispatch
    (event : ApiEvent) (cors_headers : list (string * string)) (context : LambdaContext)
    (w : @World num) :
  exists resp w' evs,
    handle_analyze event cors_headers context w = (Val resp, w')
    /\ trace w' = trace w ++ evs
    /\ (statusCode resp = 202%Z ->
        exists pre j fn p,
          evs = pre ++ [ledger_write (VIDEO_BUCKET (env w)) j true; LambdaInvoke fn p true]
          /\ Forall is_wait_event pre
          /\ status j = Some "InProgress"
          /\ ap_analysisJobId p = jobId j
          /\ objects (s3 w') !! (VIDEO_BUCKET (env w), job_key (jobId j))
             = Some (JobInfoDoc j))
    /\ (forall fn p ok, LambdaInvoke fn p ok ∈ evs ->
        exists pre post j,
          evs = pre ++ [ledger_write (VIDEO_BUCKET (env w)) j true; LambdaInvoke fn p ok]
                    ++ post
          /\ Forall is_wait_event pre
          /\ status j = Some "InProgress"
          /\ ap_analysisJobId p = jobId j)
    /\ (forall e rest, s3_faults (s3 w) = Some e :: rest ->
        (statusCode resp = 400%Z \/ statusCode resp = 404%Z
         \/ resp = respond 500 cors_headers
                     (ErrorBody ("Failed to initialize analysis job: " +:+ exn_str e)))
        /\ forall fn p ok, LambdaInvoke fn p ok ∉ evs).
Proof.
  destruct w as [o sv [ob fl ho hc] bd en tr].
  destruct (handle_analyze_cases event cors_headers context o sv ob fl ho hc bd en tr)
    as (resp & hc' & pre & post & ob' & fl' & E & Hpre & Hcases).
  eexists resp, _, (pre ++ post). split; [exact E |].
  cbn [trace env s3 objects s3_faults]. split; [reflexivity |].
  destruct Hcases as
    [(-> & -> & -> & Hcode)
    | [(j & e & Hj & -> & -> & -> & ->)
      | [(j & fn & p & Hj & Hfl & Hl & Hp & -> & -> & Hcode)
        | (j & fn & p & e & j' & stored & Hj & Hl & Hfl & Hp & -> & Hid & Hj' & Herr
           & Hcode & Hresp & Hob)]]].
  - split; [| split].
    + intros Hc. destruct Hcode as [Hcode | Hcode]; rewrite Hcode in Hc; discriminate.
    + intros fn p ok Hin. rewrite app_nil_r in Hin.
      now apply wait_event_not_dispatch in Hin.
    + intros e rest _. split; [destruct Hcode; auto |].
      intros fn p ok Hin. rewrite app_nil_r in Hin.
      now apply wait_event_not_dispatch in Hin.
  - split; [| split].
    + discriminate.
    + intros fn p ok Hin. apply elem_of_app in Hin as [Hin | Hin].
      * now apply wait_event_not_dispatch in Hin.
      * apply list_elem_of_singleton in Hin. discriminate Hin.
    + intros e' rest [= <- <-]. split; [auto |].
      intros fn p ok Hin. apply elem_of_app in Hin as [Hin | Hin].
      * now apply wait_event_not_dispatch in Hin.
      * apply list_elem_of_singleton in Hin. discriminate Hin.
  - split; [| split].
    + intros _. exists pre, j, fn, p. repeat split; auto. apply lookup_insert_eq.
    + intros fn' p' ok Hin. apply elem_of_app in Hin as [Hin | Hin].
      * now apply wait_event_not_dispatch in Hin.
      * apply elem_of_cons in Hin as [Hin | Hin]; [discriminate Hin |].
        apply list_elem_of_singleton in Hin. injection Hin as -> -> ->.
        exists pre, [], j. repeat split; auto.
    + intros e rest Hfl'. rewrite Hfl' in Hfl. discriminate Hfl.
  - split; [| split].
    + intros Hc. destruct Hcode as [Hcode | Hcode]; rewrite Hcode in Hc; discriminate.
    + intros fn' p' ok Hin. apply elem_of_app in Hin as [Hin | Hin].
      * now apply wait_event_not_dispatch in Hin.
      * apply elem_of_cons in Hin as [Hin | Hin]; [discriminate Hin |].
        apply elem_of_cons in Hin as [Hin | Hin];
          [| apply list_elem_of_singleton in Hin; discriminate Hin].
        injection Hin as -> -> ->.
        exists pre, [ledger_write (VIDEO_BUCKET en) j' stored], j. repeat split; auto.
    + intros e' rest Hfl'. rewrite Hfl' in Hfl. discriminate Hfl.
Qed.

(** C8, as amended.  When the dispatcher refuses the asynchronous
    invocation, every submission ends in an error response.  If the
    dispatch was attempted (the descriptor had been persisted), it is
    immediately followed, before the handler returns, by a ledger write of
    the same job's descriptor with status [Failed] and the error detail;
    when the blob store takes that write, the ledger entry of the job is
    the [Failed] descriptor and the response is the 500 "Failed to start
    analysis". *)
Theorem failed_dispatch_marks_ledger_failed
    (event : ApiEvent) (cors_headers : list (string * string)) (context : LambdaContext)
    (w : @World num) (e : exn) :
  lambda_fault (env w) = Some e ->
  exists resp w' evs,
    handle_analyze event cors_headers context w = (Val resp, w')
    /\ trace w' = trace w ++ evs
    /\ (statusCode resp = 400%Z \/ statusCode resp = 404%Z \/ statusCode resp = 500%Z)
    /\ (forall fn p ok, LambdaInvoke fn p ok ∈ evs ->
        ok = false
        /\ exists pre j j' stored,
             evs = pre ++ [ledger_write (VIDEO_BUCKET (env w)) j true;
                           LambdaInvoke fn p false;
                           ledger_write (VIDEO_BUCKET (env w)) j' stored]
             /\ status j = Some "InProgress"
             /\ jobId j' = jobId j /\ ap_analysisJobId p = jobId j
             /\ status j' = Some "Failed"
             /\ error j' = Some ("Failed to start async processing: " +:+ exn_str e)
             /\ (stored = true ->
                 objects (s3 w') !! (VIDEO_BUCKET (env w), job_key (jobId j))
                 = Some (JobInfoDoc j')
                 /\ resp = respond 500 cors_headers
                             (ErrorBody ("Failed to start analysis: " +:+ exn_str e)))).
Proof.
  destruct w as [o sv [ob fl ho hc] bd en tr]. cbn [env lambda_fault]. intros Hfault.
  destruct (handle_analyze_cases event cors_headers context o sv ob fl ho hc bd en tr)
    as (resp & hc' & pre & post & ob' & fl' & E & Hpre & Hcases).
  eexists resp, _, (pre ++ post). split; [exact E |].
  cbn [trace env s3 objects s3_faults]. split; [reflexivity |].
  destruct Hcases as
    [(-> & -> & -> & Hcode)
    | [(j & e' & Hj & -> & -> & -> & ->)
      | [(j & fn & p & Hj & Hfl & Hl & Hp & -> & -> & Hcode)
        | (j & fn & p & e' & j' & stored & Hj & Hl & Hfl & Hp & -> & Hid & Hj' & Herr
           & Hcode & Hresp & Hob)]]].
  - split; [destruct Hcode; auto |].
    intros fn p ok Hin. rewrite app_nil_r in Hin.
    now apply wait_event_not_dispatch in Hin.
  - split; [auto |].
    intros fn p ok Hin. apply elem_of_app in Hin as [Hin | Hin].
    + now apply wait_event_not_dispatch in Hin.
    + apply list_elem_of_singleton in Hin. discriminate Hin.
  - rewrite Hfault in Hl. discriminate Hl.
  - rewrite Hfault in Hl. injection Hl as <-.
    split; [destruct Hcode; auto |].
    intros fn' p' ok Hin. apply elem_of_app in Hin as [Hin | Hin].
    + now apply wait_event_not_dispatch in Hin.
    + apply elem_of_cons in Hin as [Hin | Hin]; [discriminate Hin |].
      apply elem_of_cons in Hin as [Hin | Hin];
        [| apply list_elem_of_singleton in Hin; discriminate Hin].
      injection Hin as -> -> ->. split; [reflexivity |].
      exists pre, j, j', stored.
      split; [reflexivity |]. split; [exact Hj |]. split; [exact Hid |].
      split; [exact Hp |]. split; [exact Hj' |]. split; [exact Herr |].
      intros Hs. split; [| now apply Hresp].
      rewrite Hs in Hob. exact Hob.
Qed.

End Submitter.

(** ** The status resolver *)

Section Resolver.

Context {num : Type} `{PyNum num}.

(** A [try] whose handler returns a response lets no exception escape. *)
Lemma try_except_returns {A} (m : @M num A) (f : exn -> A) w r w' :
  try_except m (fun e => ret (f e)) w = (r, w') -> r <> OutOfFuel ->
  exists a, r = Val a.
Proof.
  unfold try_except, ret. destruct (m w) as [[a|e|] w1]; intros [= <- <-] N; eauto.
  now contradiction N.
Qed.

Lemma try_except_val {A} (m : @M num A) (h : exn -> @M num A) w a w' :
  m w = (Val a, w') -> try_except m h w = (Val a, w').
Proof. unfold try_except. now intros ->. Qed.

Lemma handle_analysis_status_returns analysis_job_id cors_headers (w : @World num) :
  exists resp w' evs,
    handle_analysis_status analysis_job_id cors_headers w = (Val resp, w')
    /\ trace w' = trace w ++ evs
    /\ Forall (fun e => exists b k, e = GetObject b k) evs
    /\ bedrock w' = bedrock w
    /\ opensearch w' = opensearch w /\ s3vectors w' = s3vectors w.
Proof.
  destruct (handle_analysis_status analysis_job_id cors_headers w) as [r w'] eqn:E.
  destruct (handle_analysis_status_within false false false
              (fun e => exists b k, e = GetObject b k)
              (fun b k => ex_intro _ b (ex_intro _ k eq_refl)) _ _ _ _ _ E)
    as [(F1 & F2 & _ & F4 & _ & evs & F6 & F7) N].
  unfold handle_analysis_status in E.
  apply try_except_returns in E as [resp ->]; [| exact N].
  exists resp, w', evs. repeat split; auto.
Qed.

(** C10, as amended.  A status request whose [analysisJobId] parameter is
    present and non-empty is answered by the ledger-backed path alone: the
    response is that of [handle_analysis_status], only ledger reads are
    issued, and the engine's status query is never invoked, whatever
    [invocationArn] holds.  A request in which both parameters are absent
    or empty is rejected with 400 and the world is left as it was. *)
Theorem handle_status_routes_on_job_id
    (event : ApiEvent) (cors_headers : list (string * string)) (w : @World num) :
  (forall analysis_job_id,
      default ∅ (queryStringParameters event) !! "analysisJobId" = Some analysis_job_id ->
      analysis_job_id <> "" ->
      handle_status event cors_headers w
      = handle_analysis_status analysis_job_id cors_headers w
      /\ exists resp w' evs,
           handle_status event cors_headers w = (Val resp, w')
           /\ trace w' = trace w ++ evs
           /\ Forall (fun e => exists b k, e = GetObject b k) evs
           /\ (forall invocationArn, GetAsyncInvoke invocationArn ∉ evs)
           /\ bedrock w' = bedrock w)
  /\ (Py.truthy (default ∅ (queryStringParameters event) !! "analysisJobId") = false ->
      Py.truthy (default ∅ (queryStringParameters event) !! "invocationArn") = false ->
      handle_status event cors_headers w
      = (Val (respond 400 cors_headers
                (ErrorBody "Either invocationArn or analysisJobId parameter is required")),
         w)).
Proof.
  split.
  - intros job Hid Hne.
    destruct (handle_analysis_status_returns job cors_headers w)
      as (resp & w' & evs & E & Ht & Hevs & Hb & _).
    assert (Hs : handle_status event cors_headers w
                 = handle_analysis_status job cors_headers w).
    { unfold handle_status. rewrite Hid.
      destruct job as [|c job]; [now contradiction Hne |].
      cbn [Py.truthy default from_option id].
      rewrite E. now apply try_except_val. }
    split; [exact Hs |].
    exists resp, w', evs. rewrite Hs. repeat split; auto.
    intros arn Hin. rewrite Forall_forall in Hevs.
    destruct (Hevs _ Hin) as (b & k & Hk). discriminate Hk.
  - intros Hj Ha. unfold handle_status, try_except. now rewrite Hj, Ha.
Qed.

End Resolver.

(** ** The search handler *)

Section Search.

Context {num : Type} `{PyNum num}.

Lemma poll_without_completion (fuel : nat) :
  forall arn max waited (o : @OpenSearchSvc num) (sv : @S3VectorsSvc num) (bl : @BlobSvc num)
         sa ao ac en tr,
    (max - waited <= Z.of_nat fuel)%Z ->
    (forall i, (i < fuel)%nat -> not_completed (ao (ac + i)%nat)) ->
    exists r ac' evs,
      poll_query_embedding fuel arn max 1 waited
        {| opensearch := o; s3vectors := sv; s3 := bl;
           bedrock := {| start_async := sa; async_oracle := ao; async_calls := ac |};
           env := en; trace := tr |}
      = (r,
         {| opensearch := o; s3vectors := sv; s3 := bl;
            bedrock := {| start_async := sa; async_oracle := ao; async_calls := ac' |};
            env := en; trace := tr ++ evs |})
      /\ Forall is_poll_event evs
      /\ ((exists waited', r = Val (None, waited') /\ (max <= waited')%Z)
          \/ exists e, r = Exc e).
Proof.
  induction fuel as [|fuel IH]; intros arn max waited o sv bl sa ao ac en tr Hfuel Hnc.
  - simpl. destruct (waited <? max)%Z eqn:Hlt; [apply Z.ltb_lt in Hlt; simpl in Hfuel; lia |].
    apply Z.ltb_ge in Hlt. run. exists (Val (None, waited)), ac, [].
    rewrite app_nil_r. split; [reflexivity |]. split; [constructor | eauto].
  - simpl. destruct (waited <? max)%Z eqn:Hlt.
    2:{ apply Z.ltb_ge in Hlt. run. exists (Val (None, waited)), ac, [].
        rewrite app_nil_r. split; [reflexivity |]. split; [constructor | eauto]. }
    unfold get_async_invoke. run.
    assert (Hnow := Hnc 0%nat ltac:(lia)). rewrite Nat.add_0_r in Hnow.
    destruct (ao ac) as [e | response] eqn:Eao; run.
    { exists (Exc e), (S ac), [GetAsyncInvoke arn].
      split; [reflexivity |]. split; [repeat constructor | eauto]. }
    simpl in Hnow.
    rewrite bool_decide_eq_false_2 by exact Hnow.
    case_bool_decide; run.
    { eexists (Exc _), (S ac), [GetAsyncInvoke arn].
      split; [reflexivity |]. split; [repeat constructor | eauto]. }
    case_bool_decide; run.
    { eexists (Exc _), (S ac), [GetAsyncInvoke arn].
      split; [reflexivity |]. split; [repeat constructor | eauto]. }
    edestruct (IH arn max (waited + 1)%Z o sv bl sa ao (S ac) en
                 ((tr ++ [GetAsyncInvoke arn]) ++ [Sleep (inject_Z 1)]))
      as (r & ac' & evs & E & Hevs & Hr).
    { lia. }
    { intros i Hi. replace (S ac + i)%nat with (ac + S i)%nat by lia. apply Hnc. lia. }
    rewrite E. exists r, ac', ([GetAsyncInvoke arn; Sleep (inject_Z 1)] ++ evs).
    split; [now rewrite <- !app_assoc |]. split; [repeat constructor; auto | exact Hr].
Qed.

Lemma poll_while_pending (fuel : nat) :
  forall arn max waited (o : @OpenSearchSvc num) (sv : @S3VectorsSvc num) (bl : @BlobSvc num)
         sa ao ac en tr,
    (max - waited = Z.of_nat fuel)%Z ->
    (forall i, (i < fuel)%nat -> still_pending (ao (ac + i)%nat)) ->
    poll_query_embedding fuel arn max 1 waited
      {| opensearch := o; s3vectors := sv; s3 := bl;
         bedrock := {| start_async := sa; async_oracle := ao; async_calls := ac |};
         env := en; trace := tr |}
    = (Val (None, max),
       {| opensearch := o; s3vectors := sv; s3 := bl;
          bedrock := {| start_async := sa; async_oracle := ao;
                        async_calls := (ac + fuel)%nat |};
          env := en; trace := tr ++ polls fuel arn |}).
Proof.
  induction fuel as [|fuel IH]; intros arn max waited o sv bl sa ao ac en tr Hfuel Hp.
  - simpl. replace (waited <? max)%Z with false by (symmetry; apply Z.ltb_ge; simpl in Hfuel; lia).
    run. rewrite Nat.add_0_r, app_nil_r. do 3 f_equal. simpl in Hfuel. lia.
  - simpl. replace (waited <? max)%Z with true by (symmetry; apply Z.ltb_lt; lia).
    unfold get_async_invoke. run.
    assert (Hnow := Hp 0%nat ltac:(lia)). rewrite Nat.add_0_r in Hnow.
    destruct (ao ac) as [e | response] eqn:Eao; [contradiction Hnow |].
    destruct Hnow as (N1 & N2 & N3). run.
    rewrite !bool_decide_eq_false_2 by assumption. run.
    rewrite (IH arn max (waited + 1)%Z o sv bl sa ao (S ac) en).
    + rewrite <- !app_assoc. replace (S ac + fuel)%nat with (ac + S fuel)%nat by lia.
      reflexivity.
    + lia.
    + intros i Hi. replace (S ac + i)%nat with (ac + S i)%nat by lia. apply Hp. lia.
Qed.

Lemma poll_query_embedding_within os sv (P : @Event num -> Prop) (fuel : nat) :
  (forall arn, P (GetAsyncInvoke arn)) -> (forall q, P (Sleep q)) ->
  (forall b k, P (GetObject b k)) ->
  forall arn max waited,
    (max - waited <= Z.of_nat fuel)%Z ->
    within os sv true true P (poll_query_embedding fuel arn max 1 waited).
Proof.
  intros P1 P2 P3.
  induction fuel as [|fuel IH]; intros arn max waited Hfuel; simpl;
    destruct (waited <? max)%Z eqn:Hlt; try apply within_ret.
  - apply Z.ltb_lt in Hlt. simpl in Hfuel. lia.
  - apply Z.ltb_lt in Hlt.
    unfold loads_embedding_output.
    footprint; apply IH; lia.
Qed.

Lemma handle_search_within event cors :
  within true true true true (fun _ : @Event num => True) (handle_search event cors).
Proof.
  unfold handle_search.
  apply within_try_except; [| intros ?; apply within_ret].
  destruct (negb _); [apply within_ret |].
  apply within_bind.
  - apply within_try_except; [| intros ?; apply within_ret].
    apply within_bind; [unfold start_async_invoke; footprint |].
    intros arn. apply within_bind.
    + apply poll_query_embedding_within; auto. simpl. lia.
    + intros [qe waited]. destruct (25 <=? waited)%Z; [apply within_ret |].
      destruct qe as [[|x qe]|]; apply within_ret.
  - intros [resp | qe]; [apply within_ret |].
    apply within_bind.
    + apply within_try_except; [| intros ?; apply within_ret].
      now apply search_opensearch_within.
    + intros r1. apply within_bind; [| intros ?; apply within_ret].
      apply within_try_except; [| intros ?; apply within_ret].
      now apply search_s3_vectors_within.
Qed.


(** C5.  The search handler always returns a response: its polling loop
    makes at most 25 status checks, one second apart.  If none of those
    checks observes [Completed], the handler answers with an error status
    after issuing nothing but the start of the job, status checks and
    sleeps, so that no call reaches either vector backend.  If the job is
    still pending at each of the 25 checks, the answer is the 408 "Query
    embedding generation timed out", after exactly 25 checks and 25
    one-second sleeps. *)
Theorem search_polling_is_bounded
    (event : ApiEvent) (cors_headers : list (string * string)) (w : @World num) :
  (exists resp w', handle_search event cors_headers w = (Val resp, w'))
  /\ ((forall i, (i < 25)%nat ->
         not_completed (async_oracle (bedrock w) (async_calls (bedrock w) + i)%nat)) ->
      exists resp w' evs,
        handle_search event cors_headers w = (Val resp, w')
        /\ trace w' = trace w ++ evs
        /\ Forall is_poll_event evs
        /\ (statusCode resp = 400%Z \/ statusCode resp = 408%Z \/ statusCode resp = 500%Z)
        /\ opensearch w' = opensearch w /\ s3vectors w' = s3vectors w)
  /\ (forall query_text invocation_arn,
        default ∅ (queryStringParameters event) !! "q" = Some query_text ->
        query_text <> "" ->
        start_async (bedrock w) = inr invocation_arn ->
        (forall i, (i < 25)%nat ->
           still_pending (async_oracle (bedrock w) (async_calls (bedrock w) + i)%nat)) ->
        exists w',
          handle_search event cors_headers w
          = (Val (respond 408 cors_headers
                    (ErrorBody "Query embedding generation timed out")), w')
          /\ trace w' = trace w ++ StartAsyncInvoke "text" :: polls 25 invocation_arn
          /\ async_calls (bedrock w') = (async_calls (bedrock w) + 25)%nat
          /\ opensearch w' = opensearch w /\ s3vectors w' = s3vectors w).
Proof.
  split; [| split].
  - destruct (handle_search event cors_headers w) as [r w'] eqn:E.
    destruct (handle_search_within event cors_headers _ _ _ E) as [_ N].
    unfold handle_search in E. apply try_except_returns in E as [resp ->]; eauto.
  - destruct w as [o sv bl [sa ao ac] en tr]. cbn [bedrock async_oracle async_calls].
    intros Hnc. unfold handle_search. run.
    destruct (default "" (default ∅ (queryStringParameters event) !! "q")) as [|c q] eqn:Eq;
      run.
    { eexists _, _, []. split; [reflexivity |]. rewrite app_nil_r.
      repeat split; auto. }
    unfold start_async_invoke. run.
    destruct sa as [e | arn]; run.
    { eexists _, _, [_]. split; [reflexivity |]. repeat split; auto. repeat constructor. }
    edestruct (poll_without_completion 25 arn 25 0 o sv bl (inr arn) ao ac en
                 (tr ++ [StartAsyncInvoke "text"]))
      as (r & ac' & evs & E & Hevs & Hr); [simpl; lia | exact Hnc |].
    change (Z.to_nat 25) with 25%nat. rewrite E. clear E.
    destruct Hr as [(waited' & -> & Hw) | (e & ->)]; run.
    + replace (25 <=? waited')%Z with true by (symmetry; apply Z.leb_le; lia). run.
      eexists _, _, (StartAsyncInvoke "text" :: evs).
      split; [rewrite <- app_assoc; reflexivity |].
      repeat split; auto. constructor; [exact I | exact Hevs].
    + eexists _, _, (StartAsyncInvoke "text" :: evs).
      split; [rewrite <- app_assoc; reflexivity |].
      repeat split; auto. constructor; [exact I | exact Hevs].
  - destruct w as [o sv bl [sa ao ac] en tr].
    cbn [bedrock async_oracle async_calls start_async].
    intros q arn Hq Hne -> Hp. unfold handle_search. run. rewrite Hq.
    destruct q as [|c q]; [now contradiction Hne |]. cbn [default from_option id Py.truthy].
    run. unfold start_async_invoke. run.
    change (Z.to_nat 25) with 25%nat.
    rewrite (poll_while_pending 25 arn 25 0 o sv bl (inr arn) ao ac en
               (tr ++ [StartAsyncInvoke "text"])); [| simpl; lia | exact Hp].
    run. eexists. split; [reflexivity |].
    cbn [trace bedrock async_calls opensearch s3vectors].
    repeat split; auto. now rewrite <- app_assoc.
Qed.

Lemma search_opensearch_creates_index q k (w : @World num) :
  opensearch_up w -> os_index (opensearch w) = None ->
  exists w',
    search_opensearch q k w
    = (Val {| so_results := []; so_total := 0; so_message := None; so_error := None |}, w')
    /\ os_index (opensearch w')
       = Some {| ix_embedding_type := Some "knn_vector"; ix_docs := [] |}
    /\ s3vectors w' = s3vectors w.
Proof.
  destruct w as [[ini cl ix fl] sv s bd en tr]. unfold opensearch_up.
  cbn [opensearch os_faults opensearch_client os_init_ok os_index s3vectors].
  intros [-> Hc] ->.
  unfold search_opensearch. run.
  rewrite (get_opensearch_client_run ini cl None sv s bd en tr Hc). run.
  edestruct (ensure_run ini true None sv s bd en tr) as [tr2 E2]. rewrite E2. clear E2. run.
  unfold os_search, os_call. run. cbn [ix_docs]. unfold knn_hits. cbn [map sort_by fold_right].
  rewrite take_nil. eexists. split; [reflexivity |]. split; reflexivity.
Qed.

(** The first search of a process: the name of the bucket is not cached
    yet, and what is missing of the bucket and the index is created. *)
Lemma search_s3_vectors_first_use q k (w : @World num) b :
  s3v_faults (s3vectors w) = [] -> S3_VECTOR_BUCKET (s3vectors w) = None ->
  vector_bucket w = Some b -> lookup_index w b S3_VECTOR_INDEX = None ->
  exists w',
    search_s3_vectors q k w
    = (Val {| so_results := []; so_total := 0; so_message := None; so_error := None |}, w')
    /\ S3_VECTOR_BUCKET (s3vectors w') = Some b
    /\ lookup_index w' b S3_VECTOR_INDEX = Some ∅
    /\ opensearch w' = opensearch w.
Proof.
  destruct w as [o [cached vb fl] s bd en tr].
  unfold vector_bucket, lookup_index.
  cbn [s3vectors S3_VECTOR_BUCKET s3v_faults vector_buckets env opensearch].
  intros -> -> Hv Hix.
  destruct (resolved_account_id en) as [a|] eqn:Ea; [| discriminate Hv].
  injection Hv as Hv.
  unfold search_s3_vectors, get_or_create_s3_vector_bucket. run.
  edestruct (get_account_id_run (num:=num) o
               {| S3_VECTOR_BUCKET := None; vector_buckets := vb; s3v_faults := [] |}
               s bd en tr a Ea) as [tr1 E1].
  rewrite E1. clear E1. run.
  assert (Ht : Py.truthy (Some b) = true) by now subst b.
  rewrite Hv. clear Hv.
  destruct b as [|c0 b]; [discriminate Ht |]. run.
  unfold get_vector_bucket, create_vector_bucket, get_index, create_index, query_vectors,
    s3v_call, lookup_index. run.
  assert (N1 := is_not_found_s3v "GetIndex" (or_intror eq_refl)).
  assert (N2 := is_not_found_s3v "GetVectorBucket" (or_introl eq_refl)).
  destruct (vb !! String c0 b) as [bm|] eqn:Eb;
    [destruct (bm !! S3_VECTOR_INDEX) as [ix|] eqn:Ei; [discriminate Hix |] |];
    repeat (progress (run; rewrite ?Eb, ?Ei, ?N1, ?N2, ?lookup_insert_eq, ?lookup_empty));
    unfold nearest; rewrite map_to_list_empty; cbn [map sort_by fold_right];
    rewrite take_nil;
    (eexists; split; [reflexivity |]);
    cbn [s3vectors S3_VECTOR_BUCKET vector_buckets opensearch];
    rewrite ?lookup_insert_eq; repeat split; reflexivity.
Qed.

(** A later search: the name is cached, so nothing is checked or created,
    and the query of an absent index raises. *)
Lemma search_s3_vectors_cached_name q k (w : @World num) b :
  s3v_faults (s3vectors w) = [] -> S3_VECTOR_BUCKET (s3vectors w) = Some b ->
  lookup_index w b S3_VECTOR_INDEX = None ->
  exists e w',
    search_s3_vectors q k w = (Exc e, w')
    /\ try_except (search_s3_vectors q k) (fun e => ret (failed_search e)) w
       = (Val {| so_results := []; so_total := 0; so_message := None;
                 so_error := Some (exn_str e) |}, w')
    /\ (b <> "" -> e = s3v_not_found "QueryVectors")
    /\ S3_VECTOR_BUCKET (s3vectors w') = Some b
    /\ lookup_index w' b S3_VECTOR_INDEX = None.
Proof.
  destruct w as [o [cached vb fl] s bd en tr].
  unfold lookup_index.
  cbn [s3vectors S3_VECTOR_BUCKET s3v_faults vector_buckets].
  intros -> -> Hix.
  unfold search_s3_vectors, get_or_create_s3_vector_bucket. run.
  destruct b as [|c0 b]; run.
  - eexists _, _. split; [reflexivity |]. split; [reflexivity |].
    split; [intros Hb; now contradiction Hb |]. split; [reflexivity | exact Hix].
  - unfold query_vectors, s3v_call, lookup_index. run. rewrite Hix. run.
    eexists _, _. split; [reflexivity |]. split; [reflexivity |].
    split; [reflexivity |]. split; [reflexivity | exact Hix].
Qed.

Lemma search_opensearch_index_not_found q k (w : @World num) e rest :
  os_faults (opensearch w) = Some e :: rest ->
  opensearch_client (opensearch w) || os_init_ok (opensearch w) = true ->
  mentions_index_not_found e = true ->
  exists w',
    search_opensearch q k w = (Val no_videos_outcome, w')
    /\ s3vectors w' = s3vectors w.
Proof.
  destruct w as [[ini cl ix fl] sv s bd en tr].
  cbn [opensearch os_faults opensearch_client os_init_ok].
  intros -> Hc Hm.
  unfold search_opensearch, get_opensearch_client. run.
  destruct cl; [| destruct ini; [| discriminate Hc]]; run;
    unfold ensure_vector_index, indices_exists, os_call; run;
    rewrite Hm; run; eexists; split; reflexivity.
Qed.

(** A message on the OpenSearch side comes from an error of the service. *)
Lemma search_opensearch_message_origin q k (w : @World num) out w' :
  search_opensearch q k w = (Val out, w') -> so_message out <> None ->
  out = no_videos_outcome
  /\ exists e, Some e ∈ os_faults (opensearch w) /\ mentions_index_not_found e = true.
Proof.
  destruct w as [[ini cl ix fl] sv s bd en tr].
  cbn [opensearch os_faults].
  unfold search_opensearch, get_opensearch_client, ensure_vector_index, indices_exists,
    indices_get_mapping, indices_delete, indices_create, os_search, os_call.
  run.
  repeat (branch; run);
    intros [= <- <-] Hm; try (now contradiction Hm);
    (split; [reflexivity |]);
    match goal with
    | Hmention : mentions_index_not_found ?e = true |- _ =>
        exists e; split; [repeat constructor | exact Hmention]
    end.
Qed.

Lemma search_s3_vectors_has_no_message q k (w : @World num) out w' :
  search_s3_vectors q k w = (Val out, w') -> so_message out = None.
Proof.
  unfold search_s3_vectors. intros E.
  apply bind_val_inv in E as (bucket & w1 & _ & E).
  destruct bucket as [bucket|]; [| discriminate E].
  destruct (negb (Py.truthy (Some bucket))); [discriminate E |].
  apply bind_val_inv in E as (vectors & w2 & _ & E).
  now injection E as <- _.
Qed.

(** C6, as amended.  With OpenSearch up and its index absent, the search
    creates the index and returns an empty result set with zero total, no
    error marker and no message.  On the S3 Vectors side this holds for the
    first search of a process, while the name of the bucket is not cached:
    what is missing of the bucket and the index is created and the result
    is empty, with no error marker and no message.  Once the name is
    cached, the search of an absent index raises, and the side that the
    orchestrator reports is empty with zero total and an error marker.  A
    message is attached only on the OpenSearch side, and only when a call to
    the service raised an error that mentions [index_not_found_exception];
    it is attached when the existence check raises such an error.  The S3
    Vectors side never carries a message. *)
Theorem search_of_absent_index_is_empty
    (query_embedding : list num) (top_k : nat) (w : @World num) :
  (opensearch_up w -> os_index (opensearch w) = None ->
   exists w',
     search_opensearch query_embedding top_k w
     = (Val {| so_results := []; so_total := 0; so_message := None; so_error := None |}, w')
     /\ os_index (opensearch w')
        = Some {| ix_embedding_type := Some "knn_vector"; ix_docs := [] |}
     /\ s3vectors w' = s3vectors w)
  /\ (s3v_faults (s3vectors w) = [] -> S3_VECTOR_BUCKET (s3vectors w) = None ->
      forall b, vector_bucket w = Some b -> lookup_index w b S3_VECTOR_INDEX = None ->
      exists w',
        search_s3_vectors query_embedding top_k w
        = (Val {| so_results := []; so_total := 0; so_message := None; so_error := None |},
           w')
        /\ S3_VECTOR_BUCKET (s3vectors w') = Some b
        /\ lookup_index w' b S3_VECTOR_INDEX = Some ∅
        /\ opensearch w' = opensearch w)
  /\ (s3v_faults (s3vectors w) = [] ->
      forall b, S3_VECTOR_BUCKET (s3vectors w) = Some b ->
      lookup_index w b S3_VECTOR_INDEX = None ->
      exists e w',
        search_s3_vectors query_embedding top_k w = (Exc e, w')
        /\ try_except (search_s3_vectors query_embedding top_k)
             (fun e => ret (failed_search e)) w
           = (Val {| so_results := []; so_total := 0; so_message := None;
                     so_error := Some (exn_str e) |}, w')
        /\ (b <> "" -> e = s3v_not_found "QueryVectors")
        /\ S3_VECTOR_BUCKET (s3vectors w') = Some b
        /\ lookup_index w' b S3_VECTOR_INDEX = None)
  /\ (forall out w',
        search_opensearch query_embedding top_k w = (Val out, w') ->
        so_message out <> None ->
        out = no_videos_outcome
        /\ exists e,
             Some e ∈ os_faults (opensearch w) /\ mentions_index_not_found e = true)
  /\ (forall e rest,
        os_faults (opensearch w) = Some e :: rest ->
        opensearch_client (opensearch w) || os_init_ok (opensearch w) = true ->
        mentions_index_not_found e = true ->
        exists w',
          search_opensearch query_embedding top_k w = (Val no_videos_outcome, w')
          /\ s3vectors w' = s3vectors w)
  /\ (forall out w',
        search_s3_vectors query_embedding top_k w = (Val out, w') ->
        so_message out = None).
Proof.
  split; [| split; [| split; [| split; [| split]]]].
  - apply search_opensearch_creates_index.
  - intros Hfaults Hname b. now apply search_s3_vectors_first_use.
  - intros Hfaults b. now apply search_s3_vectors_cached_name.
  - apply search_opensearch_message_origin.
  - intros e rest. apply search_opensearch_index_not_found.
  - apply search_s3_vectors_has_no_message.
Qed.

Lemma elem_of_insert_by {A} (le : A -> A -> bool) (x y : A) (l : list A) :
  x ∈ insert_by le y l -> x = y \/ x ∈ l.
Proof.
  induction l as [|z l IH]; simpl.
  - intros Hx. apply list_elem_of_singleton in Hx. auto.
  - destruct (le y z).
    + intros Hx. apply elem_of_cons in Hx. exact Hx.
    + intros Hx. apply elem_of_cons in Hx as [-> | Hx].
      * right. apply elem_of_cons. auto.
      * destruct (IH Hx) as [-> | Hl]; [auto | right; apply elem_of_cons; auto].
Qed.

Lemma elem_of_sort_by {A} (le : A -> A -> bool) (x : A) (l : list A) :
  x ∈ sort_by le l -> x ∈ l.
Proof.
  unfold sort_by. induction l as [|z l IH]; simpl; [auto |].
  intros Hx. apply elem_of_insert_by in Hx as [-> | Hx]; apply elem_of_cons; auto.
Qed.

Lemma elem_of_take_list {A} (x : A) n (l : list A) : x ∈ take n l -> x ∈ l.
Proof.
  intros Hx. apply elem_of_take in Hx as (i & Hi & _).
  apply list_elem_of_lookup. eauto.
Qed.

Lemma knn_hits_scores (docs : list (@Document num)) q k h :
  h ∈ knn_hits docs q k ->
  snd h = cosinesimil q (doc_embedding (fst h)) /\ fst h ∈ docs.
Proof.
  unfold knn_hits. intros Hh.
  apply elem_of_take_list, elem_of_sort_by, list_elem_of_In, in_map_iff in Hh
    as (d & <- & Hd).
  split; [reflexivity | now apply list_elem_of_In].
Qed.

Lemma nearest_distances (ix : gmap string (@Vector num)) q k h :
  h ∈ nearest ix q k ->
  snd h = cosine_distance q (vec_data (fst h)) /\ exists key, ix !! key = Some (fst h).
Proof.
  unfold nearest. intros Hh.
  apply elem_of_take_list, elem_of_sort_by, list_elem_of_In, in_map_iff in Hh
    as ([key v] & <- & Hd).
  split; [reflexivity |]. exists key. apply list_elem_of_In in Hd.
  now apply elem_of_map_to_list in Hd.
Qed.

Lemma os_search_reads_the_index q k (w : @World num) hits total w' :
  os_search q k w = (Val (hits, total), w') ->
  exists ix, os_index (opensearch w') = Some ix /\ hits = knn_hits (ix_docs ix) q k.
Proof.
  destruct w as [[ini cl ix fl] sv s bd en tr].
  unfold os_search, os_call. run.
  destruct fl as [|[e|] fl]; run; try discriminate;
    (destruct ix as [ix|]; run; [| discriminate]);
    intros [= <- _ <-]; eexists; split; reflexivity.
Qed.

Lemma search_opensearch_scores_stored q k (w : @World num) out w' :
  search_opensearch q k w = (Val out, w') -> scores_stored_documents q w' out.
Proof.
  assert (Hnone : forall w0, scores_stored_documents q w0 no_videos_outcome).
  { intros w0 r Hr. apply elem_of_nil in Hr. contradiction. }
  unfold search_opensearch. intros E.
  apply try_except_inv in E as [(e & w1 & _ & E) | (E & _)].
  { destruct (mentions_index_not_found e); [| discriminate E].
    injection E as <- _. apply Hnone. }
  apply bind_val_inv in E as (client & w1 & _ & E).
  destruct client; [| discriminate E]. cbn [negb] in E.
  apply bind_val_inv in E as (early & w2 & E1 & E).
  apply try_except_inv in E1 as [(e & w3 & _ & E1) | (E1 & _)].
  - destruct (mentions_index_not_found e); [| discriminate E1].
    injection E1 as <- _. injection E as <- _. apply Hnone.
  - apply bind_val_inv in E1 as (_ & w3 & _ & E1). injection E1 as <- _.
    apply bind_val_inv in E as ([hits total] & w4 & E2 & E).
    injection E as <- <-.
    apply os_search_reads_the_index in E2 as (ix & Hix & ->).
    intros r Hr. cbn [so_results] in Hr.
    apply list_elem_of_In, in_map_iff in Hr as (h & <- & Hh).
    apply list_elem_of_In, knn_hits_scores in Hh as [Hs Hd].
    exists (fst h). unfold stored_documents. rewrite Hix. repeat split; assumption.
Qed.

Lemma s3v_call_keeps_the_name op (w : @World num) r w' :
  s3v_call op w = (r, w') ->
  S3_VECTOR_BUCKET (s3vectors w') = S3_VECTOR_BUCKET (s3vectors w).
Proof.
  destruct w as [o [cached vb fl] s bd en tr]. unfold s3v_call. run.
  destruct fl as [|[e|] fl]; intros [= <- <-]; reflexivity.
Qed.

Lemma returned_bucket_is_cached (w : @World num) b w' :
  get_or_create_s3_vector_bucket w = (Val (Some b), w') ->
  S3_VECTOR_BUCKET (s3vectors w') = Some b.
Proof.
  destruct w as [o [cached vb fl] s bd en tr].
  unfold get_or_create_s3_vector_bucket. run.
  destruct cached as [c|]; [intros [= <- <-]; reflexivity |].
  assert (N1 := is_not_found_s3v "GetIndex" (or_intror eq_refl)).
  assert (N2 := is_not_found_s3v "GetVectorBucket" (or_introl eq_refl)).
  unfold get_account_id, get_vector_bucket, create_vector_bucket, get_index, create_index,
    s3v_call, lookup_index.
  run.
  repeat (first [ rewrite N1 | rewrite N2 | rewrite lookup_insert_eq | rewrite lookup_empty
                | branch ]; run);
    intros [= <- <-]; reflexivity.
Qed.

Lemma search_s3_vectors_scores_stored q k (w : @World num) out w' :
  search_s3_vectors q k w = (Val out, w') -> scores_stored_vectors q w' out.
Proof.
  unfold search_s3_vectors. intros E.
  apply bind_val_inv in E as (bucket & w1 & Ebucket & E).
  destruct bucket as [bucket|]; [| discriminate E].
  apply returned_bucket_is_cached in Ebucket.
  destruct (negb (Py.truthy (Some bucket))); [discriminate E |].
  apply bind_val_inv in E as (vectors & w2 & E1 & E).
  injection E as <- <-.
  unfold query_vectors in E1.
  apply bind_val_inv in E1 as (u & w3 & Ecall & E1).
  apply s3v_call_keeps_the_name in Ecall. rewrite Ebucket in Ecall.
  apply bind_val_inv in E1 as (w4 & w5 & Eget & E1).
  injection Eget as <- <-.
  destruct (lookup_index w3 bucket S3_VECTOR_INDEX) as [ix|] eqn:Hix; [| discriminate E1].
  injection E1 as <- <-.
  intros r Hr. cbn [so_results] in Hr.
  apply list_elem_of_In, in_map_iff in Hr as (h & <- & Hh).
  apply list_elem_of_In, nearest_distances in Hh as [Hs [key Hkey]].
  exists key, (fst h). unfold stored_vectors, vector_bucket. rewrite Ecall, Hix.
  repeat split; assumption.
Qed.

Lemma failed_search_scores_documents q e (w : @World num) :
  scores_stored_documents q w (failed_search e).
Proof. intros r Hr. apply elem_of_nil in Hr. contradiction. Qed.

Lemma failed_search_scores_vectors q e (w : @World num) :
  scores_stored_vectors q w (failed_search e).
Proof. intros r Hr. apply elem_of_nil in Hr. contradiction. Qed.

(** C7, as amended.  In every comparison that the search handler returns,
    the query is the parameter [q] of the request and the sides are what the
    two searches returned for the embedding that the engine produced for
    this request.  Each entry of the OpenSearch side carries, under
    [score], the similarity that the engine computed between that embedding
    and a document held by the index, with that document's metadata; each
    entry of the S3 Vectors side carries, under the same key, the distance
    between that embedding and a vector held by the index, with that
    vector's metadata.  Neither value is transformed.  An entry does not
    name the kind of its value: the side it is listed under is all that
    tells the scale. *)
Theorem search_reports_raw_rankings_per_backend
    (event : ApiEvent) (cors_headers : list (string * string)) (w : @World num)
    (resp : Response) (w' : @World num)
    (opensearch_side s3vectors_side : SearchOutcome) (query message : string) :
  handle_search event cors_headers w = (Val resp, w') ->
  body resp = Comparison opensearch_side s3vectors_side query message ->
  exists invocation_arn query_embedding waited w0 w1 w2,
    default ∅ (queryStringParameters event) !! "q" = Some query
    /\ start_async_invoke "text" w = (Val invocation_arn, w0)
    /\ poll_query_embedding (Z.to_nat 25) invocation_arn 25 1 0 w0
       = (Val (Some query_embedding, waited), w1)
    /\ try_except (search_opensearch query_embedding 10) (fun e => ret (failed_search e)) w1
       = (Val opensearch_side, w2)
    /\ try_except (search_s3_vectors query_embedding 10) (fun e => ret (failed_search e)) w2
       = (Val s3vectors_side, w')
    /\ scores_stored_documents query_embedding w2 opensearch_side
    /\ scores_stored_vectors query_embedding w' s3vectors_side.
Proof.
  unfold handle_search. intros E Hbody.
  apply try_except_inv in E as [(e & w1 & _ & E) | (E & _)].
  { injection E as <- _. discriminate Hbody. }
  destruct (negb _) eqn:Hq; [injection E as <- _; discriminate Hbody |].
  apply bind_val_inv in E as (generated & w1 & E1 & E).
  destruct generated as [response | query_embedding].
  - injection E as <- _. exfalso.
    apply try_except_inv in E1 as [(e & w2 & _ & E1) | (E1 & _)].
    { inversion E1; subst. discriminate Hbody. }
    apply bind_val_inv in E1 as (arn & w2 & _ & E1).
    apply bind_val_inv in E1 as ([qe waited] & w3 & _ & E1).
    destruct (25 <=? waited)%Z; [inversion E1; subst; discriminate Hbody |].
    destruct qe as [[|x qe]|]; inversion E1; subst; discriminate Hbody.
  - apply bind_val_inv in E as (os & w2 & E2 & E).
    apply bind_val_inv in E as (s3v & w3 & E3 & E).
    injection E as <- <-. cbn [body respond] in Hbody.
    injection Hbody as <- <- Hquery _.
    apply try_except_inv in E1 as [(e & w4 & _ & E1) | (E1 & _)]; [discriminate E1 |].
    apply bind_val_inv in E1 as (arn & w4 & Estart & E1).
    apply bind_val_inv in E1 as ([qe waited] & w5 & Epoll & E1).
    destruct (25 <=? waited)%Z; [discriminate E1 |].
    destruct qe as [[|x qe]|]; try discriminate E1.
    injection E1 as <- <-.
    exists arn, (x :: qe), waited, w4, w5, w2.
    split.
    { destruct (default ∅ (queryStringParameters event) !! "q") as [q|];
        [now rewrite <- Hquery | discriminate Hq]. }
    split; [exact Estart |]. split; [exact Epoll |].
    split; [exact E2 |]. split; [exact E3 |]. split.
    + apply try_except_inv in E2 as [(e & w6 & _ & E2) | (E2 & _)].
      * injection E2 as <- _. apply failed_search_scores_documents.
      * eapply search_opensearch_scores_stored; eauto.
    + apply try_except_inv in E3 as [(e & w6 & _ & E3) | (E3 & _)].
      * injection E3 as <- _. apply failed_search_scores_vectors.
      * eapply search_s3_vectors_scores_stored; eauto.
Qed.

End Search.

(** * The properties at concrete inputs *)

(** C1: a second materialization of one segment leaves two documents in
    OpenSearch where the first left one. *)
Lemma rematerialization_duplicates_documents :
  let w1 := snd (store_embeddings_dual Examples.clip1_response Examples.one_segment
                   Examples.fresh) in
  let w2 := snd (store_embeddings_dual Examples.clip1_response Examples.one_segment w1) in
  length (stored_documents w1) = 1%nat
  /\ length (stored_documents w2) = 2%nat
  /\ stored_documents w2 <> stored_documents w1.
Proof.
  split; [vm_compute; reflexivity |]. split; [vm_compute; reflexivity |].
  intros E. apply (f_equal length) in E. vm_compute in E. discriminate E.
Qed.

Lemma rematerialization_upserts_vectors_and_appends_documents_witness :
  opensearch_up Examples.fresh /\ s3vectors_up Examples.fresh
  /\ let w1 := snd (store_embeddings_dual Examples.clip1_response Examples.three_segments
                      Examples.fresh) in
     let w2 := snd (store_embeddings_dual Examples.clip1_response Examples.three_segments
                      w1) in
     stored_vectors w2 = stored_vectors w1
     /\ length (stored_documents w2) = (length (stored_documents w1) + 3)%nat.
Proof.
  assert (Hos : opensearch_up Examples.fresh) by (split; reflexivity).
  assert (Hsv : s3vectors_up Examples.fresh)
    by (split; [reflexivity | eexists; reflexivity]).
  split; [exact Hos |]. split; [exact Hsv |].
  destruct (rematerialization_upserts_vectors_and_appends_documents
              Examples.clip1_response Examples.three_segments Examples.fresh Hos Hsv)
    as (_ & Hv & _ & Hd).
  split; [exact Hv | exact Hd].
Defined.

(** C9 at the three segments of [clip1]. *)
Lemma segment_keys_agree_across_backends_witness :
  opensearch_up Examples.fresh /\ s3vectors_up Examples.fresh
  /\ (exists d v,
        documents_sent Examples.clip1_response "clip1" "s3://video-bucket/videos/clip1.mp4"
          3 0 Examples.three_segments !! 1%nat = Some d
        /\ make_vectors "clip1" "s3://video-bucket/videos/clip1.mp4" 0
             Examples.three_segments !! 1%nat = Some v
        /\ doc_segmentId d = "clip1_segment_1_10"
        /\ vec_key v = "clip1_segment_1_10"
        /\ doc_duration d = 10%Z /\ vm_duration (vec_metadata v) = 10%Z).
Proof.
  assert (Hos : opensearch_up Examples.fresh) by (split; reflexivity).
  assert (Hsv : s3vectors_up Examples.fresh)
    by (split; [reflexivity | eexists; reflexivity]).
  split; [exact Hos |]. split; [exact Hsv |].
  destruct (segment_keys_agree_across_backends
              Examples.clip1_response Examples.three_segments Examples.fresh Hos Hsv)
    as (_ & Hkeys & _).
  destruct (Hkeys 1%nat (Examples.segment 10 20 [0; 1]%Z) eq_refl)
    as (d & v & Hd & Hv & Hid & Hkey & _ & Hdur & Hvdur).
  exists d, v. split; [exact Hd |]. split; [exact Hv |].
  split; [exact Hid |]. split; [now rewrite Hkey |].
  split; [exact Hdur | now rewrite Hvdur].
Defined.

(** C4: a permission error is answered [False]; nothing is raised. *)
Lemma waiter_swallows_permission_error :
  head_oracle (s3 Examples.denied) 0 = Some (ClientError "403" "Forbidden" "HeadObject")
  /\ fst (wait_for_s3_object "s3://video-bucket/videos/clip1.mp4" 30 Examples.denied)
     = Val false
  /\ forall e,
       fst (wait_for_s3_object "s3://video-bucket/videos/clip1.mp4" 30 Examples.denied)
       <> Exc e.
Proof.
  split; [reflexivity |]. split; [vm_compute; reflexivity |].
  intros e E. vm_compute in E. discriminate E.
Qed.

Lemma wait_for_s3_object_answers_without_raising_witness :
  (0 < inject_Z 30)%Q
  /\ wait_loop 30 "video-bucket" "videos/clip1.mp4" 30 1 0 Examples.denied
     = (Val false, checked "video-bucket" "videos/clip1.mp4" Examples.denied).
Proof.
  assert (Hlt : (0 < inject_Z 30)%Q) by reflexivity.
  split; [exact Hlt |].
  destruct (wait_for_s3_object_answers_without_raising
              "s3://video-bucket/videos/clip1.mp4" 30 Examples.denied)
    as (_ & _ & _ & Hstep).
  destruct (Hstep 29%nat "video-bucket" "videos/clip1.mp4" 1%Q 0%Q Examples.denied)
    as [_ Hnow].
  exact (Hnow Hlt).
Defined.

(** C3 at an accepted submission. *)
Lemma ledger_entry_precedes_dispatch_witness :
  exists resp w' j fn p,
    handle_analyze Examples.analyze_request [] Examples.demo_context Examples.fresh
    = (Val resp, w')
    /\ statusCode resp = 202%Z
    /\ trace w' = [HeadObject "video-bucket" "videos/clip1.mp4";
                   ledger_write "video-bucket" j true; LambdaInvoke fn p true]
    /\ status j = Some "InProgress"
    /\ objects (s3 w') !! ("video-bucket", job_key (jobId j)) = Some (JobInfoDoc j).
Proof.
  destruct (ledger_entry_precedes_dispatch
              Examples.analyze_request [] Examples.demo_context Examples.fresh)
    as (resp & w' & evs & E & Ht & Haccepted & _ & _).
  assert (E' := E). vm_compute in E'. injection E' as <- <-.
  destruct (Haccepted eq_refl) as (pre & j & fn & p & Hevs & Hpre & Hj & Hp & Hob).
  eexists _, _, j, fn, p. split; [exact E |]. split; [reflexivity |].
  cbn [trace Examples.fresh app] in Ht.
  assert (Hpre1 : pre = [HeadObject "video-bucket" "videos/clip1.mp4"]).
  { rewrite Hevs in Ht. clear - Ht.
    cbn [trace] in Ht.
    destruct pre as [|x [|y pre]]; cbn [app] in Ht; try discriminate Ht.
    - injection Ht as <- _ _. reflexivity.
    - exfalso. apply (f_equal length) in Ht. rewrite !length_cons, length_app in Ht.
      simpl in Ht. lia. }
  split; [rewrite Ht, Hevs, Hpre1; reflexivity |].
  split; [exact Hj | exact Hob].
Defined.

(** C8: when the blob store refuses the rewrite, the caller gets an error
    and the ledger entry of the job that will never run stays [InProgress]. *)
Lemma refused_rewrite_leaves_in_progress :
  exists resp w' j fn p,
    handle_analyze Examples.analyze_request [] Examples.demo_context Examples.flaky_store
    = (Val resp, w')
    /\ statusCode resp = 500%Z
    /\ LambdaInvoke fn p false ∈ trace w'
    /\ objects (s3 w')
         !! ("video-bucket", "analysis/analysis_1700000000_0a1b2c3d/job_info.json")
       = Some (JobInfoDoc j)
    /\ status j = Some "InProgress".
Proof.
  eexists _, _, _, _, _. split; [vm_compute; reflexivity |].
  split; [reflexivity |]. split; [| split; [vm_compute; reflexivity | reflexivity]].
  cbn [trace]. apply elem_of_cons. right. apply elem_of_cons. right.
  apply elem_of_cons. left. reflexivity.
Qed.

(** C8 at a refused dispatch. *)
Lemma failed_dispatch_marks_ledger_failed_witness :
  lambda_fault (env Examples.no_dispatch) = Some Examples.throttled
  /\ exists resp w' j',
       handle_analyze Examples.analyze_request [] Examples.demo_context Examples.no_dispatch
       = (Val resp, w')
       /\ statusCode resp = 500%Z
       /\ objects (s3 w')
            !! ("video-bucket", "analysis/analysis_1700000000_0a1b2c3d/job_info.json")
          = Some (JobInfoDoc j')
       /\ status j' = Some "Failed"
       /\ error j' = Some ("Failed to start async processing: "
                             +:+ exn_str Examples.throttled).
Proof.
  assert (Hfault : lambda_fault (env Examples.no_dispatch) = Some Examples.throttled)
    by reflexivity.
  split; [exact Hfault |].
  destruct (failed_dispatch_marks_ledger_failed
              Examples.analyze_request [] Examples.demo_context Examples.no_dispatch
              Examples.throttled Hfault)
    as (resp & w' & evs & E & Ht & _ & Hdispatch).
  assert (E' := E). vm_compute in E'. injection E' as <- <-.
  cbn [trace Examples.no_dispatch app] in Ht. subst evs.
  match type of Hdispatch with
  | context [LambdaInvoke _ _ _ ∈ [_; _; LambdaInvoke ?fn ?p ?ok; _]] =>
      destruct (Hdispatch fn p ok) as (_ & pre & j & j' & stored & Hevs & Hj & Hid & Hp
                                       & Hj' & Herr & Hstored)
  end.
  { apply elem_of_cons. right. apply elem_of_cons. right.
    apply elem_of_cons. left. reflexivity. }
  assert (Hshape : pre = [HeadObject "video-bucket" "videos/clip1.mp4"]).
  { clear - Hevs.
    destruct pre as [|x [|y pre]]; cbn [app] in Hevs; try discriminate Hevs.
    - now injection Hevs as <-.
    - exfalso. apply (f_equal length) in Hevs. rewrite !length_cons, length_app in Hevs.
      simpl in Hevs. lia. }
  subst pre. cbn [app] in Hevs. unfold ledger_write in Hevs.
  injection Hevs as _ Hjdoc _ _ Hs. subst j.
  destruct (Hstored (eq_sym Hs)) as [Hob Hresp].
  eexists _, _, j'. split; [exact E |]. split; [reflexivity |].
  split; [| split; [exact Hj' | exact Herr]].
  exact Hob.
Defined.

(** C5 at an engine that never leaves [InProgress]. *)
Lemma search_polling_is_bounded_witness :
  default ∅ (queryStringParameters Examples.search_request) !! "q" = Some "a red car"
  /\ "a red car" <> ""
  /\ start_async (bedrock Examples.fresh) = inr (Some "arn:job")
  /\ (forall i, (i < 25)%nat ->
        still_pending
          (async_oracle (bedrock Examples.fresh)
             (async_calls (bedrock Examples.fresh) + i)%nat))
  /\ exists w',
       handle_search Examples.search_request [] Examples.fresh
       = (Val (respond 408 [] (ErrorBody "Query embedding generation timed out")), w')
       /\ trace w' = StartAsyncInvoke "text" :: polls 25 (Some "arn:job")
       /\ opensearch w' = opensearch Examples.fresh
       /\ s3vectors w' = s3vectors Examples.fresh.
Proof.
  assert (Hq : default ∅ (queryStringParameters Examples.search_request) !! "q"
               = Some "a red car") by (vm_compute; reflexivity).
  assert (Hne : "a red car" <> "") by discriminate.
  assert (Hstart : start_async (bedrock Examples.fresh) = inr (Some "arn:job"))
    by reflexivity.
  assert (Hpending : forall i, (i < 25)%nat ->
            still_pending
              (async_oracle (bedrock Examples.fresh)
                 (async_calls (bedrock Examples.fresh) + i)%nat)).
  { intros i _. simpl. repeat split; discriminate. }
  split; [exact Hq |]. split; [exact Hne |]. split; [exact Hstart |].
  split; [exact Hpending |].
  destruct (search_polling_is_bounded Examples.search_request [] Examples.fresh)
    as (_ & _ & Htimeout).
  destruct (Htimeout "a red car" (Some "arn:job") Hq Hne Hstart Hpending)
    as (w' & E & Ht & _ & Hos & Hsv).
  exists w'. split; [exact E |]. split; [exact Ht |]. split; [exact Hos | exact Hsv].
Defined.

(** C6: on a fresh process neither side of the search carries a message. *)
Lemma absent_index_search_carries_no_message :
  os_index (opensearch Examples.fresh) = None
  /\ vector_buckets (s3vectors Examples.fresh) = ∅
  /\ fst (search_opensearch [1; 0]%Z 10 Examples.fresh)
     = Val {| so_results := []; so_total := 0; so_message := None; so_error := None |}
  /\ fst (search_s3_vectors [1; 0]%Z 10 Examples.fresh)
     = Val {| so_results := []; so_total := 0; so_message := None; so_error := None |}.
Proof. repeat split; vm_compute; reflexivity. Qed.

Lemma search_of_absent_index_is_empty_witness :
  opensearch_up Examples.fresh /\ os_index (opensearch Examples.fresh) = None
  /\ s3v_faults (s3vectors Examples.fresh) = []
  /\ S3_VECTOR_BUCKET (s3vectors Examples.fresh) = None
  /\ vector_bucket Examples.fresh = Some "video-s3vectors-123456789012-us-east-1"
  /\ lookup_index Examples.fresh "video-s3vectors-123456789012-us-east-1" S3_VECTOR_INDEX
     = None
  /\ s3v_faults (s3vectors Scenarios.index_removed) = []
  /\ S3_VECTOR_BUCKET (s3vectors Scenarios.index_removed)
     = Some "video-s3vectors-123456789012-us-east-1"
  /\ lookup_index Scenarios.index_removed "video-s3vectors-123456789012-us-east-1"
       S3_VECTOR_INDEX = None
  /\ (exists w',
        search_opensearch [1; 0]%Z 10 Examples.fresh
        = (Val {| so_results := []; so_total := 0; so_message := None; so_error := None |},
           w')
        /\ os_index (opensearch w')
           = Some {| ix_embedding_type := Some "knn_vector"; ix_docs := [] |})
  /\ (exists w',
        search_s3_vectors [1; 0]%Z 10 Examples.fresh
        = (Val {| so_results := []; so_total := 0; so_message := None; so_error := None |},
           w')
        /\ lookup_index w' "video-s3vectors-123456789012-us-east-1" S3_VECTOR_INDEX
           = Some ∅)
  /\ (exists w',
        try_except (search_s3_vectors [1; 0]%Z 10) (fun e => ret (failed_search e))
          Scenarios.index_removed
        = (Val {| so_results := []; so_total := 0; so_message := None;
                  so_error := Some (exn_str (s3v_not_found "QueryVectors")) |}, w')).
Proof.
  assert (Hos : opensearch_up Examples.fresh) by (split; reflexivity).
  assert (Hix : os_index (opensearch Examples.fresh) = None) by reflexivity.
  assert (Hname : "video-s3vectors-123456789012-us-east-1" <> "") by discriminate.
  split; [exact Hos |]. split; [exact Hix |]. do 7 (split; [reflexivity |]).
  destruct (search_of_absent_index_is_empty [1; 0]%Z 10 Examples.fresh)
    as (Hopensearch & Hfirst & _).
  destruct (search_of_absent_index_is_empty [1; 0]%Z 10 Scenarios.index_removed)
    as (_ & _ & Hcached & _).
  split; [| split].
  - destruct (Hopensearch Hos Hix) as (w' & E & Hcreated & _). exists w'. auto.
  - destruct (Hfirst eq_refl eq_refl "video-s3vectors-123456789012-us-east-1"
                eq_refl eq_refl)
      as (w' & E & _ & Hcreated & _).
    exists w'. auto.
  - destruct (Hcached eq_refl "video-s3vectors-123456789012-us-east-1" eq_refl eq_refl)
      as (e & w' & _ & E & He & _).
    rewrite (He Hname) in E. exists w'. exact E.
Defined.

(** C10: an empty [analysisJobId] sends the request to the engine. *)
Lemma empty_job_id_reaches_engine :
  default ∅ (queryStringParameters Examples.empty_job_id_request) !! "analysisJobId"
  = Some ""
  /\ GetAsyncInvoke (Some "arn:job")
     ∈ trace (snd (handle_status Examples.empty_job_id_request [] Examples.fresh)).
Proof.
  split; [vm_compute; reflexivity |].
  vm_compute. apply elem_of_cons. left. reflexivity.
Qed.

Lemma handle_status_routes_on_job_id_witness :
  default ∅ (queryStringParameters Examples.job_status_request) !! "analysisJobId"
  = Some "analysis_1700000000_0a1b2c3d"
  /\ "analysis_1700000000_0a1b2c3d" <> ""
  /\ exists resp w' evs,
       handle_status Examples.job_status_request [] Examples.fresh = (Val resp, w')
       /\ trace w' = evs
       /\ statusCode resp = 404%Z
       /\ (forall invocationArn, GetAsyncInvoke invocationArn ∉ evs).
Proof.
  assert (Hid : default ∅ (queryStringParameters Examples.job_status_request)
                  !! "analysisJobId" = Some "analysis_1700000000_0a1b2c3d")
    by (vm_compute; reflexivity).
  assert (Hne : "analysis_1700000000_0a1b2c3d" <> "") by discriminate.
  split; [exact Hid |]. split; [exact Hne |].
  destruct (handle_status_routes_on_job_id Examples.job_status_request [] Examples.fresh)
    as (Hjob & _).
  destruct (Hjob "analysis_1700000000_0a1b2c3d" Hid Hne)
    as (_ & resp & w' & evs & E & Ht & _ & Hnone & _).
  exists resp, w', evs. split; [exact E |]. split; [exact Ht |].
  split; [| exact Hnone].
  assert (E' := E). vm_compute in E'. now injection E' as <- _.
Defined.

(** C7: the value under [score] does not tell its scale.  In the
    comparison for [clip1] the first entry of the OpenSearch side and the
    last entry of the S3 Vectors side both carry 1, the best match on one
    side and the worst on the other, and the other ends both carry 0. *)
Lemma score_does_not_tell_its_scale :
  match fst (handle_search Examples.search_request [] Examples.searchable) with
  | Val r =>
      match body r with
      | Comparison a b _ _ =>
          (res_score <$> head (so_results a), res_score <$> last (so_results a),
           res_score <$> head (so_results b), res_score <$> last (so_results b))
          = (Some 1%Z, Some 0%Z, Some 0%Z, Some 1%Z)
      | _ => False
      end
  | _ => False
  end.
Proof. vm_compute. reflexivity. Qed.

(** C7 at the indexed [clip1]. *)
Lemma search_reports_raw_rankings_per_backend_witness :
  exists resp w' opensearch_side s3vectors_side query message,
    handle_search Examples.search_request [] Examples.searchable = (Val resp, w')
    /\ body resp = Comparison opensearch_side s3vectors_side query message
    /\ length (so_results opensearch_side) = 3%nat
    /\ length (so_results s3vectors_side) = 3%nat
    /\ exists query_embedding w2,
         scores_stored_documents query_embedding w2 opensearch_side
         /\ scores_stored_vectors query_embedding w' s3vectors_side.
Proof.
  destruct (handle_search Examples.search_request [] Examples.searchable)
    as [r w'] eqn:E.
  assert (E' := E). vm_compute in E'.
  match type of E' with
  | (Val {| statusCode := _; headers := _; body := Comparison ?a ?b ?q ?m |}, _) = _ =>
      assert (Hbody : exists resp, r = Val resp /\ body resp = Comparison a b q m)
        by (injection E' as <- _; eexists; split; reflexivity);
      destruct Hbody as (resp & -> & Hbody);
      exists resp, w', a, b, q, m
  end.
  split; [reflexivity |]. split; [exact Hbody |].
  split; [reflexivity |]. split; [reflexivity |].
  destruct (search_reports_raw_rankings_per_backend
              Examples.search_request [] Examples.searchable resp w' _ _ _ _ E Hbody)
    as (arn & query_embedding & waited & w0 & w1 & w2 & _ & _ & _ & _ & _ & Hos & Hsv).
  exists query_embedding, w2. split; [exact Hos | exact Hsv].
Defined.

(** * Further properties of the backend *)

(** ** Strings: paths and object references *)

Local Arguments append : simpl nomatch.

Lemma append_nil_r (s : string) : s +:+ "" = s.
Proof. induction s as [|a s IH]; simpl; [reflexivity | now rewrite IH]. Qed.

Lemma append_assoc (a b c : string) : (a +:+ b) +:+ c = a +:+ (b +:+ c).
Proof. induction a as [|x a IH]; simpl; [reflexivity | now rewrite IH]. Qed.

Lemma has_char_app (c : ascii) (a b : string) :
  Py.has_char c (a +:+ b) = Py.has_char c a || Py.has_char c b.
Proof.
  induction a as [|x a IH]; simpl; [reflexivity |].
  now rewrite IH, orb_assoc.
Qed.

(** Splitting at a separator: a separator-free field is cut off whole. *)
Lemma split_go_field (c : ascii) (a rest cur : string) :
  Py.has_char c a = false ->
  Py.split_go c (a +:+ String c rest) cur = (cur +:+ a) :: Py.split_go c rest "".
Proof.
  revert cur. induction a as [|x a IH]; intros cur Ha; simpl in *.
  - now rewrite Ascii.eqb_refl, append_nil_r.
  - apply orb_false_elim in Ha as [Hx Ha]. rewrite Hx, (IH _ Ha), append_assoc.
    reflexivity.
Qed.

Lemma split_go_whole (c : ascii) (a cur : string) :
  Py.has_char c a = false -> Py.split_go c a cur = [cur +:+ a].
Proof.
  revert cur. induction a as [|x a IH]; intros cur Ha; simpl in *.
  - now rewrite append_nil_r.
  - apply orb_false_elim in Ha as [Hx Ha]. rewrite Hx, (IH _ Ha), append_assoc.
    reflexivity.
Qed.

Lemma split_go_cons (c : ascii) (s cur : string) :
  exists x l, Py.split_go c s cur = x :: l.
Proof.
  revert cur. induction s as [|a s IH]; intros cur; simpl; [eauto |].
  destruct (Ascii.eqb a c); eauto.
Qed.

(** The last field of a split starts after the last separator. *)
Lemma last_split_go (c : ascii) (s t cur : string) :
  Py.last (Py.split_go c (s +:+ String c t) cur) = Py.last (Py.split_go c t "").
Proof.
  revert cur. induction s as [|a s IH]; intros cur; simpl.
  - rewrite Ascii.eqb_refl. destruct (split_go_cons c t "") as (x & l & ->).
    reflexivity.
  - destruct (Ascii.eqb a c); [| apply IH].
    unfold Py.last in *. specialize (IH "").
    destruct (split_go_cons c (s +:+ String c t) "") as (x & l & E).
    rewrite E in *. exact IH.
Qed.

Lemma join_cons (sep a b : string) (l : list string) :
  Py.join sep (a :: b :: l) = a +:+ sep +:+ Py.join sep (b :: l).
Proof. reflexivity. Qed.

(** [sep.join(s.split(sep))] gives [s] back. *)
Lemma join_split_go (c : ascii) (s cur : string) :
  Py.join (String c "") (Py.split_go c s cur) = cur +:+ s.
Proof.
  revert cur. induction s as [|a s IH]; intros cur; simpl.
  - now rewrite append_nil_r.
  - destruct (Ascii.eqb_spec a c) as [-> | Hne].
    + specialize (IH ""). destruct (split_go_cons c s "") as (x & l & E).
      rewrite E in *. rewrite join_cons, IH. reflexivity.
    + rewrite IH, append_assoc. reflexivity.
Qed.

Lemma rsplit1_head_stem (c : ascii) (a b : string) :
  Py.has_char c b = false -> Py.rsplit1_head (a +:+ String c b) c = a.
Proof.
  intros Hb. induction a as [|x a IH]; simpl.
  - now rewrite Hb, Ascii.eqb_refl.
  - rewrite has_char_app. simpl. rewrite Ascii.eqb_refl, orb_true_r, IH. reflexivity.
Qed.

(** Replacing never introduces a character that neither the string nor
    the replacement holds. *)
Lemma replace_go_absent (x : ascii) (old new s : string) :
  Py.has_char x s = false -> Py.has_char x new = false ->
  forall skip, Py.has_char x (Py.replace_go old new s skip) = false.
Proof.
  intros Hs Hn. induction s as [|a s IH]; intros skip; [reflexivity |].
  cbn [Py.has_char] in Hs. apply orb_false_elim in Hs as [Ha Hs].
  cbn [Py.replace_go].
  destruct skip as [|k]; [| now apply IH].
  destruct (Py.startswith (String a s) old).
  - rewrite has_char_app, Hn. now apply IH.
  - cbn [Py.has_char]. rewrite Ha. now apply IH.
Qed.

Lemma startswith_nil (s : string) : Py.startswith s "" = true.
Proof. now destruct s. Qed.

Lemma startswith_char (o a : ascii) (s : string) :
  Py.startswith (String a s) (String o "") = Ascii.eqb a o.
Proof.
  simpl. rewrite (eqb_sym o a), startswith_nil. now destruct (Ascii.eqb a o).
Qed.

(** Replacing a character that does not occur changes nothing. *)
Lemma replace_char_absent (o : ascii) (new s : string) :
  Py.has_char o s = false -> Py.replace s (String o "") new = s.
Proof.
  unfold Py.replace. induction s as [|a s IH]; intros Hs; [reflexivity |].
  cbn [Py.has_char] in Hs. apply orb_false_elim in Hs as [Ha Hs].
  cbn [Py.replace_go]. rewrite startswith_char, Ha, (IH Hs). reflexivity.
Qed.

(** Replacing a character removes every occurrence of it. *)
Lemma replace_char_removes (o : ascii) (new s : string) :
  Py.has_char o new = false -> Py.has_char o (Py.replace s (String o "") new) = false.
Proof.
  intros Hn. unfold Py.replace. induction s as [|a s IH]; [reflexivity |].
  cbn [Py.replace_go]. rewrite startswith_char. cbn [String.length Nat.sub].
  destruct (Ascii.eqb a o) eqn:Ea.
  - now rewrite has_char_app, Hn, IH.
  - cbn [Py.has_char]. now rewrite Ea, IH.
Qed.

(** ** The embedding folder and the video it names *)

(** X1.  Whatever video id a client sends, the folder name that
    [handle_embed] derives from it holds neither a slash nor a space. *)
Theorem safe_video_id_is_filesystem_safe (video_id : string) :
  Py.has_char "/" (safe_video_id video_id) = false
  /\ Py.has_char " " (safe_video_id video_id) = false.
Proof.
  unfold safe_video_id. split.
  - apply replace_go_absent; [| reflexivity]. now apply replace_char_removes.
  - now apply replace_char_removes.
Qed.

(** The folder name of a file name [stem.ext], alone or behind a
    directory prefix. *)
Lemma safe_video_id_of_file (prefix stem ext : string) :
  prefix = "" \/ (exists dir, prefix = dir +:+ "/") ->
  Py.has_char "/" stem = false -> Py.has_char " " stem = false ->
  Py.has_char "/" ext = false -> Py.has_char "." ext = false ->
  safe_video_id (prefix +:+ stem +:+ "." +:+ ext) = stem.
Proof.
  intros Hp Hs1 Hs2 He1 He2.
  change (safe_video_id (prefix +:+ stem +:+ String "." ext) = stem).
  set (name := stem +:+ String "." ext).
  assert (Hname : Py.has_char "/" name = false).
  { unfold name. rewrite has_char_app, Hs1. simpl. now rewrite He1. }
  assert (Hdot : Py.has_char "." name = true).
  { unfold name. rewrite has_char_app. simpl. now rewrite orb_true_r. }
  assert (Hclean : (if Py.has_char "/" (prefix +:+ name)
                    then default "" (Py.last (Py.split (prefix +:+ name) "/"))
                    else prefix +:+ name)
                   = name).
  { destruct Hp as [-> | [dir ->]].
    - change ("" +:+ name) with name. now rewrite Hname.
    - rewrite append_assoc. change ("/" +:+ name) with (String "/" name).
      rewrite has_char_app. cbn [Py.has_char]. rewrite Ascii.eqb_refl, orb_true_r.
      unfold Py.split. rewrite last_split_go, (split_go_whole _ _ _ Hname).
      reflexivity. }
  unfold safe_video_id. rewrite Hclean, Hdot. unfold name.
  rewrite (rsplit1_head_stem "." stem ext He2).
  rewrite (replace_char_absent "/" "_" stem Hs1).
  now rewrite (replace_char_absent " " "_" stem Hs2).
Qed.

(** X2.  For a video id that is a file name [stem.ext], alone or behind a
    directory prefix, the derived folder name is the stem: the prefix and
    the extension are dropped and nothing else is changed, provided the stem
    holds no slash and no space, and the extension no slash and no dot. *)
Theorem safe_video_id_is_the_stem (prefix stem ext : string) :
  prefix = "" \/ (exists dir, prefix = dir +:+ "/") ->
  Py.has_char "/" stem = false -> Py.has_char " " stem = false ->
  Py.has_char "/" ext = false -> Py.has_char "." ext = false ->
  safe_video_id (prefix +:+ stem +:+ "." +:+ ext) = stem.
Proof.
  intros Hprefix Hstem_slash Hstem_space Hext_slash Hext_dot.
  apply safe_video_id_of_file; assumption.
Qed.

Lemma contains_cons (a : ascii) (s p : string) :
  Py.contains (String a s) p = Py.startswith (String a s) p || Py.contains s p.
Proof. reflexivity. Qed.

(** Replacing a substring that does not occur changes nothing. *)
Lemma replace_go_untouched (old new s : string) :
  Py.contains s old = false -> Py.replace_go old new s 0 = s.
Proof.
  induction s as [|a s IH]; intros Hs; [reflexivity |].
  rewrite contains_cons in Hs. apply orb_false_elim in Hs as [Hhere Hs].
  cbn [Py.replace_go]. now rewrite Hhere, (IH Hs).
Qed.

Lemma replace_scheme_prefix (r : string) :
  Py.replace ("s3://" +:+ r) "s3://" "" = Py.replace_go "s3://" "" r 0.
Proof. unfold Py.replace. simpl. now rewrite startswith_nil. Qed.

(** A slash-free field followed by a single slash does not start with the
    scheme. *)
Lemma field_is_not_scheme (b r : string) :
  Py.has_char "/" b = false -> Py.startswith r "/" = false ->
  Py.startswith (b +:+ String "/" r) "s3://" = false.
Proof.
  intros Hb Hr.
  destruct b as [|b1 [|b2 [|b3 [|b4 b]]]]; cbn [Py.startswith append Py.has_char] in *.
  - reflexivity.
  - now destruct (Ascii.eqb "s" b1).
  - destruct (Ascii.eqb "s" b1); [| reflexivity]. now destruct (Ascii.eqb "3" b2).
  - destruct (Ascii.eqb "s" b1); [| reflexivity].
    destruct (Ascii.eqb "3" b2); [| reflexivity].
    destruct (Ascii.eqb ":" b3); [| reflexivity].
    rewrite Ascii.eqb_refl. exact Hr.
  - destruct (Ascii.eqb "s" b1); [| reflexivity].
    destruct (Ascii.eqb "3" b2); [| reflexivity].
    destruct (Ascii.eqb ":" b3); [| reflexivity].
    rewrite (eqb_sym "/" b4).
    apply orb_false_elim in Hb as [_ Hb]. apply orb_false_elim in Hb as [_ Hb].
    apply orb_false_elim in Hb as [_ Hb]. apply orb_false_elim in Hb as [Hb _].
    now rewrite Hb.
Qed.

Lemma replace_scheme_field (b r : string) :
  Py.has_char "/" b = false -> Py.startswith r "/" = false ->
  Py.replace_go "s3://" "" (b +:+ String "/" r) 0
  = b +:+ String "/" (Py.replace_go "s3://" "" r 0).
Proof.
  intros Hb Hr. induction b as [|a b IH].
  - reflexivity.
  - assert (Hb' : Py.has_char "/" b = false).
    { cbn [Py.has_char] in Hb. now apply orb_false_elim in Hb as [_ Hb]. }
    change (String a b +:+ String "/" r) with (String a (b +:+ String "/" r)).
    cbn [Py.replace_go].
    change (String a (b +:+ String "/" r)) with (String a b +:+ String "/" r).
    rewrite (field_is_not_scheme (String a b) r Hb Hr), (IH Hb'). reflexivity.
Qed.

Lemma replace_scheme_embeddings (r : string) :
  Py.replace_go "s3://" "" ("embeddings/" +:+ r) 0
  = "embeddings/" +:+ Py.replace_go "s3://" "" r 0.
Proof. reflexivity. Qed.

Lemma contains_app (a s p : string) :
  Py.contains s p = true -> Py.contains (a +:+ s) p = true.
Proof.
  intros Hs. induction a as [|x a IH]; [exact Hs |].
  change (String x a +:+ s) with (String x (a +:+ s)).
  rewrite contains_cons, IH. apply orb_true_r.
Qed.

Lemma startswith_app (p s : string) : Py.startswith (p +:+ s) p = true.
Proof.
  induction p as [|x p IH]; [apply startswith_nil |].
  simpl. now rewrite Ascii.eqb_refl.
Qed.

Lemma contains_here (p s : string) : Py.contains (p +:+ s) p = true.
Proof.
  destruct p as [|x p]; [now destruct s |].
  change (String x p +:+ s) with (String x (p +:+ s)).
  rewrite contains_cons.
  change (String x (p +:+ s)) with (String x p +:+ s).
  now rewrite startswith_app.
Qed.

Section Paths.

Context {num : Type} `{PyNum num}.

(** The path components of an output location below [embeddings/]. *)
Lemma embeddings_path_parts (b f tail : string) :
  Py.has_char "/" b = false -> Py.has_char "/" f = false ->
  Py.startswith tail "/" = false -> Py.contains tail "s3://" = false ->
  Py.split (Py.replace ("s3://" +:+ b +:+ "/embeddings/" +:+ f +:+ "/" +:+ tail) "s3://" "") "/"
  = b :: "embeddings" :: f :: Py.split tail "/".
Proof.
  intros Hb Hf Ht1 Ht2.
  rewrite replace_scheme_prefix.
  change ("/embeddings/" +:+ f +:+ "/" +:+ tail)
    with (String "/" ("embeddings/" +:+ f +:+ String "/" tail)).
  rewrite (replace_scheme_field b _ Hb) by reflexivity.
  rewrite replace_scheme_embeddings.
  rewrite (replace_scheme_field f _ Hf Ht1), (replace_go_untouched _ _ _ Ht2).
  unfold Py.split.
  change ("embeddings/" +:+ f +:+ String "/" tail)
    with ("embeddings" +:+ String "/" (f +:+ String "/" tail)).
  rewrite (split_go_field "/" b _ "" Hb), (split_go_field "/" "embeddings" _ "" eq_refl),
    (split_go_field "/" f _ "" Hf).
  reflexivity.
Qed.

(** The metadata extracted from an output location under
    [embeddings/]. *)
Lemma extract_video_metadata_of_folder
    (bedrock_response : @BedrockResponse) (bucket folder tail : string) :
  default "" (br_modelInput_uri bedrock_response) = "" ->
  br_output_s3Uri bedrock_response
  = Some ("s3://" +:+ bucket +:+ "/embeddings/" +:+ folder +:+ "/" +:+ tail) ->
  Py.has_char "/" bucket = false -> bucket <> "embeddings" ->
  Py.has_char "/" folder = false ->
  Py.startswith tail "/" = false -> Py.contains tail "s3://" = false ->
  extract_video_metadata bedrock_response
  = (folder, "s3://" +:+ bucket +:+ "/videos/" +:+ folder +:+ ".mp4").
Proof.
  intros Hin Hout Hb Hne Hf Ht1 Ht2.
  unfold extract_video_metadata. rewrite Hin, Hout.
  cbn [Py.truthy default from_option id].
  rewrite (embeddings_path_parts bucket folder tail Hb Hf Ht1 Ht2).
  assert (Hc : Py.contains ("s3://" +:+ bucket +:+ "/embeddings/" +:+ folder +:+ "/" +:+ tail)
                 "/embeddings/" = true).
  { rewrite <- (append_assoc "s3://" bucket). apply contains_app, contains_here. }
  rewrite Hc.
  assert (Hi : Py.index (bucket :: "embeddings" :: folder :: Py.split tail "/") "embeddings"
               = Some 1%nat).
  { cbn [Py.index]. apply String.eqb_neq in Hne. now rewrite Hne. }
  simpl andb. cbv iota. rewrite Hi. cbn [lookup list_lookup Nat.add default from_option id].
  destruct (String.eqb_spec folder "unknown") as [-> | Hunk].
  - simpl. rewrite startswith_nil.
    match goal with
    | |- context [Py.split ?u "/"] =>
        replace u with (("s3://" +:+ bucket +:+ "/videos") +:+ String "/" "unknown.mp4")
          by (now rewrite !append_assoc)
    end.
    unfold Py.split. rewrite last_split_go. reflexivity.
  - reflexivity.
Qed.

(** X3.  When the response of a completed job carries no input URI and
    its output location is [s3://bucket/embeddings/folder/] (possibly
    followed by a relative path), the extracted video id is the folder name
    and the extracted video URI is [s3://bucket/videos/folder.mp4]. *)
Theorem extract_video_metadata_recovers_folder
    (bedrock_response : @BedrockResponse) (bucket folder tail : string) :
  default "" (br_modelInput_uri bedrock_response) = "" ->
  br_output_s3Uri bedrock_response
  = Some ("s3://" +:+ bucket +:+ "/embeddings/" +:+ folder +:+ "/" +:+ tail) ->
  Py.has_char "/" bucket = false -> bucket <> "embeddings" ->
  Py.has_char "/" folder = false ->
  Py.startswith tail "/" = false -> Py.contains tail "s3://" = false ->
  extract_video_metadata bedrock_response
  = (folder, "s3://" +:+ bucket +:+ "/videos/" +:+ folder +:+ ".mp4").
Proof.
  intros Hinput Houtput Hbucket Hne Hfolder Htail_slash Htail_scheme.
  apply extract_video_metadata_of_folder with (tail := tail); assumption.
Qed.

Lemma startswith_app_l (s t p : string) :
  Py.startswith s p = true -> Py.startswith (s +:+ t) p = true.
Proof.
  revert s. induction p as [|x p IH]; intros s Hs; [apply startswith_nil |].
  destruct s as [|a s]; [discriminate Hs |].
  simpl in *. destruct (Ascii.eqb x a); [now apply IH | discriminate Hs].
Qed.

(** X4.  When the response carries the input URI [base/stem.ext] with an
    [s3://] base, that URI is returned unchanged and the video id is the
    stem; the output location is not consulted. *)
Theorem extract_video_metadata_prefers_model_input
    (bedrock_response : @BedrockResponse) (base stem ext : string) :
  br_modelInput_uri bedrock_response = Some (base +:+ "/" +:+ stem +:+ "." +:+ ext) ->
  Py.startswith base "s3://" = true ->
  Py.has_char "/" stem = false ->
  Py.has_char "/" ext = false -> Py.has_char "." ext = false ->
  extract_video_metadata bedrock_response
  = (stem, base +:+ "/" +:+ stem +:+ "." +:+ ext).
Proof.
  intros Hin Hbase Hs He1 He2.
  unfold extract_video_metadata. rewrite Hin. cbn [default from_option id].
  change (base +:+ "/" +:+ stem +:+ "." +:+ ext)
    with (base +:+ String "/" (stem +:+ String "." ext)).
  set (name := stem +:+ String "." ext).
  assert (Hname : Py.has_char "/" name = false).
  { unfold name. rewrite has_char_app, Hs. simpl. now rewrite He1. }
  assert (Hdot : Py.has_char "." name = true).
  { unfold name. rewrite has_char_app. simpl. now rewrite orb_true_r. }
  assert (Ht : Py.truthy (Some (base +:+ String "/" name)) = true).
  { destruct base; [discriminate Hbase | reflexivity]. }
  rewrite !Ht, (startswith_app_l _ _ _ Hbase).
  change (String.eqb "unknown" "unknown") with true. cbn [andb].
  unfold Py.split. rewrite last_split_go, (split_go_whole _ _ _ Hname).
  cbn [Py.last fmap list_fmap List.last default from_option id append].
  rewrite Hdot. unfold name. now rewrite (rsplit1_head_stem "." stem ext He2).
Qed.

(** X5.  What materialization recovers is the folder of the submission,
    for every video id.  When the response of a completed job carries no
    input URI and its output location is the one that [handle_embed] builds
    for a video id, [s3://bucket/embeddings/folder/] (possibly followed by a
    relative path that neither starts with a slash nor holds [s3://]), with
    a bucket that holds no slash and is not named [embeddings],
    [extract_video_metadata] returns the folder name as video id and
    [s3://bucket/videos/folder.mp4] as the video's URI.  The folder is the
    derived name, not the id that was sent: it is the stem of a file name
    [stem.ext], alone or behind a directory prefix, only when the stem holds
    no slash and no space and the extension no slash and no dot. *)
Theorem embedding_folder_is_what_materialization_recovers
    (bedrock_response : @BedrockResponse) (video_bucket video_id tail : string) :
  Py.has_char "/" video_bucket = false -> video_bucket <> "embeddings" ->
  Py.startswith tail "/" = false -> Py.contains tail "s3://" = false ->
  default "" (br_modelInput_uri bedrock_response) = "" ->
  br_output_s3Uri bedrock_response
  = Some (embedding_output_uri video_bucket (safe_video_id video_id) +:+ tail) ->
  extract_video_metadata bedrock_response
  = (safe_video_id video_id,
     "s3://" +:+ video_bucket +:+ "/videos/" +:+ safe_video_id video_id +:+ ".mp4")
  /\ forall prefix stem ext,
       video_id = prefix +:+ stem +:+ "." +:+ ext ->
       prefix = "" \/ (exists dir, prefix = dir +:+ "/") ->
       Py.has_char "/" stem = false -> Py.has_char " " stem = false ->
       Py.has_char "/" ext = false -> Py.has_char "." ext = false ->
       extract_video_metadata bedrock_response
       = (stem, "s3://" +:+ video_bucket +:+ "/videos/" +:+ stem +:+ ".mp4").
Proof.
  intros Hb Hne Ht1 Ht2 Hin Hout.
  assert (Hfolder : Py.has_char "/" (safe_video_id video_id) = false).
  { unfold safe_video_id. apply replace_go_absent; [| reflexivity].
    now apply replace_char_removes. }
  assert (Hrecovered :
            extract_video_metadata bedrock_response
            = (safe_video_id video_id,
               "s3://" +:+ video_bucket +:+ "/videos/" +:+ safe_video_id video_id
                 +:+ ".mp4")).
  { apply (extract_video_metadata_of_folder bedrock_response video_bucket
             (safe_video_id video_id) tail); auto.
    rewrite Hout. unfold embedding_output_uri. now rewrite !append_assoc. }
  split; [exact Hrecovered |].
  intros prefix stem ext -> Hp Hs1 Hs2 He1 He2.
  now rewrite (safe_video_id_of_file prefix stem ext Hp Hs1 Hs2 He1 He2) in Hrecovered.
Qed.

(** X6.  The result of a completed job whose output location is
    [s3://bucket/path] is read from that bucket under the key
    [path/output.json]; a path that ends in a slash gives a key with a
    double slash. *)
Theorem output_location_of_uri (bucket path : string) :
  Py.has_char "/" bucket = false ->
  Py.contains (bucket +:+ "/" +:+ path) "s3://" = false ->
  output_location ("s3://" +:+ bucket +:+ "/" +:+ path)
  = (bucket, path +:+ "/output.json").
Proof.
  intros Hb Hc. unfold output_location.
  rewrite replace_scheme_prefix, (replace_go_untouched _ _ _ Hc).
  unfold Py.split. change ("/" +:+ path) with (String "/" path).
  rewrite (split_go_field "/" bucket path "" Hb).
  cbn [lookup list_lookup default from_option id tail append].
  now rewrite join_split_go.
Qed.

End Paths.

(** ** The pace of the waiter *)

Lemma backoff_at_most_five (wt : Q) : (Qmin (wt * (3 # 2)) 5 <= 5)%Q.
Proof. apply Q.le_min_r. Qed.

Section WaiterPace.

Context {num : Type} `{PyNum num}.

Lemma wait_loop_paced (fuel : nat) :
  forall b k max (wt tw : Q) (o : @OpenSearchSvc num) (sv : @S3VectorsSvc num)
         ob fl ho hc bd en tr,
    (1 <= wt)%Q -> (wt <= 5)%Q -> (inject_Z max - tw <= inject_Z (Z.of_nat fuel))%Q ->
    (tw < inject_Z max + 5)%Q ->
    exists answer hc' evs,
      wait_loop fuel b k max wt tw
        {| opensearch := o; s3vectors := sv;
           s3 := {| objects := ob; s3_faults := fl; head_oracle := ho; head_calls := hc |};
           bedrock := bd; env := en; trace := tr |}
      = (Val answer,
         {| opensearch := o; s3vectors := sv;
            s3 := {| objects := ob; s3_faults := fl; head_oracle := ho; head_calls := hc' |};
            bedrock := bd; env := en; trace := tr ++ evs |})
      /\ Forall paced evs
      /\ (tw + total_slept evs < inject_Z max + 5)%Q
      /\ (always_absent ho -> answer = false /\ (inject_Z max <= tw + total_slept evs)%Q).
Proof.
  induction fuel as [|fuel IH];
    intros b k max wt tw o sv ob fl ho hc bd en tr Hwt1 Hwt5 Hfuel Htw.
  - simpl. destruct (Qltb tw (inject_Z max)) eqn:Hlt.
    + apply Qltb_true in Hlt. change (inject_Z (Z.of_nat 0)) with 0%Q in Hfuel.
      exfalso. lra.
    + apply Qltb_false in Hlt. exists false, hc, []. rewrite app_nil_r. simpl.
      split; [reflexivity |]. split; [constructor |]. split; [lra |].
      intros _. split; [reflexivity | lra].
  - simpl. destruct (Qltb tw (inject_Z max)) eqn:Hlt.
    2:{ apply Qltb_false in Hlt. exists false, hc, []. rewrite app_nil_r. simpl.
        split; [reflexivity |]. split; [constructor |]. split; [lra |].
        intros _. split; [reflexivity | lra]. }
    apply Qltb_true in Hlt. unfold head_object. run.
    assert (Hstop : forall answer,
              (forall e, ho hc = Some e -> is_no_such_key e = false) ->
              exists answer' hc' evs,
                (Val answer,
                 {| opensearch := o; s3vectors := sv;
                    s3 := {| objects := ob; s3_faults := fl; head_oracle := ho;
                             head_calls := S hc |};
                    bedrock := bd; env := en; trace := tr ++ [HeadObject b k] |})
                = (Val answer',
                   {| opensearch := o; s3vectors := sv;
                      s3 := {| objects := ob; s3_faults := fl; head_oracle := ho;
                               head_calls := hc' |};
                      bedrock := bd; env := en; trace := tr ++ evs |})
                /\ Forall paced evs
                /\ (tw + total_slept evs < inject_Z max + 5)%Q
                /\ (always_absent ho ->
                    answer' = false /\ (inject_Z max <= tw + total_slept evs)%Q)).
    { intros answer Hother. exists answer, (S hc), [HeadObject b k]. simpl.
      split; [reflexivity |]. split; [repeat constructor |]. split; [lra |].
      intros Habs. destruct (Habs hc) as (e & He & Hk).
      rewrite (Hother e He) in Hk. discriminate Hk. }
    destruct (ho hc) as [e|] eqn:Eho; run.
    2:{ apply Hstop. intros e He. discriminate He. }
    destruct e as [code msg op| |]; run;
      try (apply Hstop; intros e' [= <-]; reflexivity).
    destruct (String.eqb code "NoSuchKey") eqn:Ecode; run.
    2:{ apply Hstop. intros e' [= <-]. simpl. exact Ecode. }
    edestruct (IH b k max (Qmin (wt * (3 # 2)) 5)%Q (tw + wt)%Q o sv ob fl ho (S hc) bd en
                 ((tr ++ [HeadObject b k]) ++ [Sleep wt]))
      as (answer & hc' & evs & E & Hevs & Hsum & Habs).
    { now apply backoff_at_least_one. }
    { apply backoff_at_most_five. }
    { rewrite fuel_step in Hfuel. lra. }
    { lra. }
    rewrite E. exists answer, hc', ([HeadObject b k; Sleep wt] ++ evs).
    split; [now rewrite <- !app_assoc |].
    split; [repeat constructor; auto |].
    simpl. split; [lra |].
    intros Ha. destruct (Habs Ha) as [-> Hge]. split; [reflexivity | lra].
Qed.

(** X7.  For a non-negative maximum, every pause of the waiter lasts
    between one and five seconds and the pauses add up to less than the
    maximum plus five seconds.  If the reference is well formed and the
    object never appears, the answer is [False] and the waiter has then
    slept for at least the maximum. *)
Theorem wait_for_s3_object_is_paced
    (s3_uri : string) (max_wait_seconds : Z) (w : @World num) :
  (0 <= max_wait_seconds)%Z ->
  exists answer w' evs,
    wait_for_s3_object s3_uri max_wait_seconds w = (Val answer, w')
    /\ trace w' = trace w ++ evs
    /\ Forall paced evs
    /\ (total_slept evs < inject_Z max_wait_seconds + 5)%Q
    /\ (Py.startswith s3_uri "s3://" = true ->
        length (Py.split1 (Py.drop 5 s3_uri) "/") = 2%nat ->
        always_absent (head_oracle (s3 w)) ->
        answer = false /\ (inject_Z max_wait_seconds <= total_slept evs)%Q).
Proof.
  intros Hmax.
  assert (Hq : (0 <= inject_Z max_wait_seconds)%Q).
  { change 0%Q with (inject_Z 0). now rewrite <- Zle_Qle. }
  destruct w as [o sv [ob fl ho hc] bd en tr]. cbn [trace s3 head_oracle].
  unfold wait_for_s3_object.
  destruct (Py.startswith s3_uri "s3://") eqn:Hs; cbn [negb].
  2:{ eexists false, _, []. split; [reflexivity |]. cbn [trace]. rewrite app_nil_r. simpl.
      split; [reflexivity |]. split; [constructor |].
      split; [lra | discriminate]. }
  destruct (Py.split1 (Py.drop 5 s3_uri) "/") as [|b [|k [|x rest]]] eqn:Hp;
    try (eexists false, _, []; split; [reflexivity |]; cbn [trace];
         rewrite app_nil_r; simpl;
         split; [reflexivity |]; split; [constructor |];
         split; [lra | intros _ Hlen; discriminate Hlen]).
  edestruct (wait_loop_paced (Z.to_nat max_wait_seconds) b k max_wait_seconds 1 0
               o sv ob fl ho hc bd en tr)
    as (answer & hc' & evs & E & Hevs & Hsum & Habs); try lra.
  { rewrite Z2Nat.id by exact Hmax. lra. }
  eexists answer, _, evs. split; [exact E |]. split; [reflexivity |].
  split; [exact Hevs |]. split; [lra |].
  intros _ _ Ha. destruct (Habs Ha) as [-> Hge]. split; [reflexivity | lra].
Qed.

End WaiterPace.

(** ** The ledger, read back *)

Section LedgerRoundTrip.

Context {num : Type} `{PyNum num}.

(** X8.  When a submission is accepted (202) and the blob store answers
    the next read, a status request for the job id of the response is
    answered 200 with status [InProgress], that job id, the video id of the
    response and the submission time, and the ledger is left as it was. *)
Theorem accepted_job_is_reported_in_progress
    (event : ApiEvent) (cors_headers : list (string * string)) (context : LambdaContext)
    (w : @World num) (resp : Response) (w' : @World num) :
  handle_analyze event cors_headers context w = (Val resp, w') ->
  statusCode resp = 202%Z ->
  fst (next_fault (s3_faults (s3 w'))) = None ->
  exists analysis_job_id message video_id,
    body resp = AnalyzeAccepted analysis_job_id "processing" message video_id
    /\ forall (status_event : ApiEvent) (cors : list (string * string)),
         default ∅ (queryStringParameters status_event) !! "analysisJobId"
         = Some analysis_job_id ->
         exists w'',
           handle_status status_event cors w'
           = (Val (respond 200 cors
                     (AnalysisPending "InProgress" analysis_job_id "Analysis is inprogress"
                        video_id (time_str (env w)))), w'')
           /\ objects (s3 w'') = objects (s3 w').
Proof.
  destruct w as [o sv [ob fl ho hc] bd en tr]. cbn [env].
  unfold handle_analyze. run.
  destruct (ev_body event) as [msg | body]; run.
  { intros [= <- <-] Hcode. discriminate Hcode. }
  destruct (Py.truthy (body !! "s3Uri")) eqn:Huri; run.
  2:{ intros [= <- <-] Hcode. discriminate Hcode. }
  destruct (wait_for_s3_object_returns (default "" (body !! "s3Uri")) 30 o sv ob fl ho hc bd en tr)
    as (answer & hc' & pre & E & _ & _).
  rewrite E. clear E. destruct answer; run.
  2:{ intros [= <- <-] Hcode. discriminate Hcode. }
  unfold put_object, lambda_invoke. run.
  destruct fl as [|[e|] fl]; run;
    [destruct (lambda_fault en) as [e|] eqn:Hl; run
    | | destruct (lambda_fault en) as [e|] eqn:Hl; run;
        [destruct fl as [|[e2|] fl]; run |]];
    intros [= <- <-] Hcode; try discriminate Hcode;
    try (destruct e2; discriminate Hcode);
    cbn [s3 s3_faults objects]; intros Hrest;
    (eexists _, _, _; split; [reflexivity |]);
    intros status_event cors Hid;
    unfold handle_status; rewrite Hid;
    cbn [append Py.truthy default from_option id];
    unfold handle_analysis_status, get_object; run.
  - rewrite lookup_insert_eq. run. cbn [loads_job_info status]. run.
    eexists. split; [reflexivity |]. reflexivity.
  - destruct fl as [|[e|] fl]; [| discriminate Hrest |]; run;
      rewrite lookup_insert_eq; run; cbn [loads_job_info status]; run;
      (eexists; split; [reflexivity |]; reflexivity).
Qed.

End LedgerRoundTrip.

Section AnalysisStatus.

Context {num : Type} `{PyNum num}.

(** X9.  The status of an analysis job is resolved by reading: every call
    returns a response with the given headers and status 200, 404 or 500,
    after one read of the job's ledger record, or that read followed by one
    read of its result; the objects of the blob store, both vector stores,
    the engine and the environment are left untouched.  When the blob store
    answers the first read, the status is 404 exactly when the ledger holds
    no record for the job. *)
Theorem handle_analysis_status_only_reads
    (analysis_job_id : string) (cors_headers : list (string * string)) (w : @World num) :
  exists resp w' evs,
    handle_analysis_status analysis_job_id cors_headers w = (Val resp, w')
    /\ trace w' = trace w ++ evs
    /\ (evs = [GetObject (VIDEO_BUCKET (env w)) (job_key analysis_job_id)]
        \/ evs = [GetObject (VIDEO_BUCKET (env w)) (job_key analysis_job_id);
                  GetObject (VIDEO_BUCKET (env w)) (result_key analysis_job_id)])
    /\ objects (s3 w') = objects (s3 w)
    /\ opensearch w' = opensearch w /\ s3vectors w' = s3vectors w
    /\ bedrock w' = bedrock w /\ env w' = env w
    /\ headers resp = cors_headers
    /\ (statusCode resp = 200%Z \/ statusCode resp = 404%Z \/ statusCode resp = 500%Z)
    /\ (fst (next_fault (s3_faults (s3 w))) = None ->
        (statusCode resp = 404%Z
         <-> objects (s3 w) !! (VIDEO_BUCKET (env w), job_key analysis_job_id) = None)).
Proof.
  destruct w as [o sv [ob fl ho hc] bd en tr].
  cbn [trace env s3 objects opensearch s3vectors bedrock s3_faults].
  unfold handle_analysis_status, get_object, on_no_such_key, loads_job_info,
    loads_analysis_result.
  run.
  repeat (branch; run; rewrite ?String.eqb_refl; run);
    (eexists _, _, _; split; [reflexivity |]);
    cbn [trace env s3 objects opensearch s3vectors bedrock s3_faults
         headers statusCode respond];
    rewrite <- ?app_assoc;
    (split; [reflexivity |]);
    (split; [first [left; reflexivity | right; reflexivity] |]);
    repeat (split; [reflexivity |]);
    (split; [auto |]);
    cbn [next_fault fst]; intros Hf; split; intros Hc; congruence.
Qed.

End AnalysisStatus.

(** ** The stores and their handles *)

Section Stores.

Context {num : Type} `{PyNum num}.

(** X10.  With OpenSearch answering every call, [ensure_vector_index]
    leaves an index whose embedding field is a [knn_vector]: the documents
    of an index that had this mapping are kept, those of an index with
    another mapping are lost with the index that is deleted and created
    anew.  A second call finds the index in order: it checks existence and
    mapping and changes nothing. *)
Theorem ensure_vector_index_settles (w : @World num) :
  os_faults (opensearch w) = [] ->
  exists w1 w2,
    ensure_vector_index w = (Val tt, w1)
    /\ os_index (opensearch w1)
       = Some {| ix_embedding_type := Some "knn_vector";
                 ix_docs := surviving_documents w |}
    /\ (forall ix, os_index (opensearch w) = Some ix ->
        ix_embedding_type ix <> Some "knn_vector" -> stored_documents w1 = [])
    /\ (forall ix, os_index (opensearch w) = Some ix ->
        ix_embedding_type ix = Some "knn_vector" -> stored_documents w1 = ix_docs ix)
    /\ ensure_vector_index w1 = (Val tt, w2)
    /\ opensearch w2 = opensearch w1
    /\ trace w2
       = trace w1 ++ [OpenSearchCall IndicesExists; OpenSearchCall IndicesGetMapping].
Proof.
  destruct w as [[ini cl ix fl] sv s bd en tr].
  unfold surviving_documents, stored_documents.
  cbn [opensearch os_faults os_index]. intros ->.
  unfold ensure_vector_index, indices_exists, indices_get_mapping, indices_delete,
    indices_create, os_call.
  run.
  destruct ix as [[ty docs]|]; simpl; run.
  - case_bool_decide; simpl; run.
    + subst ty. eexists _, _. split; [reflexivity |].
      cbn [opensearch os_index trace]. simpl. run.
      split; [reflexivity |].
      split; [intros ix [= <-] Hne; now contradiction Hne |].
      split; [intros ix [= <-] _; reflexivity |].
      split; [reflexivity |]. split; [reflexivity |].
      now rewrite <- !app_assoc.
    + eexists _, _. split; [reflexivity |].
      cbn [opensearch os_index trace]. simpl. run.
      split; [reflexivity |].
      split; [intros ix _ _; reflexivity |].
      split; [intros ix [= <-] Heq; now contradiction |].
      split; [reflexivity |]. split; [reflexivity |].
      now rewrite <- !app_assoc.
  - eexists _, _. split; [reflexivity |].
    cbn [opensearch os_index trace]. simpl. run.
    split; [reflexivity |].
    split; [intros ix Hix; discriminate Hix |].
    split; [intros ix Hix; discriminate Hix |].
    split; [reflexivity |]. split; [reflexivity |].
    now rewrite <- !app_assoc.
Qed.

(** X11.  An error raised while an existing index is inspected is
    swallowed: when the mapping query fails, or when the mapping is wrong
    and the deletion fails, [ensure_vector_index] returns normally, the
    index is left as it was and no creation is attempted. *)
Theorem ensure_vector_index_swallows_inspection_errors
    (w : @World num) (ix : @OSIndex num) (e : exn) (rest : list (option exn)) :
  os_index (opensearch w) = Some ix ->
  (os_faults (opensearch w) = None :: Some e :: rest
   \/ (os_faults (opensearch w) = None :: None :: Some e :: rest
       /\ ix_embedding_type ix <> Some "knn_vector")) ->
  exists w' evs,
    ensure_vector_index w = (Val tt, w')
    /\ os_index (opensearch w') = Some ix
    /\ os_faults (opensearch w') = rest
    /\ trace w' = trace w ++ evs
    /\ OpenSearchCall IndicesCreate ∉ evs.
Proof.
  destruct w as [[ini cl ix0 fl] sv s bd en tr].
  cbn [opensearch os_faults os_index trace]. intros -> [-> | [-> Hty]];
    unfold ensure_vector_index, indices_exists, indices_get_mapping, indices_delete,
      indices_create, os_call;
    run; simpl; run.
  - eexists _, [_; _]. split; [reflexivity |]. cbn [opensearch os_index os_faults trace].
    split; [reflexivity |]. split; [reflexivity |].
    split; [now rewrite <- !app_assoc |].
    intros Hin. repeat (apply elem_of_cons in Hin as [Hin | Hin]; [discriminate Hin |]).
    now apply elem_of_nil in Hin.
  - destruct ix as [ty docs]. cbn [ix_embedding_type] in *.
    rewrite bool_decide_eq_false_2 by exact Hty. run.
    eexists _, [_; _; _]. split; [reflexivity |].
    cbn [opensearch os_index os_faults trace].
    split; [reflexivity |]. split; [reflexivity |].
    split; [now rewrite <- !app_assoc |].
    intros Hin. repeat (apply elem_of_cons in Hin as [Hin | Hin]; [discriminate Hin |]).
    now apply elem_of_nil in Hin.
Qed.

(** X12.  The cached name of the vector bucket is never stale.  A call
    that returns leaves the global set to the name it returns, and, when it
    had to initialise, the index of that bucket exists; a call that raises
    found the global unset and leaves it unset, so that the next call starts
    over; a call that finds the global set returns it and does nothing
    else. *)
Theorem vector_bucket_cache_is_never_stale (w : @World num) r w' :
  get_or_create_s3_vector_bucket w = (r, w') ->
  match r with
  | Val name =>
      name = S3_VECTOR_BUCKET (s3vectors w') /\ is_Some name
      /\ (S3_VECTOR_BUCKET (s3vectors w) = None ->
          exists b, name = Some b /\ is_Some (lookup_index w' b S3_VECTOR_INDEX))
  | Exc _ =>
      S3_VECTOR_BUCKET (s3vectors w) = None /\ S3_VECTOR_BUCKET (s3vectors w') = None
  | OutOfFuel => False
  end
  /\ (is_Some (S3_VECTOR_BUCKET (s3vectors w)) ->
      r = Val (S3_VECTOR_BUCKET (s3vectors w)) /\ w' = w).
Proof.
  destruct w as [o [cached vb fl] s bd en tr].
  cbn [s3vectors S3_VECTOR_BUCKET].
  unfold get_or_create_s3_vector_bucket. run.
  destruct cached as [c|].
  { intros [= <- <-]. cbn [s3vectors S3_VECTOR_BUCKET].
    split; [| auto]. split; [reflexivity |]. split; [eauto | discriminate]. }
  assert (N1 := is_not_found_s3v "GetIndex" (or_intror eq_refl)).
  assert (N2 := is_not_found_s3v "GetVectorBucket" (or_introl eq_refl)).
  unfold get_account_id, get_vector_bucket, create_vector_bucket, get_index, create_index,
    s3v_call, lookup_index.
  run.
  repeat (first [ rewrite N1 | rewrite N2 | rewrite lookup_insert_eq | rewrite lookup_empty
                | branch ]; run);
    intros [= <- <-]; cbn [s3vectors S3_VECTOR_BUCKET vector_buckets];
    (split; [| intros [? Hc]; discriminate Hc]);
    try (split; reflexivity);
    (split; [reflexivity |]); (split; [eauto |]); intros _;
    (eexists; split; [reflexivity |]);
    unfold lookup_index; cbn [s3vectors vector_buckets];
    repeat (first [ rewrite lookup_insert_eq
                  | match goal with Hl : _ !! _ = _ |- _ => rewrite Hl end ]);
    eauto.
Qed.

End Stores.

Section Retrieval.

Context {num : Type} `{PyNum num}.

(** A key that no segment of the batch gets is not written. *)
Lemma last_with_key_other video_id video_s3_uri (l : list (@Segment num)) :
  forall k key,
    (forall i s, l !! i = Some s -> key <> segment_id video_id (k + i) s) ->
    last_with_key key (make_vectors video_id video_s3_uri k l) = None.
Proof.
  induction l as [|x l IH]; intros k key Hkey; [reflexivity |].
  cbn [make_vectors last_with_key].
  rewrite (IH (S k) key).
  - cbn [make_vector vec_key].
    destruct (String.eqb_spec (segment_id video_id k x) key) as [E | _]; [| reflexivity].
    exfalso. apply (Hkey 0%nat x eq_refl). now rewrite Nat.add_0_r.
  - intros i s Hi. replace (S k + i)%nat with (k + S i)%nat by lia. now apply Hkey.
Qed.

(** The key of a segment of the batch is written with that segment. *)
Lemma last_with_key_segment video_id video_s3_uri (l : list (@Segment num)) :
  forall k i s, l !! i = Some s ->
    last_with_key (segment_id video_id (k + i) s) (make_vectors video_id video_s3_uri k l)
    = Some (make_vector video_id video_s3_uri (k + i) s).
Proof.
  induction l as [|x l IH]; intros k [|i] s Hi; try discriminate Hi.
  - injection Hi as ->. rewrite Nat.add_0_r. cbn [make_vectors last_with_key].
    rewrite (last_with_key_other video_id video_s3_uri l (S k)).
    + cbn [make_vector vec_key]. now rewrite String.eqb_refl.
    + intros j t _ E. apply segment_id_index in E. lia.
  - cbn [make_vectors last_with_key].
    replace (k + S i)%nat with (S k + i)%nat by lia.
    now rewrite (IH (S k) i s Hi).
Qed.

(** X13.  With S3 Vectors up, writing a batch stores every segment: the
    key of the segment at index [i] holds the vector built from that
    segment, so that no segment of the batch overwrites another, and every
    key that no segment of the batch gets holds what it held before. *)
Theorem stored_segments_are_retrievable
    (video_id video_s3_uri : string) (embedding_data_list : list (@Segment num))
    (w : @World num) :
  s3vectors_up w ->
  exists w',
    store_embeddings_to_s3_vectors video_id video_s3_uri embedding_data_list w
    = (Val (Stored (length embedding_data_list) video_id), w')
    /\ (forall i s, embedding_data_list !! i = Some s ->
        stored_vectors w' !! segment_id video_id i s
        = Some (make_vector video_id video_s3_uri i s))
    /\ (forall key,
          (forall i s, embedding_data_list !! i = Some s ->
             key <> segment_id video_id i s) ->
          stored_vectors w' !! key = stored_vectors w !! key).
Proof.
  intros Hup. destruct (s3vectors_up_bucket w Hup) as [b Hb].
  destruct (store_s3_run video_id video_s3_uri embedding_data_list w b Hup Hb)
    as (w' & E & _ & _ & _ & _ & _ & Hc & _ & Hix).
  exists w'. split; [exact E |].
  assert (Hb' : vector_bucket w' = Some b) by (unfold vector_bucket; now rewrite Hc).
  rewrite (stored_vectors_of_bucket w' b Hb'), (stored_vectors_of_bucket w b Hb), Hix.
  cbn [default from_option id]. split.
  - intros i s Hi. rewrite lookup_upsert_vectors.
    assert (L := last_with_key_segment video_id video_s3_uri embedding_data_list 0 i s Hi).
    cbn [Nat.add] in L. now rewrite L.
  - intros key Hkey. rewrite lookup_upsert_vectors.
    now rewrite (last_with_key_other video_id video_s3_uri embedding_data_list 0 key Hkey).
Qed.

End Retrieval.

(** ** What a computation returns *)

Section Returns.

Context {num : Type} `{PyNum num}.

(** [m] does not run out of fuel, and a value it returns satisfies [Q]. *)
Definition returns {A} (Q : A -> Prop) (m : @M num A) : Prop :=
  forall w r w', m w = (r, w') ->
    match r with
    | Val a => Q a
    | Exc _ => True
    | OutOfFuel => False
    end.

Lemma returns_ret {A} (Q : A -> Prop) (a : A) : Q a -> returns Q (ret a).
Proof. intros Ha w r w' [= <- <-]. exact Ha. Qed.

Lemma returns_raise {A} (Q : A -> Prop) (e : exn) : returns Q (@raise num A e).
Proof. intros w r w' [= <- <-]. exact I. Qed.

Lemma returns_bind {A B} (P : A -> Prop) (Q : B -> Prop) (m : @M num A) (k : A -> @M num B) :
  returns P m -> (forall a, P a -> returns Q (k a)) -> returns Q (bind m k).
Proof.
  intros Hm Hk w r w' E.
  apply bind_inv in E as [(a & w1 & E1 & E2) | [(e & E1 & ->) | (E1 & ->)]].
  - apply (Hk a (Hm _ _ _ E1) _ _ _ E2).
  - exact I.
  - exact (Hm _ _ _ E1).
Qed.

Lemma returns_try_except {A} (Q : A -> Prop) (m : @M num A) (h : exn -> @M num A) :
  returns Q m -> (forall e, returns Q (h e)) -> returns Q (try_except m h).
Proof.
  intros Hm Hh w r w' E.
  apply try_except_inv in E as [(e & w1 & E1 & E2) | (E1 & _)].
  - exact (Hh e _ _ _ E2).
  - exact (Hm _ _ _ E1).
Qed.

Lemma returns_weaken {A} (P Q : A -> Prop) (m : @M num A) :
  (forall a, P a -> Q a) -> returns P m -> returns Q m.
Proof.
  intros HPQ Hm w r w' E. specialize (Hm _ _ _ E).
  destruct r; auto.
Qed.

(** A computation with a footprint returns. *)
Lemma returns_within {A} os sv bl bd (P : @Event num -> Prop) (m : @M num A) :
  within os sv bl bd P m -> returns (fun _ => True) m.
Proof.
  intros Hm w r w' E. destruct (Hm _ _ _ E) as [_ N].
  destruct r; [exact I | exact I | now contradiction N].
Qed.

(** A [try] whose handler answers turns what its body returns into an
    answer for every world. *)
Lemma returns_answer {A} (Q : A -> Prop) (m : @M num A) (f : exn -> A) :
  returns Q m -> (forall e, Q (f e)) ->
  forall w, exists a w', try_except m (fun e => ret (f e)) w = (Val a, w') /\ Q a.
Proof.
  intros Hm Hf w. unfold try_except, ret.
  destruct (m w) as [[a|e|] w1] eqn:E; specialize (Hm _ _ _ E); simpl in Hm.
  - eauto.
  - eauto.
  - contradiction.
Qed.

Lemma returns_total {A} (Q : A -> Prop) (m : @M num A) :
  (forall w, exists a w', m w = (Val a, w') /\ Q a) -> returns Q m.
Proof.
  intros Hm w r w' E. destruct (Hm w) as (a & w1 & E1 & Ha).
  rewrite E1 in E. now injection E as <- _.
Qed.

(** [m] returns, in every world, a value that satisfies [Q]. *)
Definition answers {A} (Q : A -> Prop) (m : @M num A) : Prop :=
  forall w, exists a w', m w = (Val a, w') /\ Q a.

Lemma answers_ret {A} (Q : A -> Prop) (a : A) : Q a -> answers Q (ret a).
Proof. intros Ha w. now exists a, w. Qed.

Lemma answers_get_world : answers (fun _ => True) get_world.
Proof. intros w. now exists w, w. Qed.

Lemma answers_bind {A B} (P : A -> Prop) (Q : B -> Prop) (m : @M num A) (k : A -> @M num B) :
  answers P m -> (forall a, P a -> answers Q (k a)) -> answers Q (bind m k).
Proof.
  intros Hm Hk w. destruct (Hm w) as (a & w1 & E1 & Ha).
  destruct (Hk a Ha w1) as (b & w2 & E2 & Hb).
  exists b, w2. unfold bind. now rewrite E1.
Qed.

Lemma answers_try_except {A} (Q : A -> Prop) (m : @M num A) (h : exn -> @M num A) :
  returns Q m -> (forall e, answers Q (h e)) -> answers Q (try_except m h).
Proof.
  intros Hm Hh w. unfold try_except.
  destruct (m w) as [[a|e|] w1] eqn:E; specialize (Hm _ _ _ E); simpl in Hm.
  - eauto.
  - apply Hh.
  - contradiction.
Qed.

Lemma answers_returns {A} (Q : A -> Prop) (m : @M num A) : answers Q m -> returns Q m.
Proof. apply returns_total. Qed.

End Returns.

(** A computation built from calls, with no loop, returns. *)
Ltac returns_any :=
  apply (returns_within true true true true (fun _ => True)); footprint.

Ltac code_ok := split; [reflexivity | cbn; repeat constructor].

Ltac returns_step :=
  first
    [ apply returns_ret; solve [code_ok | exact I | auto]
    | apply returns_raise
    | apply returns_try_except; [| intros ?]
    | match goal with
      | |- returns _ (match ?x with _ => _ end) => destruct x
      | |- returns _ (let (_, _) := ?x in _) => destruct x
      end
    | eapply (returns_bind (fun _ => True)); [solve [returns_any] | intros ? _] ].

Section Answers.

Context {num : Type} `{PyNum num} {platform : @Platform num}.

Lemma wait_for_s3_object_answers s3_uri max :
  returns (num:=num) (fun _ => True) (wait_for_s3_object s3_uri max).
Proof.
  apply returns_total. intros [o sv [ob fl ho hc] bd en tr].
  destruct (wait_for_s3_object_returns s3_uri max o sv ob fl ho hc bd en tr)
    as (answer & hc' & evs & E & _); eauto.
Qed.

Lemma handle_upload_answers event cors :
  forall w : @World num, exists r w',
    handle_upload event cors w = (Val r, w') /\ answers_with cors [200; 400; 500]%Z r.
Proof.
  unfold handle_upload. apply returns_answer; [| intros e; code_ok].
  repeat returns_step.
Qed.

Lemma handle_video_url_answers event cors :
  forall w : @World num, exists r w',
    handle_video_url event cors w = (Val r, w')
    /\ answers_with cors [200; 400; 404; 500]%Z r.
Proof.
  unfold handle_video_url. apply returns_answer; [| intros e; code_ok].
  repeat returns_step.
Qed.

Lemma handle_embed_answers event cors :
  forall w : @World num, exists r w',
    handle_embed event cors w = (Val r, w')
    /\ answers_with cors [202; 400; 404; 500]%Z r.
Proof.
  unfold handle_embed. apply returns_answer; [| intros [] ; code_ok].
  destruct (ev_body event) as [msg | body]; [apply returns_raise |].
  destruct (negb _ || negb _); [apply returns_ret; code_ok |].
  eapply (returns_bind (fun _ => True)); [apply wait_for_s3_object_answers | intros available _].
  unfold start_video_embedding.
  repeat returns_step.
Qed.

Lemma handle_flush_opensearch_answers event cors :
  forall w : @World num, exists r w',
    handle_flush_opensearch event cors w = (Val r, w')
    /\ answers_with cors [200; 500]%Z r.
Proof.
  unfold handle_flush_opensearch. apply returns_answer; [| intros e; code_ok].
  repeat returns_step.
Qed.

(** The asynchronous worker answers without headers. *)
Lemma process_analysis_async_answers event :
  forall w : @World num, exists r w',
    process_analysis_async event w = (Val r, w')
    /\ rr_headers r = None /\ rr_statusCode r ∈ [200; 500]%Z.
Proof.
  unfold process_analysis_async.
  destruct (negb _).
  { intros w. eexists _, _. split; [reflexivity |]. code_ok. }
  apply answers_try_except.
  - repeat returns_step.
  - intros e. eapply (answers_bind (fun _ => True)); [apply answers_get_world | intros w _].
    eapply (answers_bind (fun _ => True)).
    + apply answers_try_except; [returns_any | intros _; now apply answers_ret].
    + intros _ _. apply answers_ret. code_ok.
Qed.

Lemma answers_with_more cors codes codes' (r : @RouteResponse num) :
  (forall c, c ∈ codes -> c ∈ codes') ->
  answers_with cors codes r -> answers_with cors codes' r.
Proof. intros Hsub [Hh Hc]. split; [exact Hh | now apply Hsub]. Qed.

Lemma handle_analyze_answers event cors context :
  answers (num:=num) (fun r => answers_with cors [202; 400; 404; 500]%Z (of_response r))
    (handle_analyze event cors context).
Proof.
  set (Q := fun r : Response => answers_with cors [202; 400; 404; 500]%Z (of_response r)).
  unfold handle_analyze.
  apply answers_try_except; [| intros []; apply answers_ret; code_ok].
  destruct (ev_body event) as [msg | body]; [apply returns_raise |].
  destruct (negb _); [apply returns_ret; code_ok |].
  eapply (returns_bind (fun _ => True)); [apply wait_for_s3_object_answers | intros available _].
  destruct (negb available); [apply returns_ret; code_ok |].
  eapply (returns_bind (fun _ => True)); [returns_any | intros w _].
  eapply (returns_bind (fun x => forall r, x = Some r -> Q r)).
  { apply returns_try_except.
    - eapply (returns_bind (fun _ => True)); [returns_any | intros _ _].
      apply returns_ret. discriminate.
    - intros e. apply returns_ret. intros r [= <-]. code_ok. }
  intros [response|] Hr; [apply returns_ret; now apply Hr |].
  eapply (returns_bind (fun x => forall r, x = Some r -> Q r)).
  { apply returns_try_except.
    - eapply (returns_bind (fun _ => True)); [returns_any | intros _ _].
      apply returns_ret. discriminate.
    - intros e. eapply (returns_bind (fun _ => True)); [returns_any | intros _ _].
      apply returns_ret. intros r [= <-]. code_ok. }
  intros [response|] Hr'; apply returns_ret; [now apply Hr' | code_ok].
Qed.

Lemma on_no_such_key_returns {A} (Q : A -> Prop) (r : A) (e : exn) :
  Q r -> returns (num:=num) Q (on_no_such_key r e).
Proof.
  intros Hr. unfold on_no_such_key. destruct e as [code msg op| |];
    try apply returns_raise.
  destruct (String.eqb code "NoSuchKey"); [now apply returns_ret | apply returns_raise].
Qed.

Lemma handle_analysis_status_answers analysis_job_id cors :
  answers (num:=num) (fun r => answers_with cors [200; 404; 500]%Z (of_response r))
    (handle_analysis_status analysis_job_id cors).
Proof.
  set (Q := fun r : Response => answers_with cors [200; 404; 500]%Z (of_response r)).
  unfold handle_analysis_status.
  apply answers_try_except; [| intros e; apply answers_ret; code_ok].
  eapply (returns_bind (fun _ => True)); [returns_any | intros w _].
  eapply (returns_bind (fun x => forall r, x = inl r -> Q r)).
  { apply returns_try_except.
    - eapply (returns_bind (fun _ => True)); [returns_any | intros blob _].
      eapply (returns_bind (fun _ => True));
        [unfold loads_job_info; returns_any | intros j _].
      apply returns_ret. discriminate.
    - intros e. apply on_no_such_key_returns. intros r [= <-]. code_ok. }
  intros [response | job_info] Hr; [apply returns_ret; now apply Hr |].
  destruct (String.eqb _ "Completed").
  { apply returns_try_except.
    - eapply (returns_bind (fun _ => True)); [returns_any | intros blob _].
      eapply (returns_bind (fun _ => True));
        [unfold loads_analysis_result; returns_any | intros j _].
      apply returns_ret. code_ok.
    - intros e. apply on_no_such_key_returns. code_ok. }
  destruct (String.eqb _ "Failed"); apply returns_ret; code_ok.
Qed.

Lemma handle_status_answers event cors :
  answers (num:=num) (fun r => answers_with cors [200; 400; 404; 500]%Z (of_response r))
    (handle_status event cors).
Proof.
  unfold handle_status.
  apply answers_try_except; [| intros []; apply answers_ret; code_ok].
  destruct (Py.truthy (_ !! "analysisJobId")).
  { eapply returns_weaken; [| apply answers_returns, handle_analysis_status_answers].
    intros r. apply answers_with_more. intros c Hc.
    repeat (apply elem_of_cons in Hc as [-> | Hc]; [repeat constructor |]).
    now apply elem_of_nil in Hc. }
  destruct (negb _); [apply returns_ret; code_ok |].
  eapply (returns_bind (fun _ => True)); [returns_any | intros response _].
  destruct (bool_decide _).
  2:{ destruct (br_status response); [apply returns_ret; code_ok | apply returns_raise]. }
  destruct (Py.truthy _); [| apply returns_ret; code_ok].
  destruct (output_location _) as [bucket key].
  apply returns_try_except; [| intros e; apply returns_ret; code_ok].
  eapply (returns_bind (fun _ => True)); [returns_any | intros blob _].
  eapply (returns_bind (fun _ => True));
    [unfold loads_embedding_output; returns_any | intros data _].
  eapply (returns_bind (fun _ => True)); [| intros storage _; apply returns_ret; code_ok].
  apply (returns_within true true true true (fun _ => True)).
  now apply materialize_within.
Qed.

Lemma handle_search_answers event cors :
  answers (num:=num) (fun r => answers_with cors [200; 400; 408; 500]%Z (of_response r))
    (handle_search event cors).
Proof.
  set (Q := fun r : Response => answers_with cors [200; 400; 408; 500]%Z (of_response r)).
  unfold handle_search.
  apply answers_try_except; [| intros e; apply answers_ret; code_ok].
  destruct (negb _); [apply returns_ret; code_ok |].
  eapply (returns_bind (fun x => forall r, x = inl r -> Q r)).
  { apply returns_try_except; [| intros e; apply returns_ret; intros r [= <-]; code_ok].
    eapply (returns_bind (fun _ => True));
      [unfold start_async_invoke; returns_any | intros arn _].
    eapply (returns_bind (fun _ => True)).
    - apply (returns_within true true true true (fun _ => True)).
      apply poll_query_embedding_within; auto. simpl. lia.
    - intros [qe waited] _. destruct (25 <=? waited)%Z;
        [apply returns_ret; intros r [= <-]; code_ok |].
      destruct qe as [[|x qe]|]; apply returns_ret; intros r E;
        try discriminate E; injection E as <-; code_ok. }
  intros [response | query_embedding] Hr; [apply returns_ret; now apply Hr |].
  eapply (returns_bind (fun _ => True)).
  { apply (returns_within true true true true (fun _ => True)).
    apply within_try_except; [| intros ?; apply within_ret].
    now apply search_opensearch_within. }
  intros r1 _.
  eapply (returns_bind (fun _ => True)); [| intros r2 _; apply returns_ret; code_ok].
  apply (returns_within true true true true (fun _ => True)).
  apply within_try_except; [| intros ?; apply within_ret].
  now apply search_s3_vectors_within.
Qed.

End Answers.

Section Router.

Context {num : Type} `{PyNum num} {platform : @Platform num}.

Lemma codes_of_gateway (codes : list Z) :
  Forall (fun c => c ∈ gateway_codes) codes ->
  forall c, c ∈ codes -> c ∈ gateway_codes.
Proof. intros Hall c Hc. rewrite Forall_forall in Hall. now apply Hall. Qed.

Ltac in_gateway :=
  apply codes_of_gateway; repeat constructor.

Lemma route_answers path method event context :
  answers (num:=num) (answers_with cors_headers gateway_codes)
    (route path method event context).
Proof.
  unfold route.
  apply answers_try_except; [| intros e; apply answers_ret; code_ok].
  repeat match goal with
         | |- returns _ (if ?c then _ else _) => destruct c
         end.
  - apply returns_ret; code_ok.
  - eapply returns_weaken;
      [| apply answers_returns; exact (handle_upload_answers event cors_headers)].
    intros r. apply answers_with_more. in_gateway.
  - eapply returns_bind; [apply answers_returns, handle_analyze_answers |].
    intros r Hr. apply returns_ret. revert Hr. apply answers_with_more. in_gateway.
  - eapply returns_weaken;
      [| apply answers_returns; exact (handle_embed_answers event cors_headers)].
    intros r. apply answers_with_more. in_gateway.
  - eapply returns_bind; [apply answers_returns, handle_status_answers |].
    intros r Hr. apply returns_ret. revert Hr. apply answers_with_more. in_gateway.
  - eapply returns_bind; [apply answers_returns, handle_search_answers |].
    intros r Hr. apply returns_ret. revert Hr. apply answers_with_more. in_gateway.
  - eapply returns_weaken;
      [| apply answers_returns; exact (handle_video_url_answers event cors_headers)].
    intros r. apply answers_with_more. in_gateway.
  - eapply returns_weaken;
      [| apply answers_returns; exact (handle_flush_opensearch_answers event cors_headers)].
    intros r. apply answers_with_more. in_gateway.
  - apply returns_ret; code_ok.
Qed.

(** X14.  The function answers every invocation that gets past its log
    lines, and fails only there.  An asynchronous invocation for
    [process_analysis] is always answered, without headers, with 200 or 500,
    whatever the context.  For every other invocation, when the preview of
    the body cannot be taken or the context lacks the attributes that are
    printed, [handler] raises that error, outside its [try], before anything
    is called; otherwise it returns a response with the CORS headers and one
    of the status codes 200, 202, 400, 404, 408 and 500, whatever the state
    of the services (404 for a payload with another action). *)
Theorem handler_answers_past_its_log_lines (event : LambdaEvent)
    (context : exn + LambdaContext) (w : @World num) :
  match event with
  | AsyncCall payload =>
      if String.eqb (ap_action payload) "process_analysis"
      then exists resp w',
             handler event context w = (Val resp, w')
             /\ rr_headers resp = None /\ rr_statusCode resp ∈ [200; 500]%Z
      else match context with
           | inl attribute_error => handler event context w = (Exc attribute_error, w)
           | inr _ =>
               exists resp w',
                 handler event context w = (Val resp, w')
                 /\ rr_headers resp = Some cors_headers /\ rr_statusCode resp = 404%Z
           end
  | ApiCall _ _ (Some slice_error) _ => handler event context w = (Exc slice_error, w)
  | ApiCall _ _ None _ =>
      match context with
      | inl attribute_error => handler event context w = (Exc attribute_error, w)
      | inr _ =>
          exists resp w',
            handler event context w = (Val resp, w')
            /\ rr_headers resp = Some cors_headers
            /\ rr_statusCode resp ∈ gateway_codes
      end
  end.
Proof.
  destruct event as [method path [slice_error|] request | payload]; cbn [handler].
  - reflexivity.
  - destruct context as [attribute_error | context]; [reflexivity |].
    destruct (route_answers (default "" path) (default "" method) request context w)
      as (resp & w' & E & Hh & Hc).
    exists resp, w'. auto.
  - destruct (String.eqb (ap_action payload) "process_analysis").
    + destruct (process_analysis_async_answers payload w) as (resp & w' & E & Hh & Hc).
      exists resp, w'. auto.
    + destruct context as [attribute_error | context]; [reflexivity |].
      eexists _, _. split; [reflexivity |]. split; reflexivity.
Qed.

End Router.

(** ** The embedding submission *)

Section Embed.

Context {num : Type} `{PyNum num} {platform : @Platform num}.

Lemma wait_event_not_start (pre : list (@Event num)) inputType :
  Forall is_wait_event pre -> StartAsyncInvoke inputType ∉ pre.
Proof.
  intros Hpre Hin. rewrite Forall_forall in Hpre. exact (Hpre _ Hin).
Qed.

Lemma truthy_is_Some (o : option string) : Py.truthy o = true -> is_Some o.
Proof. destruct o; [eauto | discriminate]. Qed.

(** X15.  [handle_embed] always answers, and leaves the objects of the
    blob store and both vector stores as they were.  It starts an embedding
    job only for a video, only after an existence check of the object has
    succeeded and the account was resolved; it answers 202 only when a job
    was started, and then returns the identifier the engine gave. *)
Theorem handle_embed_starts_after_the_object_is_seen
    (event : ApiEvent) (cors : list (string * string)) (w : @World num) :
  exists resp w' evs,
    handle_embed event cors w = (Val resp, w')
    /\ trace w' = trace w ++ evs
    /\ objects (s3 w') = objects (s3 w)
    /\ opensearch w' = opensearch w /\ s3vectors w' = s3vectors w
    /\ (forall inputType, StartAsyncInvoke inputType ∈ evs ->
        inputType = "video"
        /\ (exists n, head_oracle (s3 w) n = None)
        /\ is_Some (resolved_account_id (env w)))
    /\ (rr_statusCode resp = 202%Z ->
        StartAsyncInvoke "video" ∈ evs
        /\ exists invocation_arn,
             start_async (bedrock w) = inr invocation_arn
             /\ rr_body resp
                = EmbedAccepted invocation_arn "processing" "Embedding generation started").
Proof.
  destruct w as [o sv [ob fl ho hc] bd en tr].
  cbn [trace s3 objects opensearch s3vectors head_oracle env bedrock].
  unfold handle_embed. run.
  destruct (ev_body event) as [msg | body]; run.
  { eexists _, _, []. split; [reflexivity |]. cbn [trace s3 objects opensearch s3vectors].
    rewrite app_nil_r. repeat (split; [reflexivity |]).
    split; [intros it Hin; now apply elem_of_nil in Hin | discriminate]. }
  destruct (negb (Py.truthy (body !! "s3Uri")) || negb (Py.truthy (body !! "videoId")));
    run.
  { eexists _, _, []. split; [reflexivity |]. cbn [trace s3 objects opensearch s3vectors].
    rewrite app_nil_r. repeat (split; [reflexivity |]).
    split; [intros it Hin; now apply elem_of_nil in Hin | discriminate]. }
  destruct (wait_for_s3_object_returns (default "" (body !! "s3Uri")) 45 o sv ob fl ho hc
              bd en tr)
    as (answer & hc' & pre & E & Hpre & Hseen).
  rewrite E. clear E. destruct answer; run.
  2:{ eexists _, _, pre. split; [reflexivity |].
      cbn [trace s3 objects opensearch s3vectors].
      repeat (split; [reflexivity |]).
      split; [intros it Hin; now apply wait_event_not_start in Hin | discriminate]. }
  specialize (Hseen eq_refl).
  unfold get_account_id, start_video_embedding, start_async_invoke, resolved_account_id.
  run.
  assert (Hstart : forall (l : list (@Event num)) it,
            StartAsyncInvoke it ∈ pre ++ l -> StartAsyncInvoke it ∈ l).
  { intros l it Hin. apply elem_of_app in Hin as [Hin | Hin]; [| exact Hin].
    now apply wait_event_not_start in Hin. }
  destruct (Py.truthy (AWS_ACCOUNT_ID en)) eqn:Hacc; run;
    [| destruct (sts_account en) as [e | account] eqn:Hsts; run];
    try (destruct (start_async bd) as [e' | arn] eqn:Hstart'; run);
    (eexists _, _, (pre ++ _); split; [rewrite <- ?app_assoc; reflexivity |]);
    cbn [trace s3 objects opensearch s3vectors];
    repeat (split; [reflexivity |]);
    (split;
     [ intros it Hin; apply Hstart in Hin;
       repeat (apply elem_of_cons in Hin as [Hin | Hin];
               [ first [ discriminate Hin
                       | injection Hin as ->; split; [reflexivity |];
                         split; [exact Hseen |];
                         first [now apply truthy_is_Some | eauto] ] |]);
       now apply elem_of_nil in Hin
     | intros Hc;
       first [ discriminate Hc
             | match goal with e0 : exn |- _ => destruct e0; discriminate Hc end
             | split; [apply elem_of_app; right; repeat constructor | eauto] ] ]).
Qed.

End Embed.

(** ** Playback URLs *)

(** Splitting at the first separator: the first part is separator-free,
    and the parts recombine. *)
Lemma split1_go_parts (c : ascii) (s cur b k : string) :
  Py.split1_go c s cur = [b; k] ->
  exists a, b = cur +:+ a /\ Py.has_char c a = false /\ s = a +:+ String c k.
Proof.
  revert cur. induction s as [|x s IH]; intros cur E; simpl in E; [discriminate E |].
  destruct (Ascii.eqb_spec x c) as [-> | Hne].
  - injection E as <- <-. exists "". now rewrite append_nil_r.
  - destruct (IH _ E) as (a & -> & Ha & ->). exists (String x a).
    rewrite append_assoc. simpl. apply Ascii.eqb_neq in Hne. now rewrite Hne, Ha.
Qed.

Lemma split1_go_field (c : ascii) (a k cur : string) :
  Py.has_char c a = false -> Py.split1_go c (a +:+ String c k) cur = [cur +:+ a; k].
Proof.
  revert cur. induction a as [|x a IH]; intros cur Ha; simpl in *.
  - now rewrite Ascii.eqb_refl, append_nil_r.
  - apply orb_false_elim in Ha as [Hx Ha]. now rewrite Hx, (IH _ Ha), append_assoc.
Qed.

Lemma startswith_scheme (u : string) :
  Py.startswith u "s3://" = true -> u = "s3://" +:+ Py.drop 5 u.
Proof.
  destruct u as [|a1 [|a2 [|a3 [|a4 [|a5 u]]]]]; cbn [Py.startswith]; try discriminate;
    repeat match goal with
           | |- (if Ascii.eqb ?x ?y then _ else _) = true -> _ =>
               destruct (Ascii.eqb_spec x y) as [<- |]; [| discriminate]
           end;
    try discriminate.
  reflexivity.
Qed.

Section Playback.

Context {num : Type} `{PyNum num} {platform : @Platform num}.

(** X16.  A playback URL is signed only for the object that was checked.
    When [handle_video_url] answers 200, the requested URI is
    [s3://bucket/key] with a bucket that holds no slash, the one request
    sent was the existence check of that bucket and key, it succeeded, and
    the URL was signed for the same bucket and key.  When the check of such
    a URI fails, whatever the error, the answer is 404 and names the key. *)
Theorem handle_video_url_signs_what_it_checked
    (event : ApiEvent) (cors : list (string * string)) (w : @World num) :
  (forall resp w',
      handle_video_url event cors w = (Val resp, w') -> rr_statusCode resp = 200%Z ->
      exists bucket key url,
        default ∅ (queryStringParameters event) !! "videoS3Uri"
        = Some ("s3://" +:+ bucket +:+ "/" +:+ key)
        /\ Py.has_char "/" bucket = false
        /\ head_oracle (s3 w) (head_calls (s3 w)) = None
        /\ w' = checked bucket key w
        /\ generate_presigned_url bucket key = inr url
        /\ rr_body resp
           = PlaybackUrl url ("s3://" +:+ bucket +:+ "/" +:+ key) bucket key)
  /\ (forall bucket key e,
        default ∅ (queryStringParameters event) !! "videoS3Uri"
        = Some ("s3://" +:+ bucket +:+ "/" +:+ key) ->
        Py.has_char "/" bucket = false ->
        head_oracle (s3 w) (head_calls (s3 w)) = Some e ->
        handle_video_url event cors w
        = (Val (route_error 404 cors ("Video file not found in S3: " +:+ key)),
           checked bucket key w)).
Proof.
  destruct w as [o sv [ob fl ho hc] bd en tr]. unfold checked.
  cbn [s3 head_oracle head_calls]. split.
  - intros resp w'. unfold handle_video_url. run.
    destruct (default ∅ (queryStringParameters event) !! "videoS3Uri") as [uri|] eqn:Hq;
      run; [| intros [= <- <-] Hc; discriminate Hc].
    destruct uri as [|u0 uri]; run; [intros [= <- <-] Hc; discriminate Hc |].
    cbn [default from_option id].
    destruct (Py.startswith (String u0 uri) "s3://") eqn:Hs; run;
      [| intros [= <- <-] Hc; discriminate Hc].
    apply startswith_scheme in Hs.
    destruct (Py.split1 (Py.drop 5 (String u0 uri)) "/") as [|b [|k [|x rest]]] eqn:Hp;
      try (intros [= <- <-] Hc; discriminate Hc).
    apply split1_go_parts in Hp as (a & -> & Ha & Hp). rewrite Hp in Hs.
    unfold head_object. run.
    destruct (ho hc) as [e|] eqn:Eho; run; [intros [= <- <-] Hc; discriminate Hc |].
    destruct (generate_presigned_url ("" +:+ a) k) as [e | url] eqn:Hsign; run;
      intros [= <- <-] Hc; [discriminate Hc |].
    exists a, k, url. rewrite Hs. repeat split; auto.
  - intros bucket key e Hq Hb Eho. unfold handle_video_url. run. rewrite Hq.
    cbn [Py.truthy default from_option id append negb Py.startswith].
    rewrite !Ascii.eqb_refl.
    rewrite startswith_nil.
    cbn [negb Py.drop]. unfold Py.split1.
    rewrite (split1_go_field "/" bucket key "" Hb).
    unfold head_object. run. rewrite Eho. run. reflexivity.
Qed.

End Playback.

(** ** Flushing the OpenSearch index *)

Section Flush.

Context {num : Type} `{PyNum num} {platform : @Platform num}.


(** X18.  With OpenSearch up, a flush answers 200 with the number of
    documents it found and deleted (or says that there is no index), leaves
    S3 Vectors as it was, and a search of OpenSearch afterwards finds
    nothing, whatever the query. *)
Theorem flush_then_search_finds_nothing
    (event : ApiEvent) (cors : list (string * string)) (w : @World num) :
  opensearch_up w ->
  exists resp w',
    handle_flush_opensearch event cors w = (Val resp, w')
    /\ rr_statusCode resp = 200%Z
    /\ rr_body resp
       = match os_index (opensearch w) with
         | Some ix =>
             Flushed "Successfully flushed OpenSearch index video-embeddings"
               (inl (length (ix_docs ix))) (length (ix_docs ix))
         | None =>
             NothingToFlush "Index video-embeddings does not exist - nothing to flush" 0
         end
    /\ s3vectors w' = s3vectors w
    /\ forall (query_embedding : list num) (top_k : nat),
         exists w'',
           search_opensearch query_embedding top_k w'
           = (Val {| so_results := []; so_total := 0; so_message := None;
                     so_error := None |}, w'').
Proof.
  destruct w as [[ini cl ix fl] sv bl bd en tr]. unfold opensearch_up.
  cbn [opensearch os_faults opensearch_client os_init_ok os_index].
  intros [-> Hclient].
  unfold handle_flush_opensearch, get_opensearch_client, indices_exists, os_call,
    count, delete_by_query, os_request.
  run.
  destruct cl; [| cbn [orb] in Hclient; subst ini]; run;
    (destruct ix as [[ty docs]|]; run;
     [ rewrite bool_decide_eq_true_2 by eauto
     | rewrite bool_decide_eq_false_2 by (intros [? ?]; discriminate) ]; run;
     (eexists _, _; split; [reflexivity |]);
     repeat (split; [reflexivity |]);
     intros query_embedding top_k;
     unfold search_opensearch, get_opensearch_client; run;
     match goal with
     | |- context [ensure_vector_index ?w0] =>
         destruct (ensure_run (os_init_ok (opensearch w0)) (opensearch_client (opensearch w0))
                     (os_index (opensearch w0)) sv bl bd en (trace w0)) as [tr' E];
         cbn [opensearch os_init_ok opensearch_client os_index trace] in E;
         rewrite E
     end;
     unfold os_search, os_call; run;
     cbn [ix_docs ix_embedding_type]; unfold knn_hits;
     try match goal with |- context [bool_decide ?P] => destruct (bool_decide P) end;
     cbn [map sort_by fold_right]; rewrite take_nil;
     eexists; reflexivity).
Qed.

End Flush.

(** ** The asynchronous worker and the ledger *)

Lemma append_inj_l (a b c : string) : a +:+ b = a +:+ c -> b = c.
Proof. induction a as [|x a IH]; simpl; [auto | intros [= E]; auto]. Qed.

Lemma job_key_is_not_result_key (analysis_job_id : string) :
  job_key analysis_job_id <> result_key analysis_job_id.
Proof.
  unfold job_key, result_key. intros E.
  apply append_inj_l, append_inj_l in E. discriminate E.
Qed.

Lemma ledger_keys_differ (bucket_name analysis_job_id : string) :
  (bucket_name, job_key analysis_job_id) <> (bucket_name, result_key analysis_job_id).
Proof.
  intros E. apply (f_equal snd) in E. now apply job_key_is_not_result_key in E.
Qed.

Lemma truthy_nonempty (s : string) : s <> "" -> Py.truthy (Some s) = true.
Proof. destruct s; [congruence | reflexivity]. Qed.

Section Worker.

Context {num : Type} `{PyNum num} {platform : @Platform num}.

(** A payload that lacks a parameter is answered 500 and nothing is
    written. *)
Lemma process_analysis_async_incomplete (payload : AsyncPayload) (w : @World num) :
  ap_analysisJobId payload = "" \/ ap_s3Uri payload = "" \/ ap_prompt payload = ""
  \/ ap_bucketName payload = "" ->
  process_analysis_async payload w
  = (Val (worker_answer 500
            (WorkerFailed "Missing required parameters for async analysis processing"
               (ap_analysisJobId payload))), w).
Proof.
  unfold process_analysis_async.
  destruct (ap_analysisJobId payload), (ap_s3Uri payload), (ap_prompt payload),
    (ap_bucketName payload); intros [E | [E | [E | E]]]; try discriminate E; reflexivity.
Qed.

(** X19.  A submission with an empty prompt is accepted and can never be
    processed.  When [handle_analyze] answers 202 to a request whose prompt
    is the empty string, the ledger records the job as [InProgress] and the
    dispatched payload carries the empty prompt; on that payload the worker
    answers 500 for missing parameters and writes nothing, in whatever state
    it runs, so that the record stays [InProgress]. *)
Theorem empty_prompt_is_accepted_and_never_processed
    (event : ApiEvent) (cors : list (string * string)) (context : LambdaContext)
    (w : @World num) (resp : Response) (w' : @World num) (body : gmap string string) :
  handle_analyze event cors context w = (Val resp, w') ->
  statusCode resp = 202%Z ->
  ev_body event = inr body -> body !! "prompt" = Some "" ->
  exists function_name payload pre job_info,
    trace w' = pre ++ [LambdaInvoke function_name payload true]
    /\ ap_action payload = "process_analysis" /\ ap_prompt payload = ""
    /\ objects (s3 w') !! (VIDEO_BUCKET (env w'), job_key (ap_analysisJobId payload))
       = Some (JobInfoDoc job_info)
    /\ status job_info = Some "InProgress"
    /\ forall (context' : exn + LambdaContext) (later : @World num),
         handler (AsyncCall payload) context' later
         = (Val (worker_answer 500
                   (WorkerFailed "Missing required parameters for async analysis processing"
                      (ap_analysisJobId payload))), later).
Proof.
  destruct w as [o sv [ob fl ho hc] bd en tr].
  unfold handle_analyze. run. intros Hrun Hcode Hbody Hprompt. revert Hrun Hcode.
  rewrite Hbody, Hprompt. run.
  destruct (Py.truthy (body !! "s3Uri")) eqn:Huri; run.
  2:{ intros [= <- <-] Hcode. discriminate Hcode. }
  destruct (wait_for_s3_object_returns (default "" (body !! "s3Uri")) 30 o sv ob fl ho hc bd en tr)
    as (answer & hc' & evs & E & _ & _).
  rewrite E. clear E. destruct answer; run.
  2:{ intros [= <- <-] Hcode. discriminate Hcode. }
  unfold put_object, lambda_invoke. run.
  destruct fl as [|[e|] fl]; run;
    [destruct (lambda_fault en) as [e|] eqn:Hl; run
    | | destruct (lambda_fault en) as [e|] eqn:Hl; run;
        [destruct fl as [|[e2|] fl]; run |]];
    intros [= <- <-] Hcode; try discriminate Hcode;
    try (destruct e2; discriminate Hcode);
    cbn [trace s3 objects env];
    (eexists _, _, _, _; split; [reflexivity |]);
    cbn [ap_action ap_prompt ap_analysisJobId];
    (split; [reflexivity |]); (split; [reflexivity |]);
    (split; [apply lookup_insert_eq |]); (split; [reflexivity |]);
    intros context' later; cbn [handler ap_action];
    rewrite String.eqb_refl; apply process_analysis_async_incomplete;
    cbn [ap_prompt]; auto.
Qed.

(** X20.  What the worker stores is what the status route serves.  On a
    payload with all its parameters, for the video bucket, when the account
    is resolved, the engine answers and the blob store accepts every call,
    the worker answers 200, and a status request for the job is then
    answered 200 with the video id and the prompt of the payload, the
    engine's message and finish reason, and the processing time. *)
Theorem completed_analysis_is_served
    (payload : AsyncPayload) (cors : list (string * string)) (w : @World num)
    (owner : string) (answer : PegasusAnswer) :
  ap_analysisJobId payload <> "" -> ap_s3Uri payload <> "" -> ap_prompt payload <> "" ->
  ap_bucketName payload <> "" -> ap_bucketName payload = VIDEO_BUCKET (env w) ->
  resolved_account_id (env w) = Some owner ->
  invoke_model (ap_prompt payload) (ap_s3Uri payload) owner = inr answer ->
  s3_faults (s3 w) = [] ->
  exists w1 w2,
    process_analysis_async payload w
    = (Val (worker_answer 200 (WorkerCompleted (ap_analysisJobId payload) "Completed")), w1)
    /\ handle_analysis_status (ap_analysisJobId payload) cors w1
       = (Val (respond 200 cors
                 (AnalysisCompleted (ap_analysisJobId payload) (ap_videoId payload)
                    (default "" (pg_message answer)) (default "" (pg_finishReason answer))
                    (ap_prompt payload) processing_time (time_str (env w))
                    "Analysis completed successfully")), w2)
    /\ objects (s3 w2) = objects (s3 w1).
Proof.
  destruct w as [o sv [ob fl ho hc] bd en tr]. cbn [env s3 s3_faults].
  intros Hid Huri Hprompt Hbucket Hvb Howner Hengine ->.
  unfold process_analysis_async.
  rewrite !truthy_nonempty by assumption. cbn [andb negb].
  destruct (get_account_id_run o sv
              {| objects := ob; s3_faults := []; head_oracle := ho; head_calls := hc |}
              bd en tr owner Howner) as [tr' Eacc].
  unfold try_except at 1. unfold bind at 1. rewrite Eacc, Hengine.
  unfold put_object. run. rewrite Hvb.
  eexists _, _. split; [reflexivity |].
  unfold handle_analysis_status, get_object, on_no_such_key. run.
  rewrite lookup_insert_eq. run. cbn [loads_job_info status]. run.
  rewrite String.eqb_refl. run.
  rewrite lookup_insert_ne by apply ledger_keys_differ.
  rewrite lookup_insert_eq. run. cbn [loads_analysis_result]. run.
  split; reflexivity.
Qed.

(** X21.  A failure of the engine is recorded and reported.  On a payload
    with all its parameters, for the video bucket, when the account cannot
    be resolved or the engine refuses the request, and the blob store
    accepts every call, the worker answers 500 with the text of the error,
    leaves the result of the job as it was, and a status request for the job
    is then answered 200 with status [Failed] and that text. *)
Theorem failed_analysis_is_reported
    (payload : AsyncPayload) (cors : list (string * string)) (w : @World num) (e : exn) :
  ap_analysisJobId payload <> "" -> ap_s3Uri payload <> "" -> ap_prompt payload <> "" ->
  ap_bucketName payload <> "" -> ap_bucketName payload = VIDEO_BUCKET (env w) ->
  engine_error payload w e ->
  s3_faults (s3 w) = [] ->
  exists w1 w2,
    process_analysis_async payload w
    = (Val (worker_answer 500 (WorkerFailed (exn_str e) (ap_analysisJobId payload))), w1)
    /\ objects (s3 w1) !! (VIDEO_BUCKET (env w), result_key (ap_analysisJobId payload))
       = objects (s3 w) !! (VIDEO_BUCKET (env w), result_key (ap_analysisJobId payload))
    /\ handle_analysis_status (ap_analysisJobId payload) cors w1
       = (Val (respond 200 cors
                 (AnalysisFailed (ap_analysisJobId payload) (exn_str e) "Analysis failed")),
          w2).
Proof.
  destruct w as [o sv [ob fl ho hc] bd en tr]. unfold engine_error.
  cbn [env s3 s3_faults objects].
  intros Hid Huri Hprompt Hbucket Hvb Herr ->.
  unfold process_analysis_async.
  rewrite !truthy_nonempty by assumption. cbn [andb negb].
  unfold get_account_id, resolved_account_id in *. run.
  destruct (Py.truthy (AWS_ACCOUNT_ID en)) eqn:Hacc; run.
  - destruct (AWS_ACCOUNT_ID en) as [a|]; [| discriminate Hacc].
    cbn [default from_option id]. rewrite Herr. unfold put_object. run. rewrite Hvb.
    eexists _, _. split; [reflexivity |]. cbn [s3 objects].
    split.
    { apply lookup_insert_ne, ledger_keys_differ. }
    unfold handle_analysis_status, get_object, on_no_such_key. run.
    rewrite lookup_insert_eq. run. cbn [loads_job_info status failed_job_info]. run.
    reflexivity.
  - destruct (sts_account en) as [se | a]; run.
    + subst e. unfold put_object. run. rewrite Hvb.
      eexists _, _. split; [reflexivity |]. cbn [s3 objects].
      split.
      { apply lookup_insert_ne, ledger_keys_differ. }
      unfold handle_analysis_status, get_object, on_no_such_key. run.
      rewrite lookup_insert_eq. run. cbn [loads_job_info status failed_job_info]. run.
      reflexivity.
    + rewrite Herr. unfold put_object. run. rewrite Hvb.
      eexists _, _. split; [reflexivity |]. cbn [s3 objects].
      split.
      { apply lookup_insert_ne, ledger_keys_differ. }
      unfold handle_analysis_status, get_object, on_no_such_key. run.
      rewrite lookup_insert_eq. run. cbn [loads_job_info status failed_job_info]. run.
      reflexivity.
Qed.

End Worker.

(** ** The further properties at concrete inputs *)

(** X2 at [videos/my.clip.mp4]. *)
Lemma safe_video_id_is_the_stem_witness :
  ("videos/" = "" \/ exists dir, "videos/" = dir +:+ "/")
  /\ Py.has_char "/" "my.clip" = false /\ Py.has_char " " "my.clip" = false
  /\ Py.has_char "/" "mp4" = false /\ Py.has_char "." "mp4" = false
  /\ safe_video_id "videos/my.clip.mp4" = "my.clip".
Proof.
  assert (Hp : "videos/" = "" \/ exists dir, "videos/" = dir +:+ "/")
    by (right; exists "videos"; reflexivity).
  split; [exact Hp |]. do 4 (split; [reflexivity |]).
  exact (safe_video_id_is_the_stem "videos/" "my.clip" "mp4" Hp
           eq_refl eq_refl eq_refl eq_refl).
Defined.

(** X3 at the completed job of [clip1]. *)
Lemma extract_video_metadata_recovers_folder_witness :
  default "" (br_modelInput_uri Examples.clip1_response) = ""
  /\ br_output_s3Uri Examples.clip1_response
     = Some ("s3://" +:+ "video-bucket" +:+ "/embeddings/" +:+ "clip1" +:+ "/" +:+ "")
  /\ Py.has_char "/" "video-bucket" = false /\ "video-bucket" <> "embeddings"
  /\ Py.has_char "/" "clip1" = false
  /\ Py.startswith "" "/" = false /\ Py.contains "" "s3://" = false
  /\ extract_video_metadata Examples.clip1_response
     = ("clip1", "s3://video-bucket/videos/clip1.mp4").
Proof.
  assert (Hne : "video-bucket" <> "embeddings") by discriminate.
  do 3 (split; [reflexivity |]). split; [exact Hne |]. do 3 (split; [reflexivity |]).
  exact (extract_video_metadata_recovers_folder Examples.clip1_response
           "video-bucket" "clip1" "" eq_refl eq_refl eq_refl Hne eq_refl eq_refl eq_refl).
Defined.

(** X4 at a response that carries the request. *)
Lemma extract_video_metadata_prefers_model_input_witness :
  br_modelInput_uri Scenarios.clip1_from_input
  = Some ("s3://video-bucket/videos" +:+ "/" +:+ "clip1" +:+ "." +:+ "mp4")
  /\ Py.startswith "s3://video-bucket/videos" "s3://" = true
  /\ Py.has_char "/" "clip1" = false
  /\ Py.has_char "/" "mp4" = false /\ Py.has_char "." "mp4" = false
  /\ extract_video_metadata Scenarios.clip1_from_input
     = ("clip1", "s3://video-bucket/videos/clip1.mp4").
Proof.
  do 5 (split; [reflexivity |]).
  exact (extract_video_metadata_prefers_model_input Scenarios.clip1_from_input
           "s3://video-bucket/videos" "clip1" "mp4" eq_refl eq_refl eq_refl eq_refl eq_refl).
Defined.

(** X5 at the video id [videos/my video.mp4], whose folder is
    [my_video]. *)
Lemma embedding_folder_is_what_materialization_recovers_witness :
  Py.has_char "/" "video-bucket" = false /\ "video-bucket" <> "embeddings"
  /\ Py.startswith "" "/" = false /\ Py.contains "" "s3://" = false
  /\ default "" (br_modelInput_uri Scenarios.my_video_response) = ""
  /\ br_output_s3Uri Scenarios.my_video_response
     = Some (embedding_output_uri "video-bucket" (safe_video_id "videos/my video.mp4")
               +:+ "")
  /\ extract_video_metadata Scenarios.my_video_response
     = ("my_video", "s3://video-bucket/videos/my_video.mp4").
Proof.
  assert (Hne : "video-bucket" <> "embeddings") by discriminate.
  assert (Hout : br_output_s3Uri Scenarios.my_video_response
                 = Some (embedding_output_uri "video-bucket"
                           (safe_video_id "videos/my video.mp4") +:+ ""))
    by (vm_compute; reflexivity).
  split; [reflexivity |]. split; [exact Hne |]. do 3 (split; [reflexivity |]).
  split; [exact Hout |].
  exact (proj1 (embedding_folder_is_what_materialization_recovers
                  Scenarios.my_video_response "video-bucket" "videos/my video.mp4" ""
                  eq_refl Hne eq_refl eq_refl eq_refl Hout)).
Defined.

(** X6 at the output location of [clip1]. *)
Lemma output_location_of_uri_witness :
  Py.has_char "/" "video-bucket" = false
  /\ Py.contains ("video-bucket" +:+ "/" +:+ "embeddings/clip1/") "s3://" = false
  /\ output_location "s3://video-bucket/embeddings/clip1/"
     = ("video-bucket", "embeddings/clip1//output.json").
Proof.
  assert (Hc : Py.contains ("video-bucket" +:+ "/" +:+ "embeddings/clip1/") "s3://" = false)
    by (vm_compute; reflexivity).
  split; [reflexivity |]. split; [exact Hc |].
  exact (output_location_of_uri "video-bucket" "embeddings/clip1/" eq_refl Hc).
Defined.

(** X7 at an object that never appears, with a maximum of four seconds. *)
Lemma wait_for_s3_object_is_paced_witness :
  (0 <= 4)%Z
  /\ Py.startswith "s3://b/k" "s3://" = true
  /\ length (Py.split1 (Py.drop 5 "s3://b/k") "/") = 2%nat
  /\ always_absent (head_oracle (s3 Examples.absent))
  /\ exists w' evs,
       wait_for_s3_object "s3://b/k" 4 Examples.absent = (Val false, w')
       /\ trace w' = evs
       /\ (inject_Z 4 <= total_slept evs)%Q /\ (total_slept evs < inject_Z 4 + 5)%Q.
Proof.
  assert (Hmax : (0 <= 4)%Z) by lia.
  assert (Habs : always_absent (head_oracle (s3 Examples.absent))).
  { intros n. exists Examples.no_such_key. split; reflexivity. }
  split; [exact Hmax |]. do 2 (split; [reflexivity |]). split; [exact Habs |].
  destruct (wait_for_s3_object_is_paced "s3://b/k" 4 Examples.absent Hmax)
    as (answer & w' & evs & E & Ht & _ & Hlt & Hnever).
  destruct (Hnever eq_refl eq_refl Habs) as [-> Hge].
  exists w', evs. split; [exact E |]. split; [exact Ht |]. split; [exact Hge | exact Hlt].
Defined.

(** X8 at the accepted submission of [clip1]. *)
Lemma accepted_job_is_reported_in_progress_witness :
  handle_analyze Examples.analyze_request [] Examples.demo_context Examples.fresh
  = (Val (fst Scenarios.accepted), snd Scenarios.accepted)
  /\ statusCode (fst Scenarios.accepted) = 202%Z
  /\ fst (next_fault (s3_faults (s3 (snd Scenarios.accepted)))) = None
  /\ default ∅ (queryStringParameters Scenarios.status_of_accepted) !! "analysisJobId"
     = Some "analysis_1700000000_0a1b2c3d"
  /\ exists w'',
       handle_status Scenarios.status_of_accepted [] (snd Scenarios.accepted)
       = (Val (respond 200 []
                 (AnalysisPending "InProgress" "analysis_1700000000_0a1b2c3d"
                    "Analysis is inprogress" "clip1" "2023-11-14 22:13:20 UTC")), w'').
Proof.
  assert (Hrun : handle_analyze Examples.analyze_request [] Examples.demo_context
                   Examples.fresh
                 = (Val (fst Scenarios.accepted), snd Scenarios.accepted))
    by (vm_compute; reflexivity).
  assert (Hid : default ∅ (queryStringParameters Scenarios.status_of_accepted)
                  !! "analysisJobId" = Some "analysis_1700000000_0a1b2c3d")
    by (vm_compute; reflexivity).
  split; [exact Hrun |]. do 2 (split; [reflexivity |]). split; [exact Hid |].
  destruct (accepted_job_is_reported_in_progress
              Examples.analyze_request [] Examples.demo_context Examples.fresh
              (fst Scenarios.accepted) (snd Scenarios.accepted) Hrun eq_refl eq_refl)
    as (job & message & video & Hbody & Hstatus).
  injection Hbody as <- _ <-.
  destruct (Hstatus Scenarios.status_of_accepted [] Hid) as (w'' & E & _).
  exists w''. exact E.
Defined.

(** X9 at a job that the ledger does not know. *)
Lemma handle_analysis_status_only_reads_witness :
  fst (next_fault (s3_faults (s3 Examples.fresh))) = None
  /\ objects (s3 Examples.fresh) !! (VIDEO_BUCKET (env Examples.fresh), job_key "job1") = None
  /\ exists resp w',
       handle_analysis_status "job1" [] Examples.fresh = (Val resp, w')
       /\ statusCode resp = 404%Z
       /\ objects (s3 w') = objects (s3 Examples.fresh).
Proof.
  assert (Hnone : objects (s3 Examples.fresh)
                    !! (VIDEO_BUCKET (env Examples.fresh), job_key "job1") = None)
    by (vm_compute; reflexivity).
  split; [reflexivity |]. split; [exact Hnone |].
  destruct (handle_analysis_status_only_reads "job1" [] Examples.fresh)
    as (resp & w' & evs & E & _ & _ & Hob & _ & _ & _ & _ & _ & _ & Hiff).
  exists resp, w'. split; [exact E |]. split; [| exact Hob].
  apply (Hiff eq_refl). exact Hnone.
Defined.

(** X10 on a fresh process. *)
Lemma ensure_vector_index_settles_witness :
  os_faults (opensearch Examples.fresh) = []
  /\ exists w1 w2,
       ensure_vector_index Examples.fresh = (Val tt, w1)
       /\ os_index (opensearch w1)
          = Some {| ix_embedding_type := Some "knn_vector"; ix_docs := [] |}
       /\ ensure_vector_index w1 = (Val tt, w2)
       /\ opensearch w2 = opensearch w1.
Proof.
  split; [reflexivity |].
  destruct (ensure_vector_index_settles Examples.fresh eq_refl)
    as (w1 & w2 & E1 & Hix & _ & _ & E2 & Hos & _).
  exists w1, w2. split; [exact E1 |]. split; [exact Hix |]. split; [exact E2 | exact Hos].
Defined.

(** X11 at an index with a dynamic mapping behind a cluster that times
    out. *)
Lemma ensure_vector_index_swallows_inspection_errors_witness :
  os_index (opensearch Scenarios.wrong_mapping)
  = Some {| ix_embedding_type := Some "float"; ix_docs := [] |}
  /\ os_faults (opensearch Scenarios.wrong_mapping)
     = [None; Some (PyException "ConnectionTimeout")]
  /\ exists w',
       ensure_vector_index Scenarios.wrong_mapping = (Val tt, w')
       /\ os_index (opensearch w')
          = Some {| ix_embedding_type := Some "float"; ix_docs := [] |}.
Proof.
  do 2 (split; [reflexivity |]).
  destruct (ensure_vector_index_swallows_inspection_errors Scenarios.wrong_mapping
              {| ix_embedding_type := Some "float"; ix_docs := [] |}
              (PyException "ConnectionTimeout") [] eq_refl (or_introl eq_refl))
    as (w' & evs & E & Hix & _).
  exists w'. split; [exact E | exact Hix].
Defined.

(** X12 on a fresh process. *)
Lemma vector_bucket_cache_is_never_stale_witness :
  exists w',
    get_or_create_s3_vector_bucket Examples.fresh
    = (Val (Some "video-s3vectors-123456789012-us-east-1"), w')
    /\ S3_VECTOR_BUCKET (s3vectors w') = Some "video-s3vectors-123456789012-us-east-1"
    /\ is_Some (lookup_index w' "video-s3vectors-123456789012-us-east-1" S3_VECTOR_INDEX).
Proof.
  assert (Hrun : exists w',
            get_or_create_s3_vector_bucket Examples.fresh
            = (Val (Some "video-s3vectors-123456789012-us-east-1"), w'))
    by (eexists; vm_compute; reflexivity).
  destruct Hrun as [w' E]. exists w'. split; [exact E |].
  destruct (vector_bucket_cache_is_never_stale Examples.fresh _ _ E)
    as [(Hname & _ & Hinit) _].
  split; [now rewrite <- Hname |].
  destruct (Hinit eq_refl) as (b & Hb & Hix). now injection Hb as <-.
Defined.

(** X13 at the three segments of [clip1]. *)
Lemma stored_segments_are_retrievable_witness :
  s3vectors_up Examples.fresh
  /\ Examples.three_segments !! 1%nat = Some (Examples.segment 10 20 [0; 1]%Z)
  /\ exists w',
       store_embeddings_to_s3_vectors "clip1" "s3://video-bucket/videos/clip1.mp4"
         Examples.three_segments Examples.fresh
       = (Val (Stored 3 "clip1"), w')
       /\ stored_vectors w' !! "clip1_segment_1_10"
          = Some (make_vector "clip1" "s3://video-bucket/videos/clip1.mp4" 1
                    (Examples.segment 10 20 [0; 1]%Z)).
Proof.
  assert (Hsv : s3vectors_up Examples.fresh)
    by (split; [reflexivity | eexists; reflexivity]).
  split; [exact Hsv |]. split; [reflexivity |].
  destruct (stored_segments_are_retrievable "clip1" "s3://video-bucket/videos/clip1.mp4"
              Examples.three_segments Examples.fresh Hsv)
    as (w' & E & Hget & _).
  exists w'. split; [exact E |].
  exact (Hget 1%nat (Examples.segment 10 20 [0; 1]%Z) eq_refl).
Defined.

(** X14 at a request whose body is a number: the preview raises and
    nothing is routed. *)
Lemma handler_answers_past_its_log_lines_witness :
  handler (platform := Scenarios.demo_platform)
    (ApiCall (Some "POST") (Some "/upload") (Some Scenarios.not_subscriptable)
       Examples.no_parameter_request)
    (inr Examples.demo_context) Examples.fresh
  = (Exc Scenarios.not_subscriptable, Examples.fresh).
Proof.
  exact (handler_answers_past_its_log_lines (platform := Scenarios.demo_platform)
           (ApiCall (Some "POST") (Some "/upload") (Some Scenarios.not_subscriptable)
              Examples.no_parameter_request)
           (inr Examples.demo_context) Examples.fresh).
Defined.

(** X15 at the embedding request of [clip1]. *)
Lemma handle_embed_starts_after_the_object_is_seen_witness :
  exists resp w',
    handle_embed Scenarios.embed_request [] Examples.fresh = (Val resp, w')
    /\ rr_statusCode resp = 202%Z
    /\ StartAsyncInvoke "video" ∈ trace w'
    /\ rr_body resp
       = EmbedAccepted (Some "arn:job") "processing" "Embedding generation started".
Proof.
  destruct (handle_embed_starts_after_the_object_is_seen
              Scenarios.embed_request [] Examples.fresh)
    as (resp & w' & evs & E & Htrace & _ & _ & _ & _ & Haccepted).
  assert (Hcode : rr_statusCode resp = 202%Z).
  { assert (E' := E). vm_compute in E'. injection E' as <- _. reflexivity. }
  destruct (Haccepted Hcode) as (Hin & arn & Harn & Hbody).
  injection Harn as <-.
  exists resp, w'. split; [exact E |]. split; [exact Hcode |].
  split; [rewrite Htrace; exact Hin | exact Hbody].
Defined.

(** X16 at the playback request of [clip1], with the object present and
    with the check refused. *)
Lemma handle_video_url_signs_what_it_checked_witness :
  (exists resp w' bucket key url,
      handle_video_url (platform := Scenarios.demo_platform)
        Scenarios.playback_request [] Examples.fresh = (Val resp, w')
      /\ rr_statusCode resp = 200%Z
      /\ w' = checked bucket key Examples.fresh
      /\ generate_presigned_url (Platform := Scenarios.demo_platform) bucket key = inr url
      /\ rr_body resp
         = PlaybackUrl url ("s3://" +:+ bucket +:+ "/" +:+ key) bucket key)
  /\ default ∅ (queryStringParameters Scenarios.playback_request) !! "videoS3Uri"
     = Some ("s3://" +:+ "video-bucket" +:+ "/" +:+ "videos/clip1.mp4")
  /\ Py.has_char "/" "video-bucket" = false
  /\ head_oracle (s3 Examples.denied) (head_calls (s3 Examples.denied))
     = Some Examples.access_denied
  /\ handle_video_url (platform := Scenarios.demo_platform)
       Scenarios.playback_request [] Examples.denied
     = (Val (route_error 404 [] ("Video file not found in S3: " +:+ "videos/clip1.mp4")),
        checked "video-bucket" "videos/clip1.mp4" Examples.denied).
Proof.
  assert (Hquery : default ∅ (queryStringParameters Scenarios.playback_request)
                     !! "videoS3Uri"
                   = Some ("s3://" +:+ "video-bucket" +:+ "/" +:+ "videos/clip1.mp4"))
    by (vm_compute; reflexivity).
  destruct (handle_video_url_signs_what_it_checked (platform := Scenarios.demo_platform)
              Scenarios.playback_request [] Examples.fresh) as [Hsigned _].
  destruct (handle_video_url_signs_what_it_checked (platform := Scenarios.demo_platform)
              Scenarios.playback_request [] Examples.denied) as [_ Hrefused].
  split.
  - assert (Hrun : exists resp w',
              handle_video_url (platform := Scenarios.demo_platform)
                Scenarios.playback_request [] Examples.fresh = (Val resp, w')
              /\ rr_statusCode resp = 200%Z)
      by (eexists _, _; vm_compute; split; reflexivity).
    destruct Hrun as (resp & w' & E & Hcode).
    destruct (Hsigned resp w' E Hcode)
      as (bucket & key & url & _ & _ & _ & Hw & Hurl & Hbody).
    exists resp, w', bucket, key, url. auto.
  - split; [exact Hquery |]. split; [reflexivity |]. split; [reflexivity |].
    exact (Hrefused "video-bucket" "videos/clip1.mp4" Examples.access_denied
             Hquery eq_refl eq_refl).
Defined.


(** X18 at the index that holds the three segments of [clip1]. *)
Lemma flush_then_search_finds_nothing_witness :
  opensearch_up Examples.indexed
  /\ exists resp w' w'',
       handle_flush_opensearch Examples.no_parameter_request [] Examples.indexed
       = (Val resp, w')
       /\ rr_statusCode resp = 200%Z
       /\ rr_body resp
          = Flushed "Successfully flushed OpenSearch index video-embeddings"
              (inl 3%nat) 3
       /\ search_opensearch [1; 0]%Z 5 w'
          = (Val {| so_results := []; so_total := 0; so_message := None;
                    so_error := None |}, w'').
Proof.
  assert (Hup : opensearch_up Examples.indexed) by (split; reflexivity).
  split; [exact Hup |].
  destruct (flush_then_search_finds_nothing Examples.no_parameter_request []
              Examples.indexed Hup)
    as (resp & w' & E & Hcode & Hbody & _ & Hsearch).
  destruct (Hsearch [1; 0]%Z 5%nat) as [w'' Efound].
  exists resp, w', w''. split; [exact E |]. split; [exact Hcode |].
  split; [exact Hbody | exact Efound].
Defined.

(** X19 at a submission for [clip1] with an empty prompt. *)
Lemma empty_prompt_is_accepted_and_never_processed_witness :
  handle_analyze Scenarios.empty_prompt_request [] Examples.demo_context Examples.fresh
  = (Val (fst Scenarios.accepted_without_prompt), snd Scenarios.accepted_without_prompt)
  /\ statusCode (fst Scenarios.accepted_without_prompt) = 202%Z
  /\ ev_body Scenarios.empty_prompt_request
     = inr (<["s3Uri" := "s3://video-bucket/videos/clip1.mp4"]>
              (<["prompt" := ""]> (<["videoId" := "clip1"]> ∅)))
  /\ (<["s3Uri" := "s3://video-bucket/videos/clip1.mp4"]>
        (<["prompt" := ""]> (<["videoId" := "clip1"]> ∅)) : gmap string string) !! "prompt"
     = Some ""
  /\ exists payload,
       ap_prompt payload = ""
       /\ handler (platform := Scenarios.demo_platform) (AsyncCall payload)
            (inr Examples.demo_context) (snd Scenarios.accepted_without_prompt)
          = (Val (worker_answer 500
                    (WorkerFailed "Missing required parameters for async analysis processing"
                       (ap_analysisJobId payload))),
             snd Scenarios.accepted_without_prompt).
Proof.
  assert (Hrun : handle_analyze Scenarios.empty_prompt_request [] Examples.demo_context
                   Examples.fresh
                 = (Val (fst Scenarios.accepted_without_prompt),
                    snd Scenarios.accepted_without_prompt))
    by (vm_compute; reflexivity).
  assert (Hprompt : (<["s3Uri" := "s3://video-bucket/videos/clip1.mp4"]>
                       (<["prompt" := ""]> (<["videoId" := "clip1"]> ∅))
                     : gmap string string) !! "prompt" = Some "")
    by (vm_compute; reflexivity).
  split; [exact Hrun |]. do 2 (split; [reflexivity |]). split; [exact Hprompt |].
  destruct (empty_prompt_is_accepted_and_never_processed (platform := Scenarios.demo_platform)
              Scenarios.empty_prompt_request [] Examples.demo_context Examples.fresh
              (fst Scenarios.accepted_without_prompt)
              (snd Scenarios.accepted_without_prompt) _ Hrun eq_refl eq_refl Hprompt)
    as (function_name & payload & pre & job_info & _ & _ & Hempty & _ & _ & Hworker).
  exists payload. split; [exact Hempty |].
  exact (Hworker (inr Examples.demo_context) (snd Scenarios.accepted_without_prompt)).
Defined.

(** X20 at the payload of [clip1], after its submission was accepted. *)
Lemma completed_analysis_is_served_witness :
  ap_analysisJobId Scenarios.clip1_payload <> ""
  /\ ap_s3Uri Scenarios.clip1_payload <> "" /\ ap_prompt Scenarios.clip1_payload <> ""
  /\ ap_bucketName Scenarios.clip1_payload <> ""
  /\ ap_bucketName Scenarios.clip1_payload = VIDEO_BUCKET (env (snd Scenarios.accepted))
  /\ resolved_account_id (env (snd Scenarios.accepted)) = Some "123456789012"
  /\ s3_faults (s3 (snd Scenarios.accepted)) = []
  /\ exists w1 w2,
       process_analysis_async (platform := Scenarios.demo_platform) Scenarios.clip1_payload
         (snd Scenarios.accepted)
       = (Val (worker_answer 200
                 (WorkerCompleted "analysis_1700000000_0a1b2c3d" "Completed")), w1)
       /\ handle_analysis_status "analysis_1700000000_0a1b2c3d" [] w1
          = (Val (respond 200 []
                    (AnalysisCompleted "analysis_1700000000_0a1b2c3d" "clip1"
                       "A dog runs along a beach." "stop"
                       "Analyze this video and provide a detailed description" 12%Z
                       "2023-11-14 22:13:20 UTC" "Analysis completed successfully")), w2).
Proof.
  assert (Hid : ap_analysisJobId Scenarios.clip1_payload <> "") by discriminate.
  assert (Huri : ap_s3Uri Scenarios.clip1_payload <> "") by discriminate.
  assert (Hprompt : ap_prompt Scenarios.clip1_payload <> "") by discriminate.
  assert (Hbucket : ap_bucketName Scenarios.clip1_payload <> "") by discriminate.
  do 4 (split; [assumption |]). do 3 (split; [reflexivity |]).
  destruct (completed_analysis_is_served (platform := Scenarios.demo_platform)
              Scenarios.clip1_payload [] (snd Scenarios.accepted) "123456789012"
              {| pg_message := Some "A dog runs along a beach.";
                 pg_finishReason := Some "stop" |}
              Hid Huri Hprompt Hbucket eq_refl eq_refl eq_refl eq_refl)
    as (w1 & w2 & Eworker & Estatus & _).
  exists w1, w2. split; [exact Eworker | exact Estatus].
Defined.

(** X21 at the payload of [clip1], with an engine that refuses it. *)
Lemma failed_analysis_is_reported_witness :
  ap_analysisJobId Scenarios.clip1_payload <> ""
  /\ ap_s3Uri Scenarios.clip1_payload <> "" /\ ap_prompt Scenarios.clip1_payload <> ""
  /\ ap_bucketName Scenarios.clip1_payload <> ""
  /\ ap_bucketName Scenarios.clip1_payload = VIDEO_BUCKET (env (snd Scenarios.accepted))
  /\ engine_error (platform := Scenarios.refusing_platform) Scenarios.clip1_payload
       (snd Scenarios.accepted) Scenarios.refused
  /\ s3_faults (s3 (snd Scenarios.accepted)) = []
  /\ exists w1 w2,
       process_analysis_async (platform := Scenarios.refusing_platform)
         Scenarios.clip1_payload (snd Scenarios.accepted)
       = (Val (worker_answer 500
                 (WorkerFailed (exn_str Scenarios.refused) "analysis_1700000000_0a1b2c3d")),
          w1)
       /\ handle_analysis_status "analysis_1700000000_0a1b2c3d" [] w1
          = (Val (respond 200 []
                    (AnalysisFailed "analysis_1700000000_0a1b2c3d"
                       (exn_str Scenarios.refused) "Analysis failed")), w2).
Proof.
  assert (Hid : ap_analysisJobId Scenarios.clip1_payload <> "") by discriminate.
  assert (Huri : ap_s3Uri Scenarios.clip1_payload <> "") by discriminate.
  assert (Hprompt : ap_prompt Scenarios.clip1_payload <> "") by discriminate.
  assert (Hbucket : ap_bucketName Scenarios.clip1_payload <> "") by discriminate.
  assert (Herror : engine_error (platform := Scenarios.refusing_platform)
                     Scenarios.clip1_payload (snd Scenarios.accepted) Scenarios.refused)
    by reflexivity.
  do 4 (split; [assumption |]). split; [reflexivity |]. split; [exact Herror |].
  split; [reflexivity |].
  destruct (failed_analysis_is_reported (platform := Scenarios.refusing_platform)
              Scenarios.clip1_payload [] (snd Scenarios.accepted) Scenarios.refused
              Hid Huri Hprompt Hbucket eq_refl Herror eq_refl)
    as (w1 & w2 & Eworker & _ & Estatus).
  exists w1, w2. split; [exact Eworker | exact Estatus].
Defined.
